(** * WorldQuant Brain batch alpha tooling: a shallow embedding

    The development follows the three Python modules of the repository:
    [session_manager.py] (module [SessionManager]), [brain_batch_alpha.py]
    (module [BrainBatchAlpha]) and [main.py] (module [Main]).  Python values
    decoded from JSON are the inductive type [json]; Python floats are the
    kernel's binary64 numbers; exceptions are explicit results; the network,
    the clock and the disk are an explicit [world] threaded through a small
    state-and-exception monad. *)

From Stdlib Require Import ZArith String Ascii List Bool Floats Lia.
From stdpp Require Import base option list strings pretty gmap.
Import ListNotations.

Set Warnings "-inexact-float,-register-all".
#[local] Open Scope string_scope.
#[local] Open Scope Z_scope.

(** ** Python values and exceptions *)

(** What [json.loads] produces: [None], [bool], [int], [float], [str],
    [list] and [dict] (kept in insertion order; [dict_get] reads the first
    binding of a key). *)
Inductive json : Type :=
| JNull
| JBool (b : bool)
| JInt (z : Z)
| JFloat (f : float)
| JStr (s : string)
| JArr (l : list json)
| JObj (d : list (string * json)).

(** The exception classes the modelled code can meet.  All of them derive
    from [Exception], so an [except Exception] clause catches every one;
    [KeyError] is singled out by [_simulate_single_alpha]. *)
Inductive exn : Type :=
| TypeError
| ValueError (msg : string)
| KeyError (key : string)
| AttributeError
| OverflowError
| JSONDecodeError
| RequestException
| OSError
| PlainException (msg : string).

Definition is_KeyError (e : exn) : bool :=
  match e with KeyError _ => true | _ => false end.

(** A pure Python computation: a value or a raised exception. *)
Inductive result (A : Type) : Type :=
| Ok (a : A)
| Err (e : exn).
Arguments Ok {A} a.
Arguments Err {A} e.

#[global] Instance result_ret : MRet result := fun _ a => Ok a.
#[global] Instance result_bind : MBind result := fun _ _ f r =>
  match r with
  | Ok a => f a
  | Err e => Err e
  end.

(** [try: body except Exception as e: handler e]. *)
Definition try_except {A} (body : result A) (handler : exn -> result A) : result A :=
  match body with
  | Ok a => Ok a
  | Err e => handler e
  end.

(** *** Dictionaries *)

Fixpoint dict_get (k : string) (d : list (string * json)) : option json :=
  match d with
  | [] => None
  | (k', v) :: d' => if String.eqb k k' then Some v else dict_get k d'
  end.

(** [obj.get(key, default)]: only a [dict] has the method. *)
Definition py_get (obj : json) (key : string) (dflt : json) : result json :=
  match obj with
  | JObj d => Ok (default dflt (dict_get key d))
  | _ => Err AttributeError
  end.

(** [obj[key]] with a [str] key: a [dict] answers or raises [KeyError];
    a [str] or [list] wants integer indices, the rest is not subscriptable. *)
Definition py_getitem (obj : json) (key : string) : result json :=
  match obj with
  | JObj d =>
      match dict_get key d with
      | Some v => Ok v
      | None => Err (KeyError key)
      end
  | _ => Err TypeError
  end.

(** [v == s] for a [str] literal [s]. *)
Definition py_eq_str (v : json) (s : string) : bool :=
  match v with
  | JStr s' => String.eqb s' s
  | _ => false
  end.

(** Truth value of an object, as [if not v] tests it. *)
Definition py_truthy (v : json) : bool :=
  match v with
  | JNull => false
  | JBool b => b
  | JInt z => negb (Z.eqb z 0)
  | JFloat f => negb (PrimFloat.eqb f 0%float)
  | JStr s => negb (String.eqb s EmptyString)
  | JArr l => match l with [] => false | _ => true end
  | JObj d => match d with [] => false | _ => true end
  end.

Fixpoint chars (s : string) : list json :=
  match s with
  | EmptyString => []
  | String c s' => JStr (String c EmptyString) :: chars s'
  end.

(** The items a [for] loop or a generator draws from an object: the
    elements of a [list], the keys of a [dict], the characters of a [str];
    anything else is not iterable. *)
Definition py_iter (v : json) : result (list json) :=
  match v with
  | JArr l => Ok l
  | JObj d => Ok (map (fun kv => JStr (fst kv)) d)
  | JStr s => Ok (chars s)
  | _ => Err TypeError
  end.

(** *** Floats *)

(** [float(n)] for an [int]: round to nearest even, [OverflowError] when
    the integer is beyond the binary64 range. *)
Definition float_of_int (z : Z) : result float :=
  match binary_normalize prec emax z 0 false with
  | S754_infinity _ => Err OverflowError
  | sf => Ok (SF2Prim sf)
  end.

(** [float(s)] for a [str] is Python's own numeral parser; the embedding
    takes it as an interface.  [None] stands for [ValueError]. *)
Class FloatOfStr := float_of_str : string -> option float.

(** [str(v)], as an f-string formats a value that is not itself a [str]
    (the [repr] of numbers and containers), is an interface as well. *)
Class StrOf := str_of : json -> string.

Definition py_str `{StrOf} (v : json) : string :=
  match v with
  | JStr s => s
  | _ => str_of v
  end.

Section Float.
Context `{FloatOfStr}.

(** The builtin [float(v)]. *)
Definition py_float (v : json) : result float :=
  match v with
  | JFloat f => Ok f
  | JInt z => float_of_int z
  | JBool b => Ok (if b then 1%float else 0%float)
  | JStr s =>
      match float_of_str s with
      | Some f => Ok f
      | None => Err (ValueError "could not convert string to float")
      end
  | JNull | JArr _ | JObj _ => Err TypeError
  end.
End Float.

(** A reference instance of [str_of] for the constants and the integers;
    floats and containers, which the samples below never format, are left
    blank. *)
Definition str_of_scalars : StrOf := fun v =>
  match v with
  | JNull => "None"
  | JBool true => "True"
  | JBool false => "False"
  | JInt z => pretty z
  | _ => EmptyString
  end.

(** A reference instance of the parser for plain decimal numerals
    [[+-]digits[.digits]], correctly rounded; other strings are rejected. *)
Definition digit_of (c : ascii) : option Z :=
  let n := Z.of_N (N_of_ascii c) in
  if (48 <=? n) && (n <=? 57) then Some (n - 48) else None.

Fixpoint digits_acc (s : string) (acc : Z) (count : nat) : option (Z * nat * string) :=
  match s with
  | EmptyString => Some (acc, count, EmptyString)
  | String c s' =>
      match digit_of c with
      | Some d => digits_acc s' (10 * acc + d) (S count)
      | None => Some (acc, count, s)
      end
  end.

Definition float_of_ratio (neg : bool) (num den : Z) : float :=
  match num with
  | Z0 => if neg then (-0)%float else 0%float
  | _ =>
      let '(q, e, l) := SFdiv_core_binary prec emax num 0 den 0 in
      SF2Prim (binary_round_aux prec emax neg q e l)
  end.

Definition decimal_unsigned (neg : bool) (s : string) : option float :=
  match digits_acc s 0 0 with
  | Some (ip, S _, EmptyString) => Some (float_of_ratio neg ip 1)
  | Some (ip, S _, String "." rest) =>
      match digits_acc rest ip 0 with
      | Some (m, S k, EmptyString) => Some (float_of_ratio neg m (10 ^ Z.of_nat (S k)))
      | _ => None
      end
  | _ => None
  end.

Definition decimal_float : FloatOfStr := fun s =>
  match s with
  | String "-" s' => decimal_unsigned true s'
  | String "+" s' => decimal_unsigned false s'
  | _ => decimal_unsigned false s
  end.


(** ** Strings as Python reads them *)

Definition lower_ascii (c : ascii) : ascii :=
  let n := N_of_ascii c in
  if (65 <=? n)%N && (n <=? 90)%N then ascii_of_N (n + 32) else c.

(** [s.lower()], on ASCII letters. *)
Fixpoint lower (s : string) : string :=
  match s with
  | EmptyString => EmptyString
  | String c s' => String (lower_ascii c) (lower s')
  end.

(** [c.isspace()] for an ASCII character: tab to carriage return, the four
    separators and the blank. *)
Definition isspace (c : ascii) : bool :=
  let n := N_of_ascii c in
  ((9 <=? n)%N && (n <=? 13)%N) || ((28 <=? n)%N && (n <=? 32)%N).

Fixpoint lstrip (s : string) : string :=
  match s with
  | EmptyString => EmptyString
  | String c s' => if isspace c then lstrip s' else s
  end.

Fixpoint rstrip (s : string) : string :=
  match s with
  | EmptyString => EmptyString
  | String c s' =>
      match rstrip s' with
      | EmptyString => if isspace c then EmptyString else String c EmptyString
      | t => String c t
      end
  end.

(** [s.strip()]. *)
Definition strip (s : string) : string := rstrip (lstrip s).

Definition LF : ascii := ascii_of_N 10.
Definition CR : ascii := ascii_of_N 13.

(** [f.readlines()] of a file opened in text mode: the text is cut after
    every line feed, carriage return or carriage return and line feed, each
    read as one line feed.  [cur] is the line being read, reversed. *)
Fixpoint readlines_from (s : string) (cur : list ascii) : list string :=
  match s with
  | EmptyString =>
      match cur with
      | [] => []
      | _ => [string_of_list_ascii (rev cur)]
      end
  | String c s' =>
      if Ascii.eqb c LF then string_of_list_ascii (rev (LF :: cur)) :: readlines_from s' []
      else if Ascii.eqb c CR then
        match s' with
        | String c' s'' =>
            if Ascii.eqb c' LF
            then string_of_list_ascii (rev (LF :: cur)) :: readlines_from s'' []
            else string_of_list_ascii (rev (LF :: cur)) :: readlines_from s' []
        | EmptyString => [string_of_list_ascii (rev (LF :: cur))]
        end
      else readlines_from s' (c :: cur)
  end.

Definition readlines (s : string) : list string := readlines_from s [].

(** [needle in haystack] for two strings. *)
Fixpoint is_substring (needle haystack : string) : bool :=
  String.prefix needle haystack ||
  match haystack with
  | EmptyString => false
  | String _ h' => is_substring needle h'
  end.

(** ['is' in obj]: key of a [dict], element of a [list], substring of a
    [str]; other objects are not containers. *)
Definition py_contains_str (key : string) (obj : json) : result bool :=
  match obj with
  | JObj d => Ok (bool_decide (is_Some (dict_get key d)))
  | JArr l => Ok (existsb (fun v => py_eq_str v key) l)
  | JStr s => Ok (is_substring key s)
  | _ => Err TypeError
  end.

(** ** The world: remote service, clock and disk *)

Inductive verb : Type := GET | POST.

(** The addresses the client talks to.  [Location] is a poll address the
    service handed out; [Alpha] and [Submit] are the two f-string addresses
    built from an alpha identifier. *)
Inductive url : Type :=
| Authentication
| Simulations
| Location (target : string)
| Alpha (alpha_id : json)
| Submit (alpha_id : string)
| Address (text : string).

Record response : Type := Response {
  status_code : Z;
  headers : list (string * string);
  json_body : option json   (* [None]: the body is not JSON *)
}.

(** What the service does with one request: it answers, or the transport
    fails ([requests] raises).  [took] is the time the exchange lasts, in
    microseconds. *)
Inductive reply : Type :=
| Responds (r : response)
| TransportFails.

Record exchange : Type := Exchange { reply_of : reply; took : Z }.

Inductive event : Type :=
| Sent (v : verb) (u : url) (payload : option json)
| Slept (seconds : float).

(** One row of the dictionary [_simulate_single_alpha] returns. *)
Record sim_result : Type := SimResult {
  expression : json;
  alpha_id : json;
  passed_all_checks : bool;
  metrics : json;
  timestamp : Z
}.

Inductive csv_line : Type :=
| CsvHeader
| CsvRow (r : sim_result).

Record world : Type := World {
  now : Z;                          (* the clock, in microseconds *)
  wire : list exchange;             (* the exchanges to come, in order *)
  history : list event;             (* requests and pauses, latest first *)
  session : option nat;             (* SessionManager.session *)
  session_created_at : option Z;    (* SessionManager.session_created_at *)
  sessions_made : nat;              (* how many requests.Session() so far *)
  disk_faults : list bool;          (* per disk operation: does it fail *)
  dirs : gset string;
  texts : gmap string string;
  tables : gmap string (list csv_line)
}.

Definition set_now (t : Z) (w : world) : world :=
  World t (wire w) (history w) (session w) (session_created_at w)
        (sessions_made w) (disk_faults w) (dirs w) (texts w) (tables w).
Definition set_wire (x : list exchange) (w : world) : world :=
  World (now w) x (history w) (session w) (session_created_at w)
        (sessions_made w) (disk_faults w) (dirs w) (texts w) (tables w).
Definition set_history (h : list event) (w : world) : world :=
  World (now w) (wire w) h (session w) (session_created_at w)
        (sessions_made w) (disk_faults w) (dirs w) (texts w) (tables w).
Definition set_session (s : option nat) (n : nat) (w : world) : world :=
  World (now w) (wire w) (history w) s (session_created_at w)
        n (disk_faults w) (dirs w) (texts w) (tables w).
Definition set_session_created_at (t : option Z) (w : world) : world :=
  World (now w) (wire w) (history w) (session w) t
        (sessions_made w) (disk_faults w) (dirs w) (texts w) (tables w).
Definition set_disk_faults (d : list bool) (w : world) : world :=
  World (now w) (wire w) (history w) (session w) (session_created_at w)
        (sessions_made w) d (dirs w) (texts w) (tables w).
Definition set_dirs (d : gset string) (w : world) : world :=
  World (now w) (wire w) (history w) (session w) (session_created_at w)
        (sessions_made w) (disk_faults w) d (texts w) (tables w).
Definition set_texts (t : gmap string string) (w : world) : world :=
  World (now w) (wire w) (history w) (session w) (session_created_at w)
        (sessions_made w) (disk_faults w) (dirs w) t (tables w).
Definition set_tables (t : gmap string (list csv_line)) (w : world) : world :=
  World (now w) (wire w) (history w) (session w) (session_created_at w)
        (sessions_made w) (disk_faults w) (dirs w) (texts w) t.

(** ** The monad of effectful Python code *)

(** A call returns, raises, or never comes back ([Blocks]: the service
    stops answering, so the call waits for ever). *)
Inductive outcome (A : Type) : Type :=
| Returns (a : A)
| Raises (e : exn)
| Blocks.
Arguments Returns {A} a.
Arguments Raises {A} e.
Arguments Blocks {A}.

Definition M (A : Type) : Type := world -> outcome A * world.

#[global] Instance M_ret : MRet M := fun _ a w => (Returns a, w).
#[global] Instance M_bind : MBind M := fun _ _ f m w =>
  match m w with
  | (Returns a, w') => f a w'
  | (Raises e, w') => (Raises e, w')
  | (Blocks, w') => (Blocks, w')
  end.

Definition raise {A} (e : exn) : M A := fun w => (Raises e, w).
Definition blocks {A} : M A := fun w => (Blocks, w).

Definition lift {A} (r : result A) : M A :=
  match r with
  | Ok a => mret a
  | Err e => raise e
  end.

(** [try: body except <classes matched by catches>: handler]. *)
Definition try_catch {A} (catches : exn -> bool) (body : M A) (handler : exn -> M A) : M A :=
  fun w =>
    match body w with
    | (Raises e, w') => if catches e then handler e w' else (Raises e, w')
    | r => r
    end.

Definition Exception (e : exn) : bool := true.

Definition ask {A} (f : world -> A) : M A := fun w => (Returns (f w), w).
Definition change (f : world -> world) : M unit := fun w => (Returns tt, f w).

(** Loops that end only when the service says so get as many rounds as
    there are exchanges left, plus one: every round uses at least one. *)
Definition with_fuel {A} (f : nat -> M A) : M A :=
  fun w => f (S (length (wire w))) w.

(** [datetime.now()]. *)
Definition datetime_now : M Z := ask now.

(** The whole microseconds in a finite non-negative float of seconds. *)
Definition micros (f : float) : Z :=
  match Prim2SF f with
  | S754_finite false m e =>
      if (0 <=? e) then Z.pos m * 2 ^ e * 1000000 else Z.pos m * 1000000 / 2 ^ (- e)
  | _ => 0
  end.

(** The longest pause a C timestamp of 64 bits of nanoseconds holds, in
    microseconds. *)
Definition longest_sleep : Z := 9223372036854775.

(** [time.sleep(seconds)]: a negative or NaN duration is a [ValueError],
    an infinite or too long one an [OverflowError]. *)
Definition sleep (seconds : float) : M unit :=
  match Prim2SF seconds with
  | S754_nan => raise (ValueError "Invalid value NaN (not a number)")
  | S754_infinity false => raise OverflowError
  | S754_infinity true | S754_finite true _ _ =>
      raise (ValueError "sleep length must be non-negative")
  | _ =>
      if longest_sleep <? micros seconds then raise OverflowError
      else
        change (fun w => set_history (Slept seconds :: history w)
                           (set_now (now w + micros seconds) w))
  end.

(** One request on the wire, sent through a [requests.Session]. *)
Definition send (v : verb) (u : url) (payload : option json) : M response :=
  fun w =>
    let w1 := set_history (Sent v u payload :: history w) w in
    match wire w with
    | [] => (Blocks, w1)
    | x :: rest =>
        let w2 := set_wire rest (set_now (now w + took x) w1) in
        match reply_of x with
        | Responds r => (Returns r, w2)
        | TransportFails => (Raises RequestException, w2)
        end
    end.

(** Disk operations fail ([OSError]) when the next entry of [disk_faults]
    says so. *)
Definition disk_op : M unit :=
  fun w =>
    match disk_faults w with
    | true :: rest => (Raises OSError, set_disk_faults rest w)
    | false :: rest => (Returns tt, set_disk_faults rest w)
    | [] => (Returns tt, w)
    end.

(** ** session_manager.py *)

Module SessionManager.

(** [timedelta(hours=3.5)], in microseconds. *)
Definition session_valid_duration : Z := 12600000000.

Definition create_session : M nat :=
  (* self.session = requests.Session(); self.session.auth = ... *)
  n ← ask sessions_made;
  change (set_session (Some n) (S n));;
  response ← send POST Authentication None;
  if (status_code response =? 200) || (status_code response =? 201)
  then
    t ← datetime_now;
    change (set_session_created_at (Some t));;
    mret n
  else
    raise (PlainException "Authentication failed").

Definition _is_session_expiring : M bool :=
  created ← ask session_created_at;
  match created with
  | None => mret true
  | Some t =>
      n ← datetime_now;
      let time_elapsed := n - t in
      mret (session_valid_duration <? time_elapsed)
  end.

Definition get_session : M nat :=
  s ← ask session;
  match s with
  | None => create_session
  | Some h =>
      expiring ← _is_session_expiring;
      if (expiring : bool) then create_session else mret h
  end.

Definition post (u : url) (payload : option json) : M response :=
  _ ← get_session;
  send POST u payload.

Definition get (u : url) : M response :=
  _ ← get_session;
  send GET u None.

(** What one round of the [while] loop of [request_with_retry] decides. *)
Inductive round : Type :=
| Continue (retries : Z)
| Return (r : response).

Definition attempt (method : string) (u : url) (payload : option json)
    (max_retries retries : Z) : M round :=
  try_catch Exception
    (_ ← get_session;
     response ←
       (if String.eqb (lower method) "get" then send GET u payload
        else if String.eqb (lower method) "post" then send POST u payload
        else raise (ValueError "Unsupported method"));
     if status_code response =? 401 then
       _ ← create_session;
       mret (Continue (retries + 1))
     else
       mret (Return response))
    (fun e =>
       let retries := retries + 1 in
       if retries <? max_retries then
         sleep 5;;
         _ ← create_session;
         mret (Continue retries)
       else
         raise e).

Fixpoint retry_loop (fuel : nat) (method : string) (u : url) (payload : option json)
    (max_retries retries : Z) : M (option response) :=
  match fuel with
  | O => blocks
  | S fuel' =>
      if retries <? max_retries then
        r ← attempt method u payload max_retries retries;
        match r with
        | Continue retries' => retry_loop fuel' method u payload max_retries retries'
        | Return response => mret (Some response)
        end
      else
        (* the loop ends and the function falls off its end *)
        mret None
  end.

(** [request_with_retry(method, url, max_retries=3, **kwargs)]; the
    result [None] is Python's [None]. *)
Definition request_with_retry (method : string) (u : url) (max_retries : Z)
    (payload : option json) : M (option response) :=
  retry_loop (S (Z.to_nat max_retries)) method u payload max_retries 0.

End SessionManager.

(** ** Collaborators outside the three files *)

(** [get_dataset_config(dataset_name)] of the module [dataset_config]. *)
Class DatasetConfig := get_dataset_config : json -> result json.

(** [AlphaStrategy().get_simulation_data(datafields, strategy_mode)] of the
    module [alpha_strategy]. *)
Class AlphaStrategy := get_simulation_data : json -> json -> result json.

(** [template.format(offset=n)], Python's own formatter, for a template
    that holds braces besides its final [{offset}]. *)
Class StrFormat := str_format : string -> Z -> result string.

(** [len(v)]. *)
Definition py_len (v : json) : result Z :=
  match v with
  | JArr l => Ok (Z.of_nat (length l))
  | JObj d => Ok (Z.of_nat (length d))
  | JStr s => Ok (Z.of_nat (String.length s))
  | _ => Err TypeError
  end.

(** The integer [range()] takes a value for: an [int], or a [bool]. *)
Definition py_index (v : json) : result Z :=
  match v with
  | JInt z => Ok z
  | JBool b => Ok (if b then 1 else 0)
  | _ => Err TypeError
  end.

(** [range(0, stop, 50)]. *)
Definition range_by_50 (stop : Z) : list Z :=
  map (fun i => 50 * Z.of_nat i) (seq 0 (Z.to_nat ((stop + 49) / 50))).

Fixpoint has_brace (s : string) : bool :=
  match s with
  | EmptyString => false
  | String c s' =>
      Ascii.eqb c "{"%char || Ascii.eqb c "}"%char || has_brace s'
  end.

(** ** brain_batch_alpha.py *)

Module BrainBatchAlpha.
Section Methods.
Context `{FloatOfStr} `{StrOf}.

(** *** check_alpha_qualification *)

(** [next((check for check in items if check['name'] ==
    'LOW_SUB_UNIVERSE_SHARPE'), {})]: the generator is drawn from until
    its first hit, so later items are never looked at. *)
Fixpoint sub_universe_check_of (items : list json) : result json :=
  match items with
  | [] => Ok (JObj [])
  | check :: rest =>
      name ← py_getitem check "name";
      if py_eq_str name "LOW_SUB_UNIVERSE_SHARPE" then Ok check
      else sub_universe_check_of rest
  end.

(** One round of [for check in checks]. *)
Definition judge_check (is_qualified : bool) (check : json) : result bool :=
  name ← py_get check "name" JNull;
  result ← py_get check "result" JNull;
  value ← py_get check "value" (JStr "N/A");
  limit ← py_get check "limit" (JStr "N/A");
  if py_eq_str result "PASS" then Ok is_qualified
  else if py_eq_str result "FAIL" then Ok false
  else if py_eq_str result "PENDING" then Ok false
  else Ok is_qualified.

Fixpoint judge_checks (is_qualified : bool) (checks : list json) : result bool :=
  match checks with
  | [] => Ok is_qualified
  | check :: rest =>
      is_qualified ← judge_check is_qualified check;
      judge_checks is_qualified rest
  end.

(** The five numeric tests, in the order of the source. *)
Definition judge_metrics (sharpe fitness turnover ic_mean
    subuniverse_sharpe required_subuniverse_sharpe : float) : bool :=
  let is_qualified := true in
  let is_qualified := if (sharpe <? 1.5)%float then false else is_qualified in
  let is_qualified := if (fitness <? 1.0)%float then false else is_qualified in
  let is_qualified :=
    if (turnover <? 0.1)%float || (0.9 <? turnover)%float then false else is_qualified in
  let is_qualified := if (ic_mean <? 0.02)%float then false else is_qualified in
  let is_qualified :=
    if (subuniverse_sharpe <? required_subuniverse_sharpe)%float then false
    else is_qualified in
  is_qualified.

(** The [try] block. *)
Definition check_alpha_qualification_try (alpha_data : json) : result bool :=
  is_data ← py_get alpha_data "is" (JObj []);
  if negb (py_truthy is_data) then Ok false
  else
    sharpe ← py_get is_data "sharpe" (JInt 0) ≫= py_float;
    fitness ← py_get is_data "fitness" (JInt 0) ≫= py_float;
    turnover ← py_get is_data "turnover" (JInt 0) ≫= py_float;
    ic_mean ← py_get is_data "margin" (JInt 0) ≫= py_float;
    candidates ← py_get is_data "checks" (JArr []);
    candidates ← py_iter candidates;
    sub_universe_check ← sub_universe_check_of candidates;
    subuniverse_sharpe ← py_get sub_universe_check "value" (JInt 0) ≫= py_float;
    required_subuniverse_sharpe ←
      py_get sub_universe_check "limit" (JInt 0) ≫= py_float;
    let is_qualified :=
      judge_metrics sharpe fitness turnover ic_mean
                    subuniverse_sharpe required_subuniverse_sharpe in
    checks ← py_get is_data "checks" (JArr []);
    checks ← py_iter checks;
    judge_checks is_qualified checks.

Definition check_alpha_qualification (alpha_data : json) : result bool :=
  try_except (check_alpha_qualification_try alpha_data) (fun _ => Ok false).

(** *** _save_alpha_id *)

Definition csv_path : string := "results/qualified_alphas.csv".
Definition ids_path : string := "results/alpha_ids.txt".

(** [os.path.isfile(path)]. *)
Definition isfile (path : string) : M bool :=
  ask (fun w => bool_decide (is_Some (texts w !! path))
                || bool_decide (is_Some (tables w !! path))).

(** [os.makedirs(path, exist_ok=True)]. *)
Definition makedirs (path : string) : M unit :=
  disk_op;;
  change (fun w => set_dirs ({[path]} ∪ dirs w) w).

(** [df.to_csv(path, mode='a', header=header, index=False)] for a frame
    of one row. *)
Definition to_csv (path : string) (header : bool) (row : sim_result) : M unit :=
  disk_op;;
  change (fun w =>
    let old := default [] (tables w !! path) in
    let new := (old ++ (if header then [CsvHeader] else []) ++ [CsvRow row])%list in
    set_tables (<[path := new]> (tables w)) w).

(** [with open(path, 'a') as f: f.write(text)]. *)
Definition append_text (path : string) (text : string) : M unit :=
  disk_op;;
  change (fun w =>
    let old := default EmptyString (texts w !! path) in
    set_texts (<[path := old +:+ text]> (texts w)) w).

Definition _save_alpha_id (alpha_id : json) (result : sim_result) : M unit :=
  try_catch Exception
    (makedirs "results";;
     file_exists ← isfile csv_path;
     to_csv csv_path (negb file_exists) result;;
     append_text ids_path (py_str alpha_id +:+ String LF EmptyString))
    (fun _ => mret tt).

(** *** Reading a poll answer *)

(** [headers.get(name)] on the case-insensitive headers of [requests]. *)
Fixpoint header_get (name : string) (hs : list (string * string)) : option string :=
  match hs with
  | [] => None
  | (k, v) :: rest =>
      if String.eqb (lower k) (lower name) then Some v else header_get name rest
  end.

(** [float(resp.headers.get('Retry-After', 0))]. *)
Definition retry_after (resp : response) : result float :=
  match header_get "Retry-After" (headers resp) with
  | Some s => py_float (JStr s)
  | None => py_float (JInt 0)
  end.

(** [resp.json()]. *)
Definition json_of (resp : response) : result json :=
  match json_body resp with
  | Some v => Ok v
  | None => Err JSONDecodeError
  end.

(** *** _simulate_single_alpha *)

(** What follows [if retry_after_sec == 0] in the poll loop. *)
Definition simulation_done (alpha : json) (sim_progress_resp : response)
    : M (option sim_result) :=
  alpha_id ← lift (json_of sim_progress_resp ≫= fun b => py_getitem b "alpha");
  sleep 3;;
  alpha_detail ← SessionManager.get (Alpha alpha_id);
  alpha_data ← lift (json_of alpha_detail);
  has_is ← lift (py_contains_str "is" alpha_data);
  if negb has_is then mret None
  else
    is_qualified ← lift (check_alpha_qualification alpha_data);
    expression ← lift (py_get alpha "regular" JNull);
    metrics ← lift (py_get alpha_data "is" (JObj []));
    timestamp ← datetime_now;
    mret (Some (SimResult expression alpha_id is_qualified metrics timestamp)).

(** The [while True] poll loop. *)
Fixpoint poll_simulation (fuel : nat) (alpha : json) (sim_progress_url : string)
    : M (option sim_result) :=
  match fuel with
  | O => blocks
  | S fuel' =>
      sim_progress_resp ← SessionManager.get (Location sim_progress_url);
      retry_after_sec ← lift (retry_after sim_progress_resp);
      if (retry_after_sec =? 0)%float then
        simulation_done alpha sim_progress_resp
      else
        sleep retry_after_sec;;
        poll_simulation fuel' alpha sim_progress_url
  end.

Definition _simulate_single_alpha (alpha : json) (alpha_index total_pbar_position : Z)
    : M (option sim_result) :=
  try_catch Exception
    (_ ← lift (py_get alpha "regular" (JStr "Unknown"));
     sim_resp ← SessionManager.post Simulations (Some alpha);
     if negb (status_code sim_resp =? 201) then mret None
     else
       try_catch is_KeyError
         (sim_progress_url ←
            lift (match header_get "Location" (headers sim_resp) with
                  | Some l => Ok l
                  | None => Err (KeyError "Location")
                  end);
          _ ← datetime_now;
          with_fuel (fun fuel => poll_simulation fuel alpha sim_progress_url))
         (fun _ => mret None))
    (fun _ => mret None).

(** *** simulate_alphas *)

(** The body of [for future in as_completed(futures)], for the future of
    one candidate. *)
Definition collect (results : list sim_result) (result : option sim_result)
    : M (list sim_result) :=
  match result with
  | Some r =>
      if passed_all_checks r then
        (* results.append(result) comes first, so the list keeps the
           result even if the [except] of the loop takes over *)
        let results := (results ++ [r])%list in
        try_catch Exception (_save_alpha_id (alpha_id r) r) (fun _ => mret tt);;
        mret results
      else mret results
  | None => mret results
  end.

(** The pool of [simulate_alphas] with its default of one worker: the
    candidates are simulated in turn, numbered from 1, and every finished
    one is collected. *)
Fixpoint run_pool (alpha_list : list json) (alpha_index : Z)
    (results : list sim_result) : M (list sim_result) :=
  match alpha_list with
  | [] => mret results
  | alpha :: rest =>
      result ← _simulate_single_alpha alpha alpha_index 1;
      results ← collect results result;
      run_pool rest (alpha_index + 1) results
  end.

(** [simulate_alphas], from the candidate list on ([_get_datafields_if_none]
    and [_generate_alpha_list] build it and return early when it is
    empty). *)
Definition simulate_alphas (alpha_list : list json) : M (list sim_result) :=
  try_catch Exception
    (match alpha_list with
     | [] => mret []
     | _ => run_pool alpha_list 1 []
     end)
    (fun _ => mret []).

(** *** submit_alpha and submit_multiple_alphas *)

(** The [while True] confirmation loop. *)
Fixpoint confirm_submission (fuel : nat) (submit_url : url) : M bool :=
  match fuel with
  | O => blocks
  | S fuel' =>
      res ← SessionManager.get submit_url;
      retry ← lift (retry_after res);
      if (retry =? 0)%float then
        if status_code res =? 200 then mret true else mret false
      else
        sleep retry;;
        confirm_submission fuel' submit_url
  end.

(** [for attempt in range(5)], with [attempts] rounds left. *)
Fixpoint submit_attempts (attempts : nat) (submit_url : url) : M bool :=
  match attempts with
  | O => mret false
  | S attempts' =>
      res ← SessionManager.post submit_url None;
      if status_code res =? 201 then
        with_fuel (fun fuel => confirm_submission fuel submit_url)
      else if (status_code res =? 400) || (status_code res =? 403) then
        mret false
      else
        sleep 3;;
        submit_attempts attempts' submit_url
  end.

Definition submit_alpha (alpha_id : string) : M bool :=
  let submit_url := Submit alpha_id in
  submit_attempts 5 submit_url.

(** [for alpha_id in alpha_ids] with the two lists built so far;
    [last_id] is [alpha_ids[-1]]. *)
Fixpoint submit_each (ids : list string) (last_id : string)
    (successful failed : list string) : M (list string * list string) :=
  match ids with
  | [] => mret (successful, failed)
  | alpha_id :: rest =>
      ok ← submit_alpha alpha_id;
      let successful := if (ok : bool) then (successful ++ [alpha_id])%list else successful in
      let failed := if ok then failed else (failed ++ [alpha_id])%list in
      (if negb (String.eqb alpha_id last_id) then sleep 10 else mret tt);;
      submit_each rest last_id successful failed
  end.

Definition submit_multiple_alphas (alpha_ids : list string)
    : M (list string * list string) :=
  submit_each alpha_ids (List.last alpha_ids EmptyString) [] [].

End Methods.

Section Preparation.
Context `{FloatOfStr} `{StrOf} `{DatasetConfig} `{AlphaStrategy} `{StrFormat}.

Definition API_BASE_URL : string := "https://api.worldquantbrain.com".

(** *** _get_datafields_if_none *)

(** The f-string part of [url_template], with the universe and the dataset
    id of the configuration written in. *)
Definition url_head (universe id : json) : string :=
  API_BASE_URL +:+ "/data-fields?" +:+
  "instrumentType=EQUITY" +:+ "&region=USA" +:+ "&delay=1" +:+
  "&universe=" +:+ py_str universe +:+
  "&dataset.id=" +:+ py_str id.

(** [url_template.format(offset=offset)]: the template is [head] followed
    by the plain text [&limit=50&offset={offset}]. *)
Definition format_offset (head : string) (offset : Z) : result string :=
  if has_brace head then str_format (head +:+ "&limit=50&offset={offset}") offset
  else Ok (head +:+ "&limit=50&offset=" +:+ pretty offset).

(** [for offset in range(0, total_count, 50)], with the fields gathered so
    far. *)
Fixpoint fetch_pages (head : string) (offsets : list Z) (all_fields : list json)
    : M (list json) :=
  match offsets with
  | [] => mret all_fields
  | offset :: rest =>
      address ← lift (format_offset head offset);
      resp ← SessionManager.get (Address address);
      if negb (status_code resp =? 200) then fetch_pages head rest all_fields
      else
        body ← lift (json_of resp);
        results ← lift (py_getitem body "results");
        items ← lift (py_iter results);
        fetch_pages head rest (all_fields ++ items)%list
  end.

(** [[field['id'] for field in all_fields if field.get('type') == 'MATRIX']]. *)
Fixpoint matrix_ids (all_fields : list json) : result (list json) :=
  match all_fields with
  | [] => Ok []
  | field :: rest =>
      type ← py_get field "type" JNull;
      if py_eq_str type "MATRIX" then
        id ← py_getitem field "id";
        ids ← matrix_ids rest;
        Ok (id :: ids)
      else matrix_ids rest
  end.

(** [None] is [JNull], for the arguments and for the result. *)
Definition _get_datafields_if_none (datafields dataset_name : json) : M json :=
  try_catch Exception
    (match datafields with
     | JNull =>
         match dataset_name with
         | JNull => mret JNull
         | _ =>
             config ← lift (get_dataset_config dataset_name);
             if negb (py_truthy config) then mret JNull
             else
               universe ← lift (py_getitem config "universe");
               id ← lift (py_getitem config "id");
               let head := url_head universe id in
               address ← lift (format_offset head 0);
               initial_resp ← SessionManager.get (Address address);
               if negb (status_code initial_resp =? 200) then mret JNull
               else
                 body ← lift (json_of initial_resp);
                 total_count ← lift (py_getitem body "count");
                 stop ← lift (py_index total_count);
                 all_fields ← fetch_pages head (range_by_50 stop) [];
                 matrix_fields ← lift (matrix_ids all_fields);
                 match matrix_fields with
                 | [] => mret JNull
                 | _ => mret (JArr matrix_fields)
                 end
         end
     | _ => mret datafields
     end)
    (fun _ => mret JNull).

(** *** _generate_alpha_list *)

Definition settings : json :=
  JObj [("instrumentType", JStr "EQUITY"); ("region", JStr "USA");
        ("universe", JStr "TOP3000"); ("delay", JInt 1); ("decay", JInt 0);
        ("neutralization", JStr "SUBINDUSTRY"); ("truncation", JFloat 0.08);
        ("pasteurization", JStr "ON"); ("unitHandling", JStr "VERIFY");
        ("nanHandling", JStr "ON"); ("language", JStr "FASTEXPR");
        ("visualization", JBool false)].

Definition simulation_data (strategy : json) : json :=
  JObj [("type", JStr "REGULAR"); ("settings", settings); ("regular", strategy)].

Definition _generate_alpha_list (datafields strategy_mode : json) : result (list json) :=
  try_except
    (strategies ← get_simulation_data datafields strategy_mode;
     _ ← py_len strategies;
     items ← py_iter strategies;
     Ok (map simulation_data items))
    (fun _ => Ok []).

(** *** simulate_alphas, whole *)

(** [simulate_alphas(datafields, strategy_mode, dataset_name)] with the
    default of one worker: the two preparing steps, then the pool. *)
Definition simulate_alphas_method (datafields strategy_mode dataset_name : json)
    : M (list sim_result) :=
  try_catch Exception
    (datafields ← _get_datafields_if_none datafields dataset_name;
     if negb (py_truthy datafields) then mret []
     else
       alpha_list ← lift (_generate_alpha_list datafields strategy_mode);
       simulate_alphas alpha_list)
    (fun _ => mret []).

End Preparation.
End BrainBatchAlpha.

(** ** main.py *)

Module Main.
Section Driver.
Context `{FloatOfStr} `{StrOf}.

Definition STORAGE_ALPHA_ID_PATH : string := "alpha_ids.txt".

(** [os.path.exists(path)]. *)
Definition exists_path (path : string) : M bool :=
  ask (fun w => bool_decide (is_Some (texts w !! path))
                || bool_decide (is_Some (tables w !! path))
                || bool_decide (path ∈ dirs w)).

(** [with open(path, 'r') as f: f.read()]. *)
Definition read_text (path : string) : M string :=
  disk_op;;
  content ← ask (fun w => texts w !! path);
  match content with
  | Some text => mret text
  | None => raise OSError
  end.

(** [with open(path, 'w') as f: f.writelines(lines)]. *)
Definition write_lines (path : string) (lines : list string) : M unit :=
  disk_op;;
  change (fun w => set_texts (<[path := String.concat EmptyString lines]> (texts w)) w).

(** [l[:n]], with Python's reading of a negative bound. *)
Definition slice_to {A} (l : list A) (n : Z) : list A :=
  if 0 <=? n then take (Z.to_nat n) l
  else take (Z.to_nat (Z.of_nat (length l) + n)) l.

Definition submit_alpha_ids (num_to_submit : Z) : M unit :=
  try_catch Exception
    (found ← exists_path STORAGE_ALPHA_ID_PATH;
     if negb found then mret tt
     else
       text ← read_text STORAGE_ALPHA_ID_PATH;
       let alpha_ids :=
         List.filter (fun line => negb (String.eqb line EmptyString))
                     (map strip (readlines text)) in
       match alpha_ids with
       | [] => mret tt
       | _ =>
           let num_to_submit :=
             if Z.of_nat (length alpha_ids) <? num_to_submit
             then Z.of_nat (length alpha_ids) else num_to_submit in
           let selected_ids := slice_to alpha_ids num_to_submit in
           r ← BrainBatchAlpha.submit_multiple_alphas selected_ids;
           let successful := fst r in
           let remaining_ids :=
             List.filter (fun id => negb (existsb (String.eqb id) successful)) alpha_ids in
           write_lines STORAGE_ALPHA_ID_PATH
             (map (fun id => id +:+ String LF EmptyString) remaining_ids)
       end)
    (fun _ => mret tt).

End Driver.
End Main.

(** * Vocabulary of the properties *)

Section Vocabulary.
Context `{FloatOfStr}.

(** The report [alpha_data] is a dictionary whose metrics section, under
    the key [is], is the dictionary [m]. *)
Definition metrics_of (alpha_data : json) (m : list (string * json)) : Prop :=
  exists d, alpha_data = JObj d /\ dict_get "is" d = Some (JObj m).

(** The dictionary [m] holds under [key] a value that [float()] reads
    as [x]. *)
Definition number_at (m : list (string * json)) (key : string) (x : float) : Prop :=
  exists v, dict_get key m = Some v /\ py_float v = Ok x.

(** The checks collection of the metrics [m]: the list under [checks], or
    no check at all when the key is missing. *)
Definition checks_of (m : list (string * json)) (cs : list json) : Prop :=
  dict_get "checks" m = Some (JArr cs) \/ (dict_get "checks" m = None /\ cs = []).

(** [c] is a named check whose result is the string [verdict]. *)
Definition reports (c : json) (verdict : string) : Prop :=
  exists d n, c = JObj d /\ dict_get "name" d = Some n /\
              dict_get "result" d = Some (JStr verdict).

(** What the evaluator takes for the number under [key]: the value there,
    or 0 when the key is missing, read by [float()]. *)
Definition number_or_zero (m : list (string * json)) (key : string) (x : float) : Prop :=
  py_float (default (JInt 0) (dict_get key m)) = Ok x.

(** The four numeric tests on sharpe, fitness, turnover and margin, as the
    evaluator makes them: a number passes unless it is below (for turnover,
    also above) its threshold. *)
Definition numeric_tests_pass (sharpe fitness turnover margin : float) : bool :=
  negb (sharpe <? 1.5)%float && negb (fitness <? 1.0)%float &&
  negb (turnover <? 0.1)%float && negb (0.9 <? turnover)%float &&
  negb (margin <? 0.02)%float.


(** A named check other than the sub-universe one. *)
Definition other_named_check (c : json) : Prop :=
  exists d n, c = JObj d /\ dict_get "name" d = Some n /\
              n <> JStr "LOW_SUB_UNIVERSE_SHARPE".

(** The check is a dictionary. *)
Definition is_dict (c : json) : Prop := exists d, c = JObj d.

(** The result of the check is FAIL or PENDING. *)
Definition fails_or_pends (c : json) : bool :=
  match c with
  | JObj d =>
      match dict_get "result" d with
      | Some r => py_eq_str r "FAIL" || py_eq_str r "PENDING"
      | None => false
      end
  | _ => false
  end.

(** The report holds, in its checks collection, a named check whose result
    is anything but the string PASS (another string, another value, or no
    result at all). *)
Definition has_check_other_than_pass (alpha_data : json) : Prop :=
  exists m cs d n,
    metrics_of alpha_data m /\ dict_get "checks" m = Some (JArr cs) /\
    JObj d ∈ cs /\ dict_get "name" d = Some n /\
    dict_get "result" d <> Some (JStr "PASS").
End Vocabulary.

(** ** Sessions and exchanges *)

(** The manager holds a session that [get_session] finds still valid. *)
Definition settled (w : world) : Prop :=
  exists h t, session w = Some h /\ session_created_at w = Some t /\
              (SessionManager.session_valid_duration <? now w - t) = false.

(** The exchange is an accepted authentication (200 or 201). *)
Definition handshake (x : exchange) : Prop :=
  exists r, reply_of x = Responds r /\ (status_code r = 200 \/ status_code r = 201).

(** The exchange is answered with 401. *)
Definition unauthorized (x : exchange) : Prop :=
  exists r, reply_of x = Responds r /\ status_code r = 401.

(** The exchange fails at the transport level. *)
Definition breaks_down (x : exchange) : Prop := reply_of x = TransportFails.

(** The method is one [request_with_retry] knows, and the verb it sends. *)
Definition supported (method : string) (v : verb) : Prop :=
  (lower method = "get" /\ v = GET) \/ (lower method = "post" /\ v = POST).

(** ** What a call keeps *)

(** [keeps R Q m]: wherever the call [m] starts, the world it leaves is
    related by [R] to the world it found (also when it raises or blocks),
    and a value it returns satisfies [Q]. *)
Definition keeps {A} (R : world -> world -> Prop) (Q : A -> Prop) (m : M A) : Prop :=
  forall w, R w (snd (m w)) /\ forall a, fst (m w) = Returns a -> Q a.

(** A relation [R] between worlds that is kept along any run: it is
    reflexive and transitive, blind to the clock, the session, the disk
    faults, the directories and the text files, to an exchange leaving the
    wire, and to the events that [watched] lets through, pauses and
    authentications among them. *)
Class Lasting (R : world -> world -> Prop) (watched : event -> bool) : Prop := {
  lasting_refl : forall w, R w w;
  lasting_trans : forall w1 w2 w3, R w1 w2 -> R w2 w3 -> R w1 w3;
  lasting_now : forall t w, R w (set_now t w);
  lasting_wire : forall w, R w (set_wire (tail (wire w)) w);
  lasting_history :
    forall e w, watched e = false -> R w (set_history (e :: history w) w);
  lasting_session : forall s n w, R w (set_session s n w);
  lasting_created : forall t w, R w (set_session_created_at t w);
  lasting_disk_faults : forall d w, R w (set_disk_faults d w);
  lasting_dirs : forall d w, R w (set_dirs d w);
  lasting_texts : forall t w, R w (set_texts t w);
  lasting_sleep : forall seconds, watched (Slept seconds) = false;
  lasting_handshake : watched (Sent POST Authentication None) = false
}.

(** The wire only gets shorter. *)
Definition wire_shrinks (w w' : world) : Prop :=
  (length (wire w') <= length (wire w))%nat.

(** A request to a poll address handed out by the service. *)
Definition is_poll (e : event) : bool :=
  match e with
  | Sent GET (Location _) _ => true
  | _ => false
  end.

(** The history grew, and by no request to a poll address. *)
Definition no_new_poll (w w' : world) : Prop :=
  exists new, history w' = (new ++ history w)%list /\ forallb (fun e => negb (is_poll e)) new = true.

(** A result fit for the store: flagged qualified, with metrics that are a
    dictionary with at least one entry. *)
Definition qualifying (r : sim_result) : Prop :=
  passed_all_checks r = true /\
  exists kv m, metrics r = JObj (kv :: m).

(** Every row of the table of qualified alphas is fit for the store. *)
Definition store_ok (w : world) : Prop :=
  forall r, CsvRow r ∈ default [] (tables w !! BrainBatchAlpha.csv_path) -> qualifying r.

Definition store_kept (w w' : world) : Prop := store_ok w -> store_ok w'.

(** What a job runner may hand over: nothing, or a result that, if flagged
    qualified, is fit for the store. *)
Definition sound_outcome (o : option sim_result) : Prop :=
  forall r, o = Some r -> passed_all_checks r = true -> qualifying r.

(** ** Rounds of the submission driver *)

(** The world after a pause that [sleep] grants. *)
Definition after_sleep (seconds : float) (w : world) : world := snd (sleep seconds w).

Section Rounds.
Context `{FloatOfStr}.

(** [resends u k w w']: starting in [w], the POST to [u] came back [k]
    times with a status other than 201, 400 and 403, each time followed by
    the pause of 3 seconds; [w'] is the world after the last pause. *)
Inductive resends (u : url) : nat -> world -> world -> Prop :=
| resends_none w : resends u 0 w w
| resends_more k w r w1 w2 :
    SessionManager.post u None w = (Returns r, w1) ->
    status_code r <> 201 -> status_code r <> 400 -> status_code r <> 403 ->
    resends u k (after_sleep 3 w1) w2 ->
    resends u (S k) w w2.

(** [waits u w w']: starting in [w], every GET to [u] was answered with a
    Retry-After other than 0 that [sleep] accepted, and the pause was
    taken; [w'] is the world after the last pause. *)
Inductive waits (u : url) : world -> world -> Prop :=
| waits_over w : waits u w w
| waits_more w r seconds w1 w2 w3 :
    SessionManager.get u w = (Returns r, w1) ->
    BrainBatchAlpha.retry_after r = Ok seconds ->
    (seconds =? 0)%float = false ->
    sleep seconds w1 = (Returns tt, w2) ->
    waits u w2 w3 ->
    waits u w w3.
End Rounds.

(** ** Sample data *)

(** The end-to-end report of the specification. *)
Definition scenario_check : list (string * json) :=
  [("name", JStr "LOW_SUB_UNIVERSE_SHARPE"); ("result", JStr "PASS");
   ("value", JStr "2.0"); ("limit", JStr "1.0")].

Definition scenario_metrics : list (string * json) :=
  [("sharpe", JFloat 1.8); ("fitness", JFloat 1.2); ("turnover", JFloat 0.5);
   ("margin", JFloat 0.03); ("checks", JArr [JObj scenario_check])].

Definition scenario_report : json :=
  JObj [("id", JStr "abc123"); ("is", JObj scenario_metrics)].

(** The same report with a second check that only warns. *)
Definition warning_check : list (string * json) :=
  [("name", JStr "CONCENTRATED_WEIGHT"); ("result", JStr "WARNING");
   ("value", JFloat 0.12); ("limit", JFloat 0.1)].

Definition warning_report : json :=
  JObj [("id", JStr "abc123");
        ("is", JObj [("sharpe", JFloat 1.8); ("fitness", JFloat 1.2);
                     ("turnover", JFloat 0.5); ("margin", JFloat 0.03);
                     ("checks", JArr [JObj scenario_check; JObj warning_check])])].

(** The report of the specification with a second check that fails. *)
Definition failing_check : list (string * json) :=
  [("name", JStr "CONCENTRATED_WEIGHT"); ("result", JStr "FAIL");
   ("value", JFloat 0.12); ("limit", JFloat 0.1)].

Definition failing_report : json :=
  JObj [("id", JStr "abc123");
        ("is", JObj [("sharpe", JFloat 1.8); ("fitness", JFloat 1.2);
                     ("turnover", JFloat 0.5); ("margin", JFloat 0.03);
                     ("checks", JArr [JObj scenario_check; JObj failing_check])])].

(** A world just after start-up: session 0 was made at time 0, nothing
    was sent yet, the disk is empty and sound, and the service will make
    the exchanges of [wire]. *)
Definition started (wire : list exchange) : world :=
  World 0 wire [] (Some 0%nat) (Some 0) 1 [] ∅ ∅ ∅.

(** An exchange of one millisecond answered with a bare status, and one
    that breaks. *)
Definition answers (status : Z) : exchange :=
  Exchange (Responds (Response status [] None)) 1000.
Definition answers_with (status : Z) (hs : list (string * string)) (body : option json)
    : exchange :=
  Exchange (Responds (Response status hs body)) 1000.
Definition breaks : exchange := Exchange TransportFails 1000.

(** The submission scenario of the specification, after one refused POST:
    500, then 201, then a poll told to come back in 5 seconds, then the
    poll that confirms. *)
Definition submission_wire : list exchange :=
  [answers 500; answers 201;
   answers_with 200 [("Retry-After", "5")] None;
   answers_with 200 [("Retry-After", "0")] None].

(** The simulation scenario of the specification: the candidate is
    accepted, the first poll finds it done, and the detail of the alpha is
    the end-to-end report. *)
Definition candidate : json :=
  JObj [("type", JStr "REGULAR"); ("regular", JStr "rank(close)")].

Definition simulation_wire : list exchange :=
  [answers_with 201 [("Location", "https://api.worldquantbrain.com/simulations/1")] None;
   answers_with 200 [] (Some (JObj [("alpha", JStr "abc123")]));
   answers_with 200 [] (Some scenario_report)].






(** Sample collaborators: a dataset configuration, a strategy generator
    that proposes one expression, and a formatter that refuses every
    template with a stray brace. *)
Definition sample_dataset_config : DatasetConfig :=
  fun _ => Ok (JObj [("id", JStr "fundamental6"); ("universe", JStr "TOP3000")]).

Definition sample_strategy : AlphaStrategy :=
  fun _ _ => Ok (JArr [JStr "rank(close)"]).

Definition strict_format : StrFormat :=
  fun _ _ => Err (ValueError "Single '}' encountered in format string").

(** ** Further vocabulary *)

(** The identifier the filter of data fields takes from a field: the [id]
    of a dictionary whose [type] is [MATRIX]. *)
Definition matrix_id_of (field : json) : option json :=
  match field with
  | JObj d =>
      if py_eq_str (default JNull (dict_get "type" d)) "MATRIX"
      then dict_get "id" d else None
  | _ => None
  end.

(** A field the filter can read: a dictionary that has an [id] when its
    [type] is [MATRIX]. *)
Definition readable_field (field : json) : Prop :=
  exists d, field = JObj d /\
    (py_eq_str (default JNull (dict_get "type" d)) "MATRIX" = true ->
     is_Some (dict_get "id" d)).

(** What the preparing step may answer for the [datafields] it was given:
    these, or [None], or a list that is not empty. *)
Definition datafields_answer (datafields v : json) : Prop :=
  v = datafields \/ v = JNull \/ exists x l, v = JArr (x :: l).

(** The exchange is an authentication the service turns down. *)
Definition rejected (x : exchange) : Prop :=
  exists r, reply_of x = Responds r /\ status_code r <> 200 /\ status_code r <> 201.

(** The relation that holds between any two worlds. *)
Definition any_world (w w' : world) : Prop := True.

(** A POST to the submit address of [id], and how many of them a history
    holds. *)
Definition is_submit_post (id : string) (e : event) : bool :=
  match e with
  | Sent POST (Submit id') _ => String.eqb id id'
  | _ => false
  end.

Definition submit_posts (id : string) (h : list event) : nat :=
  length (List.filter (is_submit_post id) h).

(** No new POST went to the submit address of [id]. *)
Definition no_new_submit_post (id : string) (w w' : world) : Prop :=
  submit_posts id (history w') = submit_posts id (history w).

(** The call [m] adds at most [k] such POSTs, however it ends. *)
Definition adds_at_most {A} (id : string) (k : nat) (m : M A) : Prop :=
  forall w, (submit_posts id (history (snd (m w))) <= submit_posts id (history w) + k)%nat.

(** The rows of a table, without its header lines. *)
Fixpoint table_rows (lines : list csv_line) : list sim_result :=
  match lines with
  | [] => []
  | CsvHeader :: rest => table_rows rest
  | CsvRow r :: rest => r :: table_rows rest
  end.

(** The rows of the table of qualified alphas and the text of the
    identifier list (nothing when the file is not there). *)
Definition stored_rows (w : world) : list sim_result :=
  table_rows (default [] (tables w !! BrainBatchAlpha.csv_path)).

Definition stored_id_text (w : world) : string :=
  default EmptyString (texts w !! BrainBatchAlpha.ids_path).

(** One line per result: its alpha identifier and a line feed. *)
Fixpoint id_lines `{StrOf} (results : list sim_result) : string :=
  match results with
  | [] => EmptyString
  | r :: rest => py_str (alpha_id r) +:+ String LF EmptyString +:+ id_lines rest
  end.


(** The identifiers a text holds for the driver: its lines, stripped, the
    empty ones left out. *)
Definition stored_ids (text : string) : list string :=
  List.filter (fun line => negb (String.eqb line EmptyString))
              (map strip (readlines text)).


(** The identifiers the driver keeps: those not among the succeeded. *)
Definition kept_ids (ids successful : list string) : list string :=
  List.filter (fun id => negb (existsb (String.eqb id) successful)) ids.

(** The identifiers the driver selects: [alpha_ids[:num_to_submit]] after
    the bound was cut down to the length of the list. *)
Definition selected_ids (ids : list string) (num_to_submit : Z) : list string :=
  Main.slice_to ids
    (if Z.of_nat (length ids) <? num_to_submit then Z.of_nat (length ids)
     else num_to_submit).







(** A table or a text file is at [path]: what [os.path.isfile] answers. *)
Definition file_there (path : string) (w : world) : bool :=
  bool_decide (is_Some (texts w !! path)) || bool_decide (is_Some (tables w !! path)).

(** The table after the rows of [new] were appended in turn: the header
    goes in front of the first of them when no file was there. *)
Definition table_after (old : option (list csv_line)) (there : bool)
    (new : list sim_result) : option (list csv_line) :=
  match new with
  | [] => old
  | _ => Some (default [] old ++ (if there then [] else [CsvHeader]) ++ map CsvRow new)%list
  end.

(** The identifier list after the lines of [new] were appended. *)
Definition id_text_after `{StrOf} (old : option string) (new : list sim_result)
    : option string :=
  match new with
  | [] => old
  | _ => Some (default EmptyString old +:+ id_lines new)
  end.

(** Neither a table nor a text file is at [path]. *)
Definition no_file (path : string) (w : world) : Prop :=
  texts w !! path = None /\ tables w !! path = None.

(** The disk is as it was: same text files, tables, directories and
    faults to come. *)
Definition same_disk (w w' : world) : Prop :=
  texts w' = texts w /\ tables w' = tables w /\ dirs w' = dirs w /\
  disk_faults w' = disk_faults w.

(** The network and the clock are as they were. *)
Definition same_network (w w' : world) : Prop :=
  now w' = now w /\ wire w' = wire w /\ history w' = history w /\
  session w' = session w /\ session_created_at w' = session_created_at w /\
  sessions_made w' = sessions_made w.

(** * Properties *)

(** ** Binary64 comparisons *)

Lemma SFcompare_antisym (x y : spec_float) :
  SFcompare y x = option_map CompOpp (SFcompare x y).
Proof.
  destruct x as [sx|sx| |sx mx ex], y as [sy|sy| |sy my ey]; simpl;
    try reflexivity; try (destruct sx; reflexivity); try (destruct sy; reflexivity);
    try (destruct sx, sy; reflexivity).
  destruct sx, sy; simpl; try reflexivity;
    rewrite (Z.compare_antisym ex ey); destruct (ex ?= ey)%Z; simpl; try reflexivity;
    change (Pos.compare_cont Eq my mx) with (Pos.compare my mx);
    change (Pos.compare_cont Eq mx my) with (Pos.compare mx my);
    rewrite (Pos.compare_antisym mx my); destruct (mx ?= my)%positive; reflexivity.
Qed.

(** [x <= y] excludes [y < x]; a NaN on either side makes both false. *)
Lemma leb_not_ltb (x y : float) :
  (x <=? y)%float = true -> (y <? x)%float = false.
Proof.
  rewrite FloatAxioms.leb_spec, FloatAxioms.ltb_spec. unfold SFleb, SFltb.
  rewrite (SFcompare_antisym (Prim2SF x) (Prim2SF y)).
  destruct (SFcompare (Prim2SF x) (Prim2SF y)) as [[]|]; simpl; congruence.
Qed.


(** ** The qualification evaluator *)

Section Evaluator.
Context `{FloatOfStr}.
Import BrainBatchAlpha.

Lemma number_at_reading m key x dflt :
  number_at m key x -> py_float (default dflt (dict_get key m)) = Ok x.
Proof. intros (v & Hv & Hx). rewrite Hv. exact Hx. Qed.

Lemma number_at_nonempty m key x : number_at m key x -> m <> [].
Proof. intros (v & Hv & _) ->. discriminate. Qed.

Lemma checks_of_items m cs :
  checks_of m cs -> py_iter (default (JArr []) (dict_get "checks" m)) = Ok cs.
Proof. intros [Hc | [Hc ->]]; rewrite Hc; reflexivity. Qed.

(** A check that reports PASS leaves the verdict as it is. *)
Lemma judge_checks_all_pass b cs :
  Forall (fun c => reports c "PASS") cs -> judge_checks b cs = Ok b.
Proof.
  induction 1 as [|c cs (d & n & -> & Hn & Hr) _ IH]; [reflexivity|].
  simpl. unfold judge_check. simpl. rewrite Hr. simpl. exact IH.
Qed.

(** Among named checks the generator returns the empty dictionary or a
    member named LOW_SUB_UNIVERSE_SHARPE. *)
Lemma sub_universe_check_of_named cs :
  Forall (fun c => exists d n, c = JObj d /\ dict_get "name" d = Some n) cs ->
  sub_universe_check_of cs = Ok (JObj []) \/
  exists d, sub_universe_check_of cs = Ok (JObj d) /\ JObj d ∈ cs /\
            dict_get "name" d = Some (JStr "LOW_SUB_UNIVERSE_SHARPE").
Proof.
  induction 1 as [|c cs (d & n & -> & Hn) _ IH]; [left; reflexivity|].
  simpl. rewrite Hn. simpl.
  destruct (py_eq_str n "LOW_SUB_UNIVERSE_SHARPE") eqn:E.
  - right. exists d. split; [reflexivity|]. split; [left|].
    destruct n; try discriminate. simpl in E. apply String.eqb_eq in E. congruence.
  - destruct IH as [IH | (d' & IH & Hin & Hd')]; [left; exact IH|].
    right. exists d'. split; [exact IH|]. split; [right; exact Hin | exact Hd'].
Qed.

(** C1.  A report whose sharpe is at least 1.5, fitness at least 1.0,
    turnover between 0.1 and 0.9, margin (the IC mean) at least 0.02,
    whose sub-universe sharpe is at least the limit reported with it and
    whose named checks all report PASS is judged qualified. *)
Theorem C1_meeting_every_criterion_qualifies
    (alpha_data : json) (m : list (string * json)) (cs : list json)
    (sharpe fitness turnover margin : float) :
  metrics_of alpha_data m ->
  number_at m "sharpe" sharpe -> (1.5 <=? sharpe)%float = true ->
  number_at m "fitness" fitness -> (1.0 <=? fitness)%float = true ->
  number_at m "turnover" turnover ->
  (0.1 <=? turnover)%float = true -> (turnover <=? 0.9)%float = true ->
  number_at m "margin" margin -> (0.02 <=? margin)%float = true ->
  checks_of m cs ->
  (forall d, JObj d ∈ cs ->
     dict_get "name" d = Some (JStr "LOW_SUB_UNIVERSE_SHARPE") ->
     exists value limit,
       number_at d "value" value /\ number_at d "limit" limit /\
       (limit <=? value)%float = true) ->
  Forall (fun c => reports c "PASS") cs ->
  check_alpha_qualification alpha_data = Ok true.
Proof.
  intros (top & -> & His) Hs Hs' Hf Hf' Ht Ht1 Ht2 Hi Hi' Hcs Hsub Hpass.
  assert (Hnamed : Forall (fun c => exists d n, c = JObj d /\ dict_get "name" d = Some n) cs).
  { eapply Forall_impl; [exact Hpass|]. intros c (d & n & -> & Hn & _). eauto. }
  assert (Hmetrics : forall v l, (l <=? v)%float = true ->
            judge_metrics sharpe fitness turnover margin v l = true).
  { intros v l Hvl. unfold judge_metrics.
    rewrite (leb_not_ltb _ _ Hs'), (leb_not_ltb _ _ Hf'), (leb_not_ltb _ _ Ht1),
      (leb_not_ltb _ _ Ht2), (leb_not_ltb _ _ Hi'), (leb_not_ltb _ _ Hvl).
    reflexivity. }
  unfold check_alpha_qualification, check_alpha_qualification_try.
  simpl. rewrite His. simpl.
  destruct m as [|kv m']; [destruct (number_at_nonempty _ _ _ Hs eq_refl)|].
  set (m := kv :: m') in *. cbn [negb].
  rewrite (number_at_reading _ _ _ (JInt 0) Hs), (number_at_reading _ _ _ (JInt 0) Hf),
    (number_at_reading _ _ _ (JInt 0) Ht), (number_at_reading _ _ _ (JInt 0) Hi),
    (checks_of_items _ _ Hcs).
  cbn [mbind result_bind].
  destruct (sub_universe_check_of_named cs Hnamed) as [E | (d & E & Hin & Hd)];
    rewrite E; simpl.
  - change (float_of_int 0) with (Ok 0%float). simpl.
    rewrite Hmetrics by reflexivity.
    rewrite judge_checks_all_pass by exact Hpass. reflexivity.
  - destruct (Hsub d Hin Hd) as (value & limit & Hv & Hl & Hvl).
    rewrite (number_at_reading _ _ _ (JInt 0) Hv), (number_at_reading _ _ _ (JInt 0) Hl).
    simpl. rewrite Hmetrics by exact Hvl.
    rewrite judge_checks_all_pass by exact Hpass. reflexivity.
Qed.

(** Once the verdict is negative no later check restores it. *)
Lemma judge_checks_stays_false cs r :
  judge_checks false cs = Ok r -> r = false.
Proof.
  induction cs as [|c cs IH]; simpl; [congruence|].
  destruct (judge_check false c) as [b|e] eqn:E; simpl; [|discriminate].
  assert (b = false) as ->; [|exact IH].
  unfold judge_check in E.
  repeat match type of E with
         | context [mbind _ ?x] => destruct x; simpl in E; [|discriminate]
         end.
  repeat match type of E with
         | context [if ?b then _ else _] => destruct b
         end; congruence.
Qed.

Lemma judge_checks_failing_member b cs c verdict r :
  c ∈ cs -> reports c verdict -> verdict = "FAIL" \/ verdict = "PENDING" ->
  judge_checks b cs = Ok r -> r = false.
Proof.
  intros Hin (d & n & -> & Hn & Hr) Hv. revert b.
  induction cs as [|c' cs IH]; intros b; [inversion Hin|].
  apply elem_of_cons in Hin as [<- | Hin]; simpl.
  - unfold judge_check. simpl. rewrite Hr. simpl.
    destruct Hv as [-> | ->]; simpl; apply judge_checks_stays_false.
  - destruct (judge_check b c') as [b'|e]; simpl; [apply IH, Hin | discriminate].
Qed.

(** Over checks that are dictionaries the loop keeps the verdict it was
    given unless one of them reports FAIL or PENDING. *)
Lemma judge_checks_verdict b cs :
  Forall is_dict cs ->
  judge_checks b cs = Ok (b && forallb (fun c => negb (fails_or_pends c)) cs).
Proof.
  intros Hcs. revert b.
  induction Hcs as [|c cs (d & ->) _ IH]; intros b; simpl.
  - rewrite andb_true_r. reflexivity.
  - unfold judge_check. simpl.
    destruct (dict_get "result" d) as [r|]; simpl.
    + destruct (py_eq_str r "PASS") eqn:EP.
      * destruct r; try discriminate. simpl in EP. apply String.eqb_eq in EP. subst.
        simpl. apply IH.
      * destruct (py_eq_str r "FAIL"); simpl.
        { rewrite IH. rewrite andb_false_r. reflexivity. }
        destruct (py_eq_str r "PENDING"); simpl.
        { rewrite IH. rewrite andb_false_r. reflexivity. }
        apply IH.
    + apply IH.
Qed.

(** C2, as the code has it.  A report with a named check whose result is
    FAIL or PENDING is judged not qualified, whatever else it holds.  A
    check with any other result (PASS, WARNING, a value that is no string,
    no result at all) leaves the verdict as the other criteria made it:
    the verdict of the report is then the conjunction of its five numeric
    tests and of the other checks, of which none may report FAIL or
    PENDING. *)
Theorem C2_failing_or_pending_check_disqualifies (alpha_data : json) :
  (forall m cs c verdict,
     metrics_of alpha_data m ->
     dict_get "checks" m = Some (JArr cs) ->
     c ∈ cs -> reports c verdict ->
     verdict = "FAIL" \/ verdict = "PENDING" ->
     check_alpha_qualification alpha_data = Ok false) /\
  (forall m before c after sub sharpe fitness turnover margin value limit,
     metrics_of alpha_data m ->
     dict_get "checks" m = Some (JArr (before ++ c :: after)) ->
     is_dict c -> fails_or_pends c = false ->
     Forall is_dict (before ++ after) ->
     number_or_zero m "sharpe" sharpe -> number_or_zero m "fitness" fitness ->
     number_or_zero m "turnover" turnover -> number_or_zero m "margin" margin ->
     sub_universe_check_of (before ++ c :: after) = Ok (JObj sub) ->
     number_or_zero sub "value" value -> number_or_zero sub "limit" limit ->
     check_alpha_qualification alpha_data =
       Ok (judge_metrics sharpe fitness turnover margin value limit
           && forallb (fun c' => negb (fails_or_pends c')) (before ++ after))).
Proof.
  split.
  - intros m cs c verdict (top & -> & His) Hcs Hin Hc Hv.
    unfold check_alpha_qualification, check_alpha_qualification_try.
    simpl. rewrite His. simpl. rewrite Hcs. simpl.
    destruct m as [|kv m']; [reflexivity|]. cbn [negb].
    repeat match goal with
           | |- try_except (mbind _ ?x) _ = _ =>
               destruct x; cbn [mbind result_bind]; [|reflexivity]
           end.
    match goal with
    | |- try_except ?j _ = _ => destruct j as [r|e] eqn:E; [|reflexivity]
    end.
    simpl. f_equal. eapply judge_checks_failing_member; eauto.
  - intros m before c after sub s f t i v l (top & -> & His) Hcs Hc Hres Hothers
           Hs Hf Ht Hi Hsub Hv Hl.
    unfold check_alpha_qualification, check_alpha_qualification_try.
    simpl. rewrite His. simpl.
    unfold number_or_zero in *.
    destruct m as [|kv m']; [discriminate Hcs|].
    set (m := kv :: m') in *. cbn [negb].
    rewrite Hs, Hf, Ht, Hi, Hcs. cbn [mbind result_bind default from_option id py_iter].
    rewrite Hsub. cbn [mbind result_bind py_get].
    rewrite Hv, Hl. cbn [mbind result_bind try_except].
    rewrite judge_checks_verdict.
    + rewrite !forallb_app. cbn [forallb]. rewrite Hres. reflexivity.
    + apply Forall_app in Hothers as [Hb Ha].
      apply Forall_app. split; [exact Hb|]. constructor; assumption.
Qed.







End Evaluator.

Lemma C1_witness :
  BrainBatchAlpha.check_alpha_qualification (H := decimal_float) scenario_report = Ok true.
Proof.
  apply (C1_meeting_every_criterion_qualifies (H := decimal_float)
           scenario_report scenario_metrics [JObj scenario_check]
           1.8%float 1.2%float 0.5%float 0.03%float).
  - eexists. split; reflexivity.
  - eexists. split; reflexivity.
  - reflexivity.
  - eexists. split; reflexivity.
  - reflexivity.
  - eexists. split; reflexivity.
  - reflexivity.
  - reflexivity.
  - eexists. split; reflexivity.
  - reflexivity.
  - left. reflexivity.
  - intros d Hin _. apply list_elem_of_singleton in Hin. injection Hin as ->.
    exists 2%float, 1%float. split; [|split].
    + eexists. split; reflexivity.
    + eexists. split; reflexivity.
    + reflexivity.
  - constructor; [|constructor]. eexists _, _. split; [reflexivity|]. split; reflexivity.
Defined.

Lemma C2_witness :
  BrainBatchAlpha.check_alpha_qualification (H := decimal_float) failing_report
  = Ok false /\
  BrainBatchAlpha.check_alpha_qualification (H := decimal_float) warning_report
  = Ok (BrainBatchAlpha.judge_metrics 1.8 1.2 0.5 0.03 2 1
        && forallb (fun c' => negb (fails_or_pends c')) ([JObj scenario_check] ++ [])).
Proof.
  split.
  - eapply (proj1 (C2_failing_or_pending_check_disqualifies (H := decimal_float)
                     failing_report)
             _ [JObj scenario_check; JObj failing_check] (JObj failing_check) "FAIL").
    + eexists. split; reflexivity.
    + reflexivity.
    + right. left.
    + eexists _, _. split; [reflexivity|]. split; reflexivity.
    + left. reflexivity.
  - eapply (proj2 (C2_failing_or_pending_check_disqualifies (H := decimal_float)
                     warning_report)
             _ [JObj scenario_check] (JObj warning_check) [] scenario_check).
    + eexists. split; reflexivity.
    + reflexivity.
    + eexists. reflexivity.
    + reflexivity.
    + constructor; [eexists; reflexivity|constructor].
    + reflexivity.
    + reflexivity.
    + reflexivity.
    + reflexivity.
    + reflexivity.
    + reflexivity.
    + reflexivity.
Defined.

(** C2, as stated, fails: a check that reports WARNING is neither FAIL nor
    PENDING for the loop over the checks, and the report still qualifies. *)
Lemma C2_counterexample :
  has_check_other_than_pass warning_report /\
  BrainBatchAlpha.check_alpha_qualification (H := decimal_float) warning_report = Ok true.
Proof.
  split; [|vm_compute; reflexivity].
  eexists _, _, warning_check, _. split; [eexists; split; reflexivity|].
  split; [reflexivity|]. split; [right; left|]. split; [reflexivity|].
  vm_compute. discriminate.
Qed.

(** ** The session manager and its retrying requests *)

Lemma bind_returns {A B} (m : M A) (f : A -> M B) w a w' :
  m w = (Returns a, w') -> (m ≫= f) w = f a w'.
Proof. intros E. unfold mbind, M_bind. rewrite E. reflexivity. Qed.

Lemma bind_raises {A B} (m : M A) (f : A -> M B) w e w' :
  m w = (Raises e, w') -> (m ≫= f) w = (Raises e, w').
Proof. intros E. unfold mbind, M_bind. rewrite E. reflexivity. Qed.

Lemma bind_blocks {A B} (m : M A) (f : A -> M B) w w' :
  m w = (Blocks, w') -> (m ≫= f) w = (Blocks, w').
Proof. intros E. unfold mbind, M_bind. rewrite E. reflexivity. Qed.

Lemma get_session_settled w :
  settled w -> exists h, SessionManager.get_session w = (Returns h, w).
Proof.
  intros (h & t & Hs & Hc & He). exists h.
  unfold SessionManager.get_session, SessionManager._is_session_expiring,
    datetime_now, ask, mbind, M_bind, mret, M_ret.
  rewrite Hs, Hc, He. reflexivity.
Qed.

(** An accepted authentication leaves a settled manager with one more
    session made. *)
Lemma create_session_accepted w x rest :
  wire w = x :: rest -> handshake x ->
  exists w', SessionManager.create_session w = (Returns (sessions_made w), w') /\
    settled w' /\ wire w' = rest /\ sessions_made w' = S (sessions_made w) /\
    history w' = Sent POST Authentication None :: history w.
Proof.
  intros Hw (r & Hx & Hr). unfold SessionManager.create_session.
  unfold mbind, M_bind, ask, change, send, datetime_now, mret, M_ret, raise. simpl.
  rewrite Hw, Hx.
  assert ((status_code r =? 200) || (status_code r =? 201) = true) as ->.
  { destruct Hr as [-> | ->]; reflexivity. }
  eexists. split; [reflexivity|]. simpl. split; [|auto].
  eexists _, _. simpl. split; [reflexivity|]. split; [reflexivity|].
  rewrite Z.sub_diag. reflexivity.
Qed.

Lemma sleep_5 w :
  sleep 5 w = (Returns tt, set_history (Slept 5 :: history w) (set_now (now w + 5000000) w)).
Proof. reflexivity. Qed.

Section Attempts.
Variables (method : string) (v : verb) (u : url) (payload : option json).
Variables (max_retries retries : Z).

Lemma send_supported :
  supported method v ->
  (if String.eqb (lower method) "get" then send GET u payload
   else if String.eqb (lower method) "post" then send POST u payload
   else raise (ValueError "Unsupported method")) = send v u payload.
Proof. intros [[-> ->] | [-> ->]]; reflexivity. Qed.

(** A transport failure with retries left: pause, new session, next round. *)
Lemma attempt_breaks_retry w x y rest :
  supported method v -> settled w -> wire w = x :: y :: rest ->
  breaks_down x -> handshake y -> retries + 1 < max_retries ->
  exists w', SessionManager.attempt method u payload max_retries retries w
             = (Returns (SessionManager.Continue (retries + 1)), w') /\
    settled w' /\ wire w' = rest /\ sessions_made w' = S (sessions_made w) /\
    history w' = Sent POST Authentication None :: Slept 5 :: Sent v u payload :: history w.
Proof.
  intros Hm Hs Hw Hx Hy Hlt. unfold SessionManager.attempt.
  rewrite (send_supported Hm).
  destruct (get_session_settled w Hs) as (h & Hg).
  apply Z.ltb_lt in Hlt. rewrite Hlt.
  unfold try_catch at 1. rewrite (bind_returns _ _ _ _ _ Hg).
  unfold mbind at 1, M_bind at 1, send at 1. rewrite Hw, Hx. cbn [Exception].
  rewrite (bind_returns _ _ _ _ _ (sleep_5 _)).
  match goal with
  | |- context [(SessionManager.create_session ≫= _) ?w1] =>
      destruct (create_session_accepted w1 y rest eq_refl Hy) as (w' & Hc & Hs' & Hw' & Hn & Hh)
  end.
  rewrite (bind_returns _ _ _ _ _ Hc). exists w'. auto.
Qed.

(** A transport failure on the last round is raised to the caller. *)
Lemma attempt_breaks_last w x rest :
  supported method v -> settled w -> wire w = x :: rest ->
  breaks_down x -> ~ retries + 1 < max_retries ->
  exists w', SessionManager.attempt method u payload max_retries retries w
             = (Raises RequestException, w') /\
    wire w' = rest /\ sessions_made w' = sessions_made w /\
    history w' = Sent v u payload :: history w.
Proof.
  intros Hm Hs Hw Hx Hlt. unfold SessionManager.attempt.
  rewrite (send_supported Hm).
  destruct (get_session_settled w Hs) as (h & Hg).
  apply Z.ltb_nlt in Hlt. rewrite Hlt.
  unfold try_catch at 1. rewrite (bind_returns _ _ _ _ _ Hg).
  unfold mbind at 1, M_bind at 1, send at 1. rewrite Hw, Hx. cbn [Exception].
  eexists. split; [reflexivity|]. auto.
Qed.

(** An unauthorized answer: new session, next round, no pause. *)
Lemma attempt_unauthorized w x y rest :
  supported method v -> settled w -> wire w = x :: y :: rest ->
  unauthorized x -> handshake y ->
  exists w', SessionManager.attempt method u payload max_retries retries w
             = (Returns (SessionManager.Continue (retries + 1)), w') /\
    settled w' /\ wire w' = rest /\ sessions_made w' = S (sessions_made w) /\
    history w' = Sent POST Authentication None :: Sent v u payload :: history w.
Proof.
  intros Hm Hs Hw (r & Hx & Hr) Hy. unfold SessionManager.attempt.
  rewrite (send_supported Hm).
  destruct (get_session_settled w Hs) as (h & Hg).
  unfold try_catch at 1. rewrite (bind_returns _ _ _ _ _ Hg).
  unfold mbind at 1, M_bind at 1, send at 1. rewrite Hw, Hx, Hr. cbn [Z.eqb Pos.eqb].
  match goal with
  | |- context [(SessionManager.create_session ≫= _) ?w1] =>
      destruct (create_session_accepted w1 y rest eq_refl Hy) as (w' & Hc & Hs' & Hw' & Hn & Hh)
  end.
  rewrite (bind_returns _ _ _ _ _ Hc). exists w'. auto.
Qed.

(** An unsupported method with retries left: the [ValueError] is caught,
    so pause, new session, next round, with nothing sent. *)
Lemma attempt_unsupported_retry w y rest :
  lower method <> "get" -> lower method <> "post" ->
  settled w -> wire w = y :: rest -> handshake y -> retries + 1 < max_retries ->
  exists w', SessionManager.attempt method u payload max_retries retries w
             = (Returns (SessionManager.Continue (retries + 1)), w') /\
    settled w' /\ wire w' = rest /\ sessions_made w' = S (sessions_made w) /\
    history w' = Sent POST Authentication None :: Slept 5 :: history w.
Proof.
  intros Hg Hp Hs Hw Hy Hlt. unfold SessionManager.attempt.
  apply String.eqb_neq in Hg, Hp. rewrite Hg, Hp.
  destruct (get_session_settled w Hs) as (h & Hgs).
  apply Z.ltb_lt in Hlt. rewrite Hlt.
  unfold try_catch at 1. rewrite (bind_returns _ _ _ _ _ Hgs).
  unfold mbind at 1, M_bind at 1, raise at 1. cbn [Exception].
  rewrite (bind_returns _ _ _ _ _ (sleep_5 _)).
  match goal with
  | |- context [(SessionManager.create_session ≫= _) ?w1] =>
      destruct (create_session_accepted w1 y rest Hw Hy) as (w' & Hc & Hs' & Hw' & Hn & Hh)
  end.
  rewrite (bind_returns _ _ _ _ _ Hc). exists w'. auto.
Qed.

(** An unsupported method on the last round: the [ValueError] gets out. *)
Lemma attempt_unsupported_last w :
  lower method <> "get" -> lower method <> "post" ->
  settled w -> ~ retries + 1 < max_retries ->
  SessionManager.attempt method u payload max_retries retries w
  = (Raises (ValueError "Unsupported method"), w).
Proof.
  intros Hg Hp Hs Hlt. unfold SessionManager.attempt.
  apply String.eqb_neq in Hg, Hp. rewrite Hg, Hp.
  destruct (get_session_settled w Hs) as (h & Hgs).
  apply Z.ltb_nlt in Hlt. rewrite Hlt.
  unfold try_catch at 1. rewrite (bind_returns _ _ _ _ _ Hgs). reflexivity.
Qed.

End Attempts.

(** Unfolds the next round of the loop for a known bound and count. *)
Ltac next_round :=
  unfold SessionManager.request_with_retry;
  repeat match goal with
         | |- context [Z.to_nat ?n] =>
             let k := eval vm_compute in (Z.to_nat n) in change (Z.to_nat n) with k
         | |- context [SessionManager.retry_loop _ _ _ _ _ (?a + ?b)] =>
             let k := eval vm_compute in (a + b) in change (a + b) with k
         end;
  cbn [SessionManager.retry_loop];
  match goal with
  | |- context [?a <? ?b] =>
      let k := eval vm_compute in (a <? b) in change (a <? b) with k
  end;
  cbv iota.

(** Three unauthorized answers in a row use up the three rounds; the loop
    ends and the function returns [None]. *)
Lemma request_with_retry_unauthorized_thrice method v u payload w x1 y1 x2 y2 x3 y3 rest :
  supported method v -> settled w ->
  wire w = x1 :: y1 :: x2 :: y2 :: x3 :: y3 :: rest ->
  unauthorized x1 -> unauthorized x2 -> unauthorized x3 ->
  handshake y1 -> handshake y2 -> handshake y3 ->
  exists w', SessionManager.request_with_retry method u 3 payload w = (Returns None, w') /\
    sessions_made w' = (3 + sessions_made w)%nat /\ wire w' = rest.
Proof.
  intros Hm Hs Hw X1 X2 X3 Y1 Y2 Y3.
  next_round.
  destruct (attempt_unauthorized method v u payload 3 0 w x1 y1 _ Hm Hs Hw X1 Y1)
    as (w1 & E1 & Hs1 & Hw1 & Hn1 & _).
  rewrite (bind_returns _ _ _ _ _ E1).
  next_round.
  destruct (attempt_unauthorized method v u payload 3 1 w1 x2 y2 _ Hm Hs1 Hw1 X2 Y2)
    as (w2 & E2 & Hs2 & Hw2 & Hn2 & _).
  rewrite (bind_returns _ _ _ _ _ E2).
  next_round.
  destruct (attempt_unauthorized method v u payload 3 2 w2 x3 y3 _ Hm Hs2 Hw2 X3 Y3)
    as (w3 & E3 & Hs3 & Hw3 & Hn3 & _).
  rewrite (bind_returns _ _ _ _ _ E3).
  next_round.
  exists w3. split; [reflexivity|]. split; [lia | assumption].
Qed.

(** C6, as the code has it.  With the retry bound 3 and three transport
    failures in a row, the third failure is raised to the caller, and two
    sessions have been made on the way: one before each retry, none after
    the last failure. *)
Theorem C6_three_transport_failures_two_new_sessions
    (method : string) (v : verb) (u : url) (payload : option json) (w : world)
    (x1 y1 x2 y2 x3 : exchange) (rest : list exchange) :
  supported method v -> settled w ->
  wire w = x1 :: y1 :: x2 :: y2 :: x3 :: rest ->
  breaks_down x1 -> breaks_down x2 -> breaks_down x3 ->
  handshake y1 -> handshake y2 ->
  exists w',
    SessionManager.request_with_retry method u 3 payload w = (Raises RequestException, w') /\
    sessions_made w' = (2 + sessions_made w)%nat /\
    wire w' = rest /\
    history w' =
     ([Sent v u payload;
       Sent POST Authentication None; Slept 5; Sent v u payload;
       Sent POST Authentication None; Slept 5; Sent v u payload] ++ history w)%list.
Proof.
  intros Hm Hs Hw X1 X2 X3 Y1 Y2.
  next_round.
  destruct (attempt_breaks_retry method v u payload 3 0 w x1 y1 _ Hm Hs Hw X1 Y1 ltac:(lia))
    as (w1 & E1 & Hs1 & Hw1 & Hn1 & Hh1).
  rewrite (bind_returns _ _ _ _ _ E1).
  next_round.
  destruct (attempt_breaks_retry method v u payload 3 1 w1 x2 y2 _ Hm Hs1 Hw1 X2 Y2 ltac:(lia))
    as (w2 & E2 & Hs2 & Hw2 & Hn2 & Hh2).
  rewrite (bind_returns _ _ _ _ _ E2).
  next_round.
  destruct (attempt_breaks_last method v u payload 3 2 w2 x3 rest Hm Hs2 Hw2 X3 ltac:(lia))
    as (w3 & E3 & Hw3 & Hn3 & Hh3).
  rewrite (bind_raises _ _ _ _ _ E3).
  exists w3. split; [reflexivity|]. split; [lia|]. split; [assumption|].
  rewrite Hh3, Hh2, Hh1. reflexivity.
Qed.

Lemma C6_witness :
  exists w',
    SessionManager.request_with_retry "GET" (Address "https://api.worldquantbrain.com/alphas")
      3 None (started [breaks; answers 200; breaks; answers 201; breaks])
    = (Raises RequestException, w') /\
    sessions_made w' = 3%nat /\ wire w' = [] /\
    history w' =
     ([Sent GET (Address "https://api.worldquantbrain.com/alphas") None;
       Sent POST Authentication None; Slept 5;
       Sent GET (Address "https://api.worldquantbrain.com/alphas") None;
       Sent POST Authentication None; Slept 5;
       Sent GET (Address "https://api.worldquantbrain.com/alphas") None] ++ [])%list.
Proof.
  apply (C6_three_transport_failures_two_new_sessions "GET" GET _ None
           (started [breaks; answers 200; breaks; answers 201; breaks])
           breaks (answers 200) breaks (answers 201) breaks []).
  - left. split; reflexivity.
  - exists 0%nat, 0. split; [reflexivity|]. split; reflexivity.
  - reflexivity.
  - reflexivity.
  - reflexivity.
  - reflexivity.
  - eexists. split; [reflexivity|]. left. reflexivity.
  - eexists. split; [reflexivity|]. right. reflexivity.
Defined.

(** C6, as stated, fails: on three transport failures the call raises
    after making two sessions, not three. *)
Lemma C6_counterexample :
  let w := started [breaks; answers 200; breaks; answers 200; breaks; answers 200] in
  let run := SessionManager.request_with_retry "get" (Address "https://api.worldquantbrain.com/alphas")
               3 None w in
  fst run = Raises RequestException /\
  (sessions_made (snd run) - sessions_made w)%nat = 2%nat /\
  (sessions_made (snd run) - sessions_made w)%nat <> 3%nat.
Proof. vm_compute. repeat split; discriminate. Qed.

(** Any method other than get and post, whatever its case, goes through the
    three rounds: two pauses and two new sessions, then the [ValueError]. *)
Lemma request_with_retry_unsupported method u payload w y1 y2 rest :
  lower method <> "get" -> lower method <> "post" -> settled w ->
  wire w = y1 :: y2 :: rest -> handshake y1 -> handshake y2 ->
  exists w',
    SessionManager.request_with_retry method u 3 payload w
    = (Raises (ValueError "Unsupported method"), w') /\
    sessions_made w' = (2 + sessions_made w)%nat /\ wire w' = rest /\
    history w' =
      (Sent POST Authentication None :: Slept 5 ::
       Sent POST Authentication None :: Slept 5 :: history w).
Proof.
  intros Hg Hp Hs Hw Y1 Y2.
  next_round.
  destruct (attempt_unsupported_retry method u payload 3 0 w y1 _ Hg Hp Hs Hw Y1 ltac:(lia))
    as (w1 & E1 & Hs1 & Hw1 & Hn1 & Hh1).
  rewrite (bind_returns _ _ _ _ _ E1).
  next_round.
  destruct (attempt_unsupported_retry method u payload 3 1 w1 y2 _ Hg Hp Hs1 Hw1 Y2 ltac:(lia))
    as (w2 & E2 & Hs2 & Hw2 & Hn2 & Hh2).
  rewrite (bind_returns _ _ _ _ _ E2).
  next_round.
  rewrite (bind_raises _ _ _ _ _
             (attempt_unsupported_last method u payload 3 2 w2 Hg Hp Hs2 ltac:(lia))).
  exists w2. split; [reflexivity|]. split; [lia|]. split; [assumption|].
  rewrite Hh2, Hh1. reflexivity.
Qed.

(** C5 on the code: three unauthorized answers, each followed by an
    accepted authentication, make [request_with_retry] return [None]; no
    exception reaches the caller. *)
Theorem C5_unauthorized_exhaustion_returns_None :
  let w := started [answers 401; answers 200; answers 401; answers 200;
                    answers 401; answers 200] in
  let run := SessionManager.request_with_retry "get" (Address "https://api.worldquantbrain.com/alphas")
               3 None w in
  fst run = Returns None /\
  (sessions_made (snd run) - sessions_made w)%nat = 3%nat /\
  wire (snd run) = [].
Proof. vm_compute. repeat split. Qed.

(** C7 on the code: the [ValueError] for an unsupported method is raised
    inside the [try] block, so the [except Exception] clause takes it for a
    failed request: two pauses and two new sessions come before the third
    round lets it through. *)
Theorem C7_unsupported_method_is_retried :
  let w := started [answers 200; answers 200] in
  let run := SessionManager.request_with_retry "PUT" (Address "https://api.worldquantbrain.com/alphas")
               3 None w in
  fst run = Raises (ValueError "Unsupported method") /\
  history (snd run) =
    [Sent POST Authentication None; Slept 5; Sent POST Authentication None; Slept 5] /\
  (sessions_made (snd run) - sessions_made w)%nat = 2%nat.
Proof. vm_compute. repeat split. Qed.

(** ** Rules for [keeps] *)

Section Keeps.
Context {R : world -> world -> Prop} {watched : event -> bool} `{!Lasting R watched}.

Let R_refl := lasting_refl (R := R).
Let R_trans := lasting_trans (R := R).
Let R_now := lasting_now (R := R).
Let R_wire := lasting_wire (R := R).
Let R_history := lasting_history (R := R).
Let R_session := lasting_session (R := R).
Let R_created := lasting_created (R := R).
Let sleep_unwatched := lasting_sleep (R := R).
Let handshake_unwatched := lasting_handshake (R := R).

Lemma keeps_ret {A} (Q : A -> Prop) a : Q a -> keeps R Q (mret a).
Proof. intros HQ w. split; [apply R_refl|]. simpl. intros b [= <-]. exact HQ. Qed.

Lemma keeps_raise {A} (Q : A -> Prop) e : keeps R Q (raise e).
Proof. intros w. split; [apply R_refl|]. simpl. discriminate. Qed.

Lemma keeps_blocks {A} (Q : A -> Prop) : keeps R Q blocks.
Proof. intros w. split; [apply R_refl|]. simpl. discriminate. Qed.

Lemma keeps_lift {A} (r : result A) : keeps R (fun a => r = Ok a) (lift r).
Proof.
  destruct r as [a|e]; simpl; [apply keeps_ret; reflexivity | apply keeps_raise].
Qed.

Lemma keeps_ask {A} (f : world -> A) : keeps R (fun _ => True) (ask f).
Proof. intros w. split; [apply R_refl|]. auto. Qed.

Lemma keeps_change (f : world -> world) :
  (forall w, R w (f w)) -> keeps R (fun _ => True) (change f).
Proof. intros Hf w. split; [apply Hf|]. auto. Qed.

Lemma keeps_weaken {A} (P Q : A -> Prop) m :
  keeps R P m -> (forall a, P a -> Q a) -> keeps R Q m.
Proof. intros Hm HPQ w. destruct (Hm w) as [HR HP]. split; auto. Qed.

Lemma keeps_bind {A B} (P : A -> Prop) (Q : B -> Prop) (m : M A) (f : A -> M B) :
  keeps R P m -> (forall a, P a -> keeps R Q (f a)) -> keeps R Q (m ≫= f).
Proof.
  intros Hm Hf w. destruct (Hm w) as [HR HP].
  unfold mbind, M_bind. destruct (m w) as [[a|e|] w1]; simpl in *.
  - destruct (Hf a (HP a eq_refl) w1) as [HR' HQ]. split; [eapply R_trans; eauto | exact HQ].
  - split; [exact HR | discriminate].
  - split; [exact HR | discriminate].
Qed.

Lemma keeps_try {A} (Q : A -> Prop) catches (body : M A) handler :
  keeps R Q body -> (forall e, keeps R Q (handler e)) ->
  keeps R Q (try_catch catches body handler).
Proof.
  intros Hb Hh w. destruct (Hb w) as [HR HQ].
  unfold try_catch. destruct (body w) as [[a|e|] w1]; simpl in *.
  - split; assumption.
  - destruct (catches e).
    + destruct (Hh e w1) as [HR' HQ']. split; [eapply R_trans; eauto | exact HQ'].
    + split; [exact HR | discriminate].
  - split; [exact HR | discriminate].
Qed.

Lemma keeps_with_fuel {A} (Q : A -> Prop) (f : nat -> M A) :
  (forall fuel, keeps R Q (f fuel)) -> keeps R Q (with_fuel f).
Proof. intros Hf w. apply Hf. Qed.

(** The calls that do not touch what [R] watches. *)

Lemma keeps_disk_op : keeps R (fun _ => True) disk_op.
Proof.
  intros w. split; [|auto]. unfold disk_op.
  destruct (disk_faults w) as [|[] rest]; simpl;
    [apply R_refl | apply lasting_disk_faults | apply lasting_disk_faults].
Qed.

Lemma keeps_sleep seconds : keeps R (fun _ => True) (sleep seconds).
Proof.
  intros w. split; [|auto]. unfold sleep.
  destruct (Prim2SF seconds) as [[]|[]| |[] ? ?]; simpl; try apply R_refl;
    (destruct (longest_sleep <? micros seconds); simpl; [apply R_refl|]);
    (eapply R_trans;
     [apply (R_now (now w + micros seconds))
     |apply (R_history (Slept seconds) (set_now (now w + micros seconds) w));
      apply sleep_unwatched]).
Qed.

Lemma keeps_send v u payload :
  watched (Sent v u payload) = false -> keeps R (fun _ => True) (send v u payload).
Proof.
  intros Hp w. split; [|auto]. unfold send.
  assert (H1 : R w (set_history (Sent v u payload :: history w) w))
    by (apply R_history; exact Hp).
  destruct (wire w) as [|x rest] eqn:Ew; simpl; [exact H1|].
  assert (H2 : R w (set_wire rest (set_now (now w + took x)
                      (set_history (Sent v u payload :: history w) w)))).
  { eapply R_trans; [exact H1|].
    set (w1 := set_history (Sent v u payload :: history w) w).
    eapply R_trans; [apply (R_now (now w + took x) w1)|].
    set (w2 := set_now (now w + took x) w1).
    replace rest with (tail (wire w2)) by (simpl; rewrite Ew; reflexivity).
    apply R_wire. }
  destruct (reply_of x); simpl; exact H2.
Qed.

Lemma keeps_create_session : keeps R (fun _ => True) SessionManager.create_session.
Proof.
  unfold SessionManager.create_session.
  eapply keeps_bind; [apply keeps_ask|]. intros n _.
  eapply keeps_bind; [apply keeps_change; intros; apply R_session|]. intros _ _.
  eapply keeps_bind; [apply keeps_send; exact handshake_unwatched|]. intros r _.
  destruct (_ || _).
  - eapply keeps_bind; [apply keeps_ask|]. intros t _.
    eapply keeps_bind; [apply keeps_change; intros; apply R_created|]. intros _ _.
    apply keeps_ret. exact I.
  - apply keeps_raise.
Qed.

Lemma keeps_get_session : keeps R (fun _ => True) SessionManager.get_session.
Proof.
  unfold SessionManager.get_session.
  eapply keeps_bind; [apply keeps_ask|]. intros [h|] _; [|apply keeps_create_session].
  eapply keeps_bind with (P := fun _ => True).
  - unfold SessionManager._is_session_expiring.
    eapply keeps_bind; [apply keeps_ask|]. intros [t|] _; [|apply keeps_ret; exact I].
    eapply keeps_bind; [apply keeps_ask|]. intros n _. apply keeps_ret. exact I.
  - intros [] _; [apply keeps_create_session | apply keeps_ret; exact I].
Qed.

Lemma keeps_post u payload :
  watched (Sent POST u payload) = false ->
  keeps R (fun _ => True) (SessionManager.post u payload).
Proof.
  intros Hu. unfold SessionManager.post.
  eapply keeps_bind; [apply keeps_get_session|]. intros _ _.
  apply keeps_send. exact Hu.
Qed.

Lemma keeps_get u :
  watched (Sent GET u None) = false -> keeps R (fun _ => True) (SessionManager.get u).
Proof.
  intros Hu. unfold SessionManager.get.
  eapply keeps_bind; [apply keeps_get_session|]. intros _ _.
  apply keeps_send. exact Hu.
Qed.

End Keeps.

(** ** The submission driver *)

#[local] Instance wire_shrinks_lasting : Lasting wire_shrinks (fun _ => false).
Proof.
  split; try reflexivity; intros; unfold wire_shrinks in *; simpl; try lia.
  destruct (wire w); simpl; lia.
Qed.

Lemma get_session_wire w : wire_shrinks w (snd (SessionManager.get_session w)).
Proof. apply (keeps_get_session (R := wire_shrinks)). Qed.

(** Every answered GET takes at least one exchange off the wire. *)
Lemma get_uses_wire u w r w1 :
  SessionManager.get u w = (Returns r, w1) -> (length (wire w1) < length (wire w))%nat.
Proof.
  unfold SessionManager.get, mbind, M_bind.
  pose proof (get_session_wire w) as HR. unfold wire_shrinks in HR.
  destruct (SessionManager.get_session w) as [[h|e|] w0]; simpl in *; try discriminate.
  unfold send. destruct (wire w0) as [|x rest] eqn:E; [discriminate|].
  destruct (reply_of x); intros [= <- <-]. simpl in *. lia.
Qed.

Lemma sleep_wire seconds w w' : sleep seconds w = (Returns tt, w') -> wire w' = wire w.
Proof.
  unfold sleep.
  destruct (Prim2SF seconds) as [[]|[]| |[] ? ?]; simpl; try discriminate;
    (destruct (longest_sleep <? micros seconds); simpl; [discriminate|]);
    intros [= <-]; reflexivity.
Qed.

Section Submission.
Context `{FloatOfStr}.
Import BrainBatchAlpha.

Lemma submit_attempts_resends u k n w w1 :
  resends u k w w1 -> submit_attempts (k + n) u w = submit_attempts n u w1.
Proof.
  induction 1 as [w | k w r w1 w2 Hpost H201 H400 H403 _ IH]; [reflexivity|].
  cbn [Nat.add submit_attempts].
  rewrite (bind_returns _ _ _ _ _ Hpost).
  apply Z.eqb_neq in H201, H400, H403. rewrite H201, H400, H403. cbn [orb].
  rewrite (bind_returns _ _ w1 tt (after_sleep 3 w1) eq_refl). exact IH.
Qed.

Lemma confirm_submission_waits u w w3 r w4 seconds fuel :
  waits u w w3 ->
  SessionManager.get u w3 = (Returns r, w4) ->
  retry_after r = Ok seconds -> (seconds =? 0)%float = true ->
  (length (wire w) < fuel)%nat ->
  confirm_submission fuel u w = (Returns (status_code r =? 200), w4).
Proof.
  intros Hwaits Hget Hretry Hzero. revert fuel.
  induction Hwaits as [w | w r0 s0 w1 w2 w3 Hget0 Hretry0 Hs0 Hsleep _ IH]; intros fuel Hfuel.
  - destruct fuel as [|fuel]; [lia|]. cbn [confirm_submission].
    rewrite (bind_returns _ _ _ _ _ Hget), Hretry. cbn [lift].
    rewrite (bind_returns _ _ w4 seconds w4 eq_refl), Hzero.
    destruct (status_code r =? 200); reflexivity.
  - destruct fuel as [|fuel]; [lia|]. cbn [confirm_submission].
    rewrite (bind_returns _ _ _ _ _ Hget0), Hretry0. cbn [lift].
    rewrite (bind_returns _ _ w1 s0 w1 eq_refl), Hs0.
    rewrite (bind_returns _ _ _ _ _ Hsleep).
    apply IH; [assumption|].
    pose proof (get_uses_wire _ _ _ _ Hget0). rewrite (sleep_wire _ _ _ Hsleep). lia.
Qed.

(** C8.  In [submit_alpha], a POST answered 400 or 403 ends the call with
    failure at once; any other answer but 201 is followed by the pause of 3
    seconds and a new POST, and after the fifth such answer the call fails;
    after a 201 the confirmation is polled, and the answer whose
    Retry-After is 0 decides: success if its status is 200. *)
Theorem C8_submit_alpha_outcomes (alpha_id : string) :
  (forall k w w1 r w2,
     resends (Submit alpha_id) k w w1 -> (k < 5)%nat ->
     SessionManager.post (Submit alpha_id) None w1 = (Returns r, w2) ->
     status_code r = 400 \/ status_code r = 403 ->
     submit_alpha alpha_id w = (Returns false, w2)) /\
  (forall w w1,
     resends (Submit alpha_id) 5 w w1 ->
     submit_alpha alpha_id w = (Returns false, w1)) /\
  (forall k w w1 r w2 w3 r' w4 seconds,
     resends (Submit alpha_id) k w w1 -> (k < 5)%nat ->
     SessionManager.post (Submit alpha_id) None w1 = (Returns r, w2) ->
     status_code r = 201 ->
     waits (Submit alpha_id) w2 w3 ->
     SessionManager.get (Submit alpha_id) w3 = (Returns r', w4) ->
     retry_after r' = Ok seconds -> (seconds =? 0)%float = true ->
     submit_alpha alpha_id w = (Returns (status_code r' =? 200), w4)).
Proof.
  unfold submit_alpha. split; [|split].
  - intros k w w1 r w2 Hres Hk Hpost Hr.
    replace 5%nat with (k + S (4 - k))%nat by lia.
    rewrite (submit_attempts_resends _ _ _ _ _ Hres). cbn [submit_attempts].
    rewrite (bind_returns _ _ _ _ _ Hpost).
    destruct Hr as [-> | ->]; reflexivity.
  - intros w w1 Hres.
    change 5%nat with (5 + 0)%nat.
    rewrite (submit_attempts_resends _ _ _ _ _ Hres). reflexivity.
  - intros k w w1 r w2 w3 r' w4 seconds Hres Hk Hpost Hr Hwaits Hget Hretry Hzero.
    replace 5%nat with (k + S (4 - k))%nat by lia.
    rewrite (submit_attempts_resends _ _ _ _ _ Hres). cbn [submit_attempts].
    rewrite (bind_returns _ _ _ _ _ Hpost), Hr. cbn [Z.eqb Pos.eqb].
    unfold with_fuel. eapply confirm_submission_waits; eauto.
Qed.

End Submission.

Lemma C8_witness :
  exists w',
    BrainBatchAlpha.submit_alpha (H := decimal_float) "abc123" (started submission_wire)
    = (Returns true, w') /\
    history w' =
      [Sent GET (Submit "abc123") None; Slept 5; Sent GET (Submit "abc123") None;
       Sent POST (Submit "abc123") None; Slept 3; Sent POST (Submit "abc123") None].
Proof.
  set (u := Submit "abc123").
  set (w0 := started submission_wire).
  set (w1 := after_sleep 3 (snd (SessionManager.post u None w0))).
  set (w2 := snd (SessionManager.post u None w1)).
  set (w3 := snd (sleep 5 (snd (SessionManager.get u w2)))).
  set (w4 := snd (SessionManager.get u w3)).
  exists w4. split; [|reflexivity].
  apply (proj2 (proj2 (C8_submit_alpha_outcomes (H := decimal_float) "abc123"))
           1%nat w0 w1 (Response 201 [] None) w2 w3
           (Response 200 [("Retry-After", "0")] None) w4 0%float).
  - apply (resends_more u 0 w0 (Response 500 [] None) (snd (SessionManager.post u None w0)));
      [reflexivity | discriminate | discriminate | discriminate | apply resends_none].
  - lia.
  - reflexivity.
  - reflexivity.
  - apply (waits_more (H := decimal_float) u w2
             (Response 200 [("Retry-After", "5")] None) 5%float
             (snd (SessionManager.get u w2)) w3 w3);
      [reflexivity | reflexivity | reflexivity | reflexivity | apply waits_over].
  - reflexivity.
  - reflexivity.
  - reflexivity.
Defined.

(** ** Poll answers without a Retry-After header *)

#[local] Instance no_new_poll_lasting : Lasting no_new_poll is_poll.
Proof.
  split; try reflexivity; intros; try (exists []; split; reflexivity).
  - destruct H as (n1 & E1 & F1), H0 as (n2 & E2 & F2).
    exists (n2 ++ n1)%list. rewrite E2, E1, app_assoc, forallb_app, F1, F2. split; reflexivity.
  - exists [e]. simpl. rewrite H. split; reflexivity.
Qed.

Section Polling.
Context `{FloatOfStr}.
Import BrainBatchAlpha.

(** Once a simulation is done no request goes to the poll address again. *)
Lemma simulation_done_no_new_poll alpha resp :
  keeps no_new_poll (fun _ => True) (simulation_done alpha resp).
Proof.
  unfold simulation_done.
  eapply keeps_bind; [apply keeps_lift|]. intros alpha_id _.
  eapply keeps_bind; [apply keeps_sleep|]. intros _ _.
  eapply keeps_bind; [apply keeps_get; reflexivity|]. intros alpha_detail _.
  eapply keeps_bind; [apply keeps_lift|]. intros alpha_data _.
  eapply keeps_bind; [apply keeps_lift|]. intros has_is _.
  destruct (negb has_is); [apply keeps_ret; exact I|].
  eapply keeps_bind; [apply keeps_lift|]. intros is_qualified _.
  eapply keeps_bind; [apply keeps_lift|]. intros expression _.
  eapply keeps_bind; [apply keeps_lift|]. intros metrics _.
  eapply keeps_bind; [apply keeps_ask|]. intros timestamp _.
  apply keeps_ret. exact I.
Qed.

(** C10.  A poll answer with no Retry-After header counts as Retry-After 0:
    the simulation loop goes straight to reading the alpha identifier off
    that answer and polls no more, and the confirmation loop decides at
    once by the status of that answer. *)
Theorem C10_missing_retry_after_means_done (resp : response) :
  header_get "Retry-After" (headers resp) = None ->
  retry_after resp = Ok 0%float /\
  (forall fuel alpha target w w1,
     SessionManager.get (Location target) w = (Returns resp, w1) ->
     poll_simulation (S fuel) alpha target w = simulation_done alpha resp w1) /\
  (forall alpha w e,
     json_of resp ≫= (fun b => py_getitem b "alpha") = Err e ->
     simulation_done alpha resp w = (Raises e, w)) /\
  (forall alpha w, no_new_poll w (snd (simulation_done alpha resp w))) /\
  (forall fuel u w w1,
     SessionManager.get u w = (Returns resp, w1) ->
     confirm_submission (S fuel) u w = (Returns (status_code resp =? 200), w1)).
Proof.
  intros Hmissing.
  assert (Hretry : retry_after resp = Ok 0%float).
  { unfold retry_after. rewrite Hmissing. reflexivity. }
  split; [exact Hretry|]. split; [|split; [|split]].
  - intros fuel alpha target w w1 Hget. cbn [poll_simulation].
    rewrite (bind_returns _ _ _ _ _ Hget), Hretry. reflexivity.
  - intros alpha w e He. unfold simulation_done. rewrite He. reflexivity.
  - intros alpha w. apply simulation_done_no_new_poll.
  - intros fuel u w w1 Hget. cbn [confirm_submission].
    rewrite (bind_returns _ _ _ _ _ Hget), Hretry. cbn [lift].
    rewrite (bind_returns _ _ w1 0%float w1 eq_refl).
    change (0 =? 0)%float with true. cbv iota.
    destruct (status_code resp =? 200); reflexivity.
Qed.

End Polling.

Lemma C10_witness :
  BrainBatchAlpha.retry_after (H := decimal_float)
    (Response 200 [("Content-Type", "application/json")] (Some (JObj [("alpha", JStr "abc123")])))
  = Ok 0%float.
Proof.
  apply (C10_missing_retry_after_means_done (H := decimal_float)
           (Response 200 [("Content-Type", "application/json")]
              (Some (JObj [("alpha", JStr "abc123")])))).
  reflexivity.
Defined.

(** ** The batch orchestrator *)

#[local] Instance store_kept_lasting : Lasting store_kept (fun _ => false).
Proof. split; try reflexivity; intros; unfold store_kept in *; auto. Qed.

Section Orchestrator.
Context `{FloatOfStr} `{StrOf}.
Import BrainBatchAlpha.

(** A positive verdict comes only from a report whose metrics section is a
    dictionary with at least one entry. *)
Lemma qualified_has_metrics alpha_data :
  check_alpha_qualification alpha_data = Ok true ->
  exists kv m, py_get alpha_data "is" (JObj []) = Ok (JObj (kv :: m)).
Proof.
  unfold check_alpha_qualification, check_alpha_qualification_try.
  destruct alpha_data as [| | | | |l|d]; simpl; try discriminate.
  destruct (default (JObj []) (dict_get "is" d)) as [|b|z|f|s|l|m] eqn:E; simpl;
    try solve [repeat match goal with
                      | |- context [if ?c then _ else _] => destruct c
                      end; simpl; discriminate].
  destruct m as [|kv m]; simpl; [discriminate|]. eauto.
Qed.

Lemma simulation_done_sound alpha resp :
  keeps store_kept sound_outcome (simulation_done alpha resp).
Proof.
  unfold simulation_done.
  eapply keeps_bind; [apply keeps_lift|]. intros alpha_id _.
  eapply keeps_bind; [apply keeps_sleep|]. intros _ _.
  eapply keeps_bind; [apply keeps_get; reflexivity|]. intros alpha_detail _.
  eapply keeps_bind; [apply keeps_lift|]. intros alpha_data _.
  eapply keeps_bind; [apply keeps_lift|]. intros has_is _.
  destruct (negb has_is); [apply keeps_ret; intros r; discriminate|].
  eapply keeps_bind; [apply keeps_lift|]. intros is_qualified Hq.
  eapply keeps_bind; [apply keeps_lift|]. intros expression _.
  eapply keeps_bind; [apply keeps_lift|]. intros metrics Hm.
  eapply keeps_bind; [apply keeps_ask|]. intros timestamp _.
  apply keeps_ret. intros r [= <-]. simpl. intros ->.
  split; [reflexivity|]. simpl.
  destruct (qualified_has_metrics _ Hq) as (kv & m & Hkv).
  exists kv, m. congruence.
Qed.

Lemma poll_simulation_sound fuel alpha target :
  keeps store_kept sound_outcome (poll_simulation fuel alpha target).
Proof.
  induction fuel as [|fuel IH]; cbn [poll_simulation]; [apply keeps_blocks|].
  eapply keeps_bind; [apply keeps_get; reflexivity|]. intros resp _.
  eapply keeps_bind; [apply keeps_lift|]. intros seconds _.
  destruct (seconds =? 0)%float; [apply simulation_done_sound|].
  eapply keeps_bind; [apply keeps_sleep|]. intros _ _. exact IH.
Qed.

(** Whatever the service answers, the job runner hands over nothing or a
    sound result, and leaves the store alone. *)
Lemma _simulate_single_alpha_sound alpha alpha_index position :
  keeps store_kept sound_outcome (_simulate_single_alpha alpha alpha_index position).
Proof.
  unfold _simulate_single_alpha.
  apply keeps_try; [|intros e; apply keeps_ret; intros r; discriminate].
  eapply keeps_bind; [apply keeps_lift|]. intros _ _.
  eapply keeps_bind; [apply keeps_post; reflexivity|]. intros sim_resp _.
  destruct (negb _); [apply keeps_ret; intros r; discriminate|].
  apply keeps_try; [|intros e; apply keeps_ret; intros r; discriminate].
  eapply keeps_bind; [apply keeps_lift|]. intros target _.
  eapply keeps_bind; [apply keeps_ask|]. intros _ _.
  apply keeps_with_fuel. intros fuel. apply poll_simulation_sound.
Qed.

(** Saving a result that is fit for the store keeps the store fit. *)
Lemma _save_alpha_id_store (id : json) (r : sim_result) :
  qualifying r -> keeps store_kept (fun _ => True) (_save_alpha_id id r).
Proof.
  intros Hr. unfold _save_alpha_id.
  apply keeps_try; [|intros e; apply keeps_ret; exact I].
  eapply keeps_bind.
  { unfold makedirs. eapply keeps_bind; [apply keeps_disk_op|]. intros _ _.
    apply keeps_change. intros w. apply lasting_dirs. }
  intros _ _.
  eapply keeps_bind; [apply keeps_ask|]. intros file_exists _.
  eapply keeps_bind.
  { unfold to_csv. eapply keeps_bind; [apply keeps_disk_op|]. intros _ _.
    apply keeps_change. intros w Hw r'. simpl. rewrite lookup_insert_eq. simpl.
    rewrite !elem_of_app. intros [Hin | [Hin | Hin]].
    - apply Hw, Hin.
    - destruct (negb file_exists); [apply list_elem_of_singleton in Hin; discriminate|].
      inversion Hin.
    - apply list_elem_of_singleton in Hin. injection Hin as ->. exact Hr. }
  intros _ _.
  unfold append_text. eapply keeps_bind; [apply keeps_disk_op|]. intros _ _.
  apply keeps_change. intros w. apply lasting_texts.
Qed.

Lemma collect_sound results result :
  Forall qualifying results -> sound_outcome result ->
  keeps store_kept (Forall qualifying) (collect results result).
Proof.
  intros Hresults Hresult. unfold collect.
  destruct result as [r|]; [|apply keeps_ret; exact Hresults].
  destruct (passed_all_checks r) eqn:Hp; [|apply keeps_ret; exact Hresults].
  pose proof (Hresult r eq_refl Hp) as Hr.
  eapply keeps_bind with (P := fun _ => True).
  { apply keeps_try; [apply _save_alpha_id_store; exact Hr|].
    intros e. apply keeps_ret. exact I. }
  intros _ _.
  apply keeps_ret. apply Forall_app. split; [exact Hresults|]. constructor; [exact Hr|constructor].
Qed.

Lemma run_pool_sound alpha_list alpha_index results :
  Forall qualifying results ->
  keeps store_kept (Forall qualifying) (run_pool alpha_list alpha_index results).
Proof.
  revert alpha_index results.
  induction alpha_list as [|alpha rest IH]; intros alpha_index results Hresults;
    cbn [run_pool]; [apply keeps_ret; exact Hresults|].
  eapply keeps_bind; [apply _simulate_single_alpha_sound|]. intros result Hresult.
  eapply keeps_bind; [apply collect_sound; assumption|]. intros results' Hresults'.
  apply IH, Hresults'.
Qed.


End Orchestrator.



(** ** The two identifier files *)

(** C4 on the code: the orchestrator appends the identifier to
    [results/alpha_ids.txt]; the driver looks for [alpha_ids.txt], finds no
    such file and returns without reading or submitting anything. *)
Theorem C4_saved_ids_are_not_read_back :
  let saved := snd (BrainBatchAlpha.simulate_alphas (H := decimal_float) (H0 := str_of_scalars)
                      [candidate] (started simulation_wire)) in
  let later := set_wire submission_wire saved in
  texts saved !! BrainBatchAlpha.ids_path = Some ("abc123" +:+ String LF EmptyString) /\
  texts saved !! Main.STORAGE_ALPHA_ID_PATH = None /\
  BrainBatchAlpha.ids_path <> Main.STORAGE_ALPHA_ID_PATH /\
  Main.submit_alpha_ids (H := decimal_float) 2 later = (Returns tt, later).
Proof. vm_compute. repeat split. discriminate. Qed.

(** ** The scenarios of the specification, run *)

Example decimal_float_samples :
  decimal_float "2.0" = Some 2%float /\ decimal_float "0.1" = Some 0.1%float /\
  decimal_float "0" = Some 0%float /\ decimal_float "5" = Some 5%float /\
  decimal_float "-1.25" = Some (-1.25)%float /\ decimal_float "0.02" = Some 0.02%float /\
  decimal_float "123456789.123456789" = Some 123456789.123456789%float /\
  decimal_float "abc" = None /\ decimal_float EmptyString = None.
Proof. vm_compute. repeat split. Qed.

(** The qualifying candidate is returned and persisted with its id. *)
Example simulation_scenario_is_persisted :
  let run := BrainBatchAlpha.simulate_alphas (H := decimal_float) (H0 := str_of_scalars)
               [candidate] (started simulation_wire) in
  let row := SimResult (JStr "rank(close)") (JStr "abc123") true
                       (JObj scenario_metrics) 3003000 in
  fst run = Returns [row] /\
  tables (snd run) !! BrainBatchAlpha.csv_path = Some [CsvHeader; CsvRow row] /\
  texts (snd run) !! BrainBatchAlpha.ids_path = Some ("abc123" +:+ String LF EmptyString).
Proof. vm_compute. repeat split. Qed.

(** [201], a poll told to wait 5 seconds, then the confirming poll. *)
Example submission_scenario_succeeds :
  fst (BrainBatchAlpha.submit_multiple_alphas (H := decimal_float) ["abc123"]
         (started (tail submission_wire)))
  = Returns (["abc123"], []).
Proof. vm_compute. reflexivity. Qed.

(** With its own file in place the driver submits and rewrites it. *)
Example driver_reads_its_own_file :
  let w := set_texts {[ Main.STORAGE_ALPHA_ID_PATH := "abc123" +:+ String LF EmptyString ]}
             (started (tail submission_wire)) in
  let run := Main.submit_alpha_ids (H := decimal_float) 2 w in
  fst run = Returns tt /\
  texts (snd run) !! Main.STORAGE_ALPHA_ID_PATH = Some EmptyString /\
  history (snd run) =
    [Sent GET (Submit "abc123") None; Slept 5; Sent GET (Submit "abc123") None;
     Sent POST (Submit "abc123") None].
Proof. vm_compute. repeat split. Qed.

(** [401, 401, 200]: two new sessions, and the 200 is returned. *)
Example two_unauthorized_then_answer :
  let run := SessionManager.request_with_retry "GET" (Address "https://api.worldquantbrain.com/alphas")
               3 None (started [answers 401; answers 200; answers 401; answers 200; answers 200]) in
  fst run = Returns (Some (Response 200 [] None)) /\ sessions_made (snd run) = 3%nat.
Proof. vm_compute. repeat split. Qed.

(** * Further properties of the code *)

(** ** session_manager.py *)

(** X1.  A handshake the service turns down makes [create_session] raise,
    but the manager already holds the new session and still carries the old
    creation time: while that time is within the validity window,
    [get_session] hands the unauthenticated session out without another
    handshake. *)
Theorem create_session_rejected_keeps_old_stamp
    (w : world) (x : exchange) (rest : list exchange) (t : Z) :
  wire w = x :: rest -> rejected x ->
  session_created_at w = Some t ->
  now w + took x - t <= SessionManager.session_valid_duration ->
  exists w',
    SessionManager.create_session w
    = (Raises (PlainException "Authentication failed"), w') /\
    session w' = Some (sessions_made w) /\
    sessions_made w' = S (sessions_made w) /\
    session_created_at w' = Some t /\
    wire w' = rest /\
    SessionManager.get_session w' = (Returns (sessions_made w), w').
Proof.
  intros Hw (r & Hx & H200 & H201) Ht Hle.
  unfold SessionManager.create_session.
  unfold mbind, M_bind, ask, change, send, datetime_now, mret, M_ret, raise. simpl.
  rewrite Hw, Hx.
  apply Z.eqb_neq in H200, H201. rewrite H200, H201. simpl.
  eexists. split; [reflexivity|]. simpl. repeat (split; [solve [auto]|]).
  unfold SessionManager.get_session, SessionManager._is_session_expiring,
    datetime_now, ask, mbind, M_bind, mret, M_ret. simpl.
  rewrite Ht. simpl.
  assert ((SessionManager.session_valid_duration <? now w + took x - t) = false) as ->
    by (apply Z.ltb_ge; exact Hle).
  reflexivity.
Qed.

Lemma create_session_rejected_keeps_old_stamp_witness :
  exists w',
    SessionManager.create_session (started [answers 403])
    = (Raises (PlainException "Authentication failed"), w') /\
    session w' = Some 1%nat /\ sessions_made w' = 2%nat /\
    session_created_at w' = Some 0 /\ wire w' = [] /\
    SessionManager.get_session w' = (Returns 1%nat, w').
Proof.
  apply (create_session_rejected_keeps_old_stamp (started [answers 403]) (answers 403) [] 0).
  - reflexivity.
  - eexists. split; [reflexivity|]. split; discriminate.
  - reflexivity.
  - vm_compute. discriminate.
Defined.

(** X2.  [get_session] keeps a session up to and including 3.5 hours after
    its creation and sends nothing; one microsecond later it makes a new
    session with one handshake. *)
Theorem get_session_validity_window
    (w : world) (h : nat) (t : Z) :
  session w = Some h -> session_created_at w = Some t ->
  (now w - t <= 12600000000 ->
   SessionManager.get_session w = (Returns h, w)) /\
  (12600000000 < now w - t ->
   forall x rest, wire w = x :: rest -> handshake x ->
   exists w',
     SessionManager.get_session w = (Returns (sessions_made w), w') /\
     settled w' /\ wire w' = rest /\
     sessions_made w' = S (sessions_made w) /\
     history w' = Sent POST Authentication None :: history w).
Proof.
  intros Hs Hc. split.
  - intros Hle.
    unfold SessionManager.get_session, SessionManager._is_session_expiring,
      datetime_now, ask, mbind, M_bind, mret, M_ret.
    rewrite Hs, Hc.
    assert ((SessionManager.session_valid_duration <? now w - t) = false) as ->
      by (apply Z.ltb_ge; exact Hle).
    reflexivity.
  - intros Hlt x rest Hw Hx.
    destruct (create_session_accepted w x rest Hw Hx) as (w' & Hcs & Hrest).
    exists w'. split; [|exact Hrest].
    unfold SessionManager.get_session, SessionManager._is_session_expiring,
      datetime_now, ask, mbind, M_bind, mret, M_ret.
    rewrite Hs, Hc.
    assert ((SessionManager.session_valid_duration <? now w - t) = true) as ->
      by (apply Z.ltb_lt; exact Hlt).
    exact Hcs.
Qed.

Lemma get_session_validity_window_witness :
  SessionManager.get_session (set_now 12600000000 (started [answers 200]))
  = (Returns 0%nat, set_now 12600000000 (started [answers 200])) /\
  exists w',
    SessionManager.get_session (set_now 12600000001 (started [answers 200]))
    = (Returns 1%nat, w') /\
    settled w' /\ wire w' = [] /\ sessions_made w' = 2%nat /\
    history w' = [Sent POST Authentication None].
Proof.
  split.
  - apply (proj1 (get_session_validity_window
                    (set_now 12600000000 (started [answers 200])) 0%nat 0 eq_refl eq_refl)).
    vm_compute. discriminate.
  - apply (proj2 (get_session_validity_window
                    (set_now 12600000001 (started [answers 200])) 0%nat 0 eq_refl eq_refl)
             eq_refl (answers 200) []).
    + reflexivity.
    + eexists. split; [reflexivity|]. left. reflexivity.
Defined.

#[local] Instance any_world_lasting : Lasting any_world (fun _ => false).
Proof. split; try reflexivity; intros; exact I. Qed.

Lemma attempt_never_yields_401 method u payload max_retries retries :
  keeps any_world
    (fun round => match round with
                  | SessionManager.Return r => status_code r <> 401
                  | SessionManager.Continue _ => True
                  end)
    (SessionManager.attempt method u payload max_retries retries).
Proof.
  unfold SessionManager.attempt. apply keeps_try.
  - eapply keeps_bind; [apply keeps_get_session|]. intros _ _.
    eapply keeps_bind with (P := fun _ => True).
    { destruct (String.eqb (lower method) "get"); [apply keeps_send; reflexivity|].
      destruct (String.eqb (lower method) "post"); [apply keeps_send; reflexivity|].
      apply keeps_raise. }
    intros response _.
    destruct (status_code response =? 401) eqn:E.
    + eapply keeps_bind; [apply keeps_create_session|]. intros _ _.
      apply keeps_ret. exact I.
    + apply keeps_ret. apply Z.eqb_neq. exact E.
  - intros e. cbv zeta. destruct (retries + 1 <? max_retries); [|apply keeps_raise].
    eapply keeps_bind; [apply keeps_sleep|]. intros _ _.
    eapply keeps_bind; [apply keeps_create_session|]. intros _ _.
    apply keeps_ret. exact I.
Qed.

(** X3.  [request_with_retry] never hands a 401 answer to its caller, whatever
    the method, the bound and the service: a value it returns is [None] or
    an answer with another status. *)
Theorem request_with_retry_never_returns_401
    (method : string) (u : url) (max_retries : Z) (payload : option json)
    (w : world) (r : response) :
  fst (SessionManager.request_with_retry method u max_retries payload w) = Returns (Some r) ->
  status_code r <> 401.
Proof.
  unfold SessionManager.request_with_retry.
  generalize (S (Z.to_nat max_retries)) as fuel. generalize 0 as retries.
  intros retries fuel. revert retries w.
  assert (Hloop : forall fuel retries,
    keeps any_world (fun o => forall r, o = Some r -> status_code r <> 401)
      (SessionManager.retry_loop fuel method u payload max_retries retries)).
  { clear. induction fuel as [|fuel IH]; intros retries; cbn [SessionManager.retry_loop];
      [apply keeps_blocks|].
    destruct (retries <? max_retries); [|apply keeps_ret; discriminate].
    eapply keeps_bind; [apply attempt_never_yields_401|].
    intros [retries'|response] Hr; [apply IH|].
    apply keeps_ret. intros r [= <-]. exact Hr. }
  intros retries w Hrun. exact (proj2 (Hloop fuel retries w) _ Hrun r eq_refl).
Qed.

Lemma request_with_retry_never_returns_401_witness :
  status_code (Response 200 [] None) <> 401.
Proof.
  apply (request_with_retry_never_returns_401 "GET" (Address "https://api.worldquantbrain.com/alphas")
           3 None (started [answers 401; answers 200; answers 200]) (Response 200 [] None)).
  reflexivity.
Defined.

Section MoreAttempts.
Variables (method : string) (v : verb) (u : url) (payload : option json).
Variables (max_retries retries : Z).

(** An answer other than 401 ends the round with that answer. *)
Lemma attempt_answered w x rest r :
  supported method v -> settled w -> wire w = x :: rest ->
  reply_of x = Responds r -> status_code r <> 401 ->
  exists w', SessionManager.attempt method u payload max_retries retries w
             = (Returns (SessionManager.Return r), w') /\
    wire w' = rest /\ sessions_made w' = sessions_made w /\
    history w' = Sent v u payload :: history w.
Proof.
  intros Hm Hs Hw Hx Hr. unfold SessionManager.attempt.
  rewrite (send_supported _ _ _ _ Hm).
  destruct (get_session_settled w Hs) as (h & Hg).
  unfold try_catch at 1. rewrite (bind_returns _ _ _ _ _ Hg).
  unfold mbind at 1, M_bind at 1, send at 1. rewrite Hw, Hx.
  apply Z.eqb_neq in Hr. rewrite Hr.
  eexists. split; [reflexivity|]. auto.
Qed.

(** A handshake turned down raises and uses up its exchange. *)
Lemma create_session_turned_down w x rest :
  wire w = x :: rest -> rejected x ->
  exists w', SessionManager.create_session w
             = (Raises (PlainException "Authentication failed"), w') /\
    wire w' = rest /\ sessions_made w' = S (sessions_made w) /\
    history w' = Sent POST Authentication None :: history w.
Proof.
  intros Hw (r & Hx & H200 & H201).
  unfold SessionManager.create_session.
  unfold mbind, M_bind, ask, change, send, datetime_now, mret, M_ret, raise. simpl.
  rewrite Hw, Hx.
  apply Z.eqb_neq in H200, H201. rewrite H200, H201. simpl.
  eexists. split; [reflexivity|]. auto.
Qed.

(** A transport failure followed by a handshake turned down: the error of
    the handshake leaves the round. *)
Lemma attempt_breaks_then_rejected w x y rest :
  supported method v -> settled w -> wire w = x :: y :: rest ->
  breaks_down x -> rejected y -> retries + 1 < max_retries ->
  exists w', SessionManager.attempt method u payload max_retries retries w
             = (Raises (PlainException "Authentication failed"), w') /\
    wire w' = rest /\ sessions_made w' = S (sessions_made w) /\
    history w' = Sent POST Authentication None :: Slept 5 :: Sent v u payload :: history w.
Proof.
  intros Hm Hs Hw Hx Hy Hlt. unfold SessionManager.attempt.
  rewrite (send_supported _ _ _ _ Hm).
  destruct (get_session_settled w Hs) as (h & Hg).
  apply Z.ltb_lt in Hlt. rewrite Hlt.
  unfold try_catch at 1. rewrite (bind_returns _ _ _ _ _ Hg).
  unfold mbind at 1, M_bind at 1, send at 1. rewrite Hw, Hx. cbn [Exception].
  rewrite (bind_returns _ _ _ _ _ (sleep_5 _)).
  match goal with
  | |- context [(SessionManager.create_session ≫= _) ?w1] =>
      destruct (create_session_turned_down w1 y rest eq_refl Hy) as (w' & Hc & Hw' & Hn & Hh)
  end.
  rewrite (bind_raises _ _ _ _ _ Hc). exists w'. auto.
Qed.

End MoreAttempts.

(** X4.  With a valid session and a positive bound, a first answer other than
    401 is returned as it is: one request, no pause, no new session. *)
Theorem request_with_retry_first_answer
    (method : string) (v : verb) (u : url) (max_retries : Z) (payload : option json)
    (w : world) (x : exchange) (rest : list exchange) (r : response) :
  supported method v -> settled w -> 0 < max_retries ->
  wire w = x :: rest -> reply_of x = Responds r -> status_code r <> 401 ->
  exists w',
    SessionManager.request_with_retry method u max_retries payload w = (Returns (Some r), w') /\
    history w' = Sent v u payload :: history w /\
    wire w' = rest /\ sessions_made w' = sessions_made w.
Proof.
  intros Hm Hs Hpos Hw Hx Hr.
  unfold SessionManager.request_with_retry. cbn [SessionManager.retry_loop].
  apply Z.ltb_lt in Hpos. rewrite Hpos.
  destruct (attempt_answered method v u payload max_retries 0 w x rest r Hm Hs Hw Hx Hr)
    as (w' & E & Hw' & Hn & Hh).
  rewrite (bind_returns _ _ _ _ _ E). exists w'. auto.
Qed.

Lemma request_with_retry_first_answer_witness :
  exists w',
    SessionManager.request_with_retry "Post" Simulations 1 None (started [answers 503])
    = (Returns (Some (Response 503 [] None)), w') /\
    history w' = Sent POST Simulations None :: [] /\
    wire w' = [] /\ sessions_made w' = 1%nat.
Proof.
  apply (request_with_retry_first_answer "Post" POST Simulations 1 None
           (started [answers 503]) (answers 503) [] (Response 503 [] None)).
  - right. split; reflexivity.
  - exists 0%nat, 0. split; [reflexivity|]. split; reflexivity.
  - lia.
  - reflexivity.
  - reflexivity.
  - discriminate.
Defined.

(** X5.  With a bound of 0 or less the loop is never entered: nothing is sent
    and [None] is returned, for any method, supported or not. *)
Theorem request_with_retry_without_rounds
    (method : string) (u : url) (max_retries : Z) (payload : option json) (w : world) :
  max_retries <= 0 ->
  SessionManager.request_with_retry method u max_retries payload w = (Returns None, w).
Proof.
  intros Hle. unfold SessionManager.request_with_retry. cbn [SessionManager.retry_loop].
  assert ((0 <? max_retries) = false) as -> by (apply Z.ltb_ge; exact Hle).
  reflexivity.
Qed.

Lemma request_with_retry_without_rounds_witness :
  SessionManager.request_with_retry "DELETE" Simulations 0 None (started [])
  = (Returns None, started []).
Proof.
  apply (request_with_retry_without_rounds "DELETE" Simulations 0 None (started [])). lia.
Defined.

(** X6.  Two unauthorized answers and then another answer, with the bound 3:
    the answer is returned after exactly two new sessions and no pause. *)
Theorem request_with_retry_recovers_after_two_401
    (method : string) (v : verb) (u : url) (payload : option json) (w : world)
    (x1 y1 x2 y2 x3 : exchange) (rest : list exchange) (r : response) :
  supported method v -> settled w ->
  wire w = x1 :: y1 :: x2 :: y2 :: x3 :: rest ->
  unauthorized x1 -> unauthorized x2 -> handshake y1 -> handshake y2 ->
  reply_of x3 = Responds r -> status_code r <> 401 ->
  exists w',
    SessionManager.request_with_retry method u 3 payload w = (Returns (Some r), w') /\
    sessions_made w' = (2 + sessions_made w)%nat /\
    wire w' = rest /\
    history w' =
      (Sent v u payload ::
       Sent POST Authentication None :: Sent v u payload ::
       Sent POST Authentication None :: Sent v u payload :: history w).
Proof.
  intros Hm Hs Hw X1 X2 Y1 Y2 X3 Hr.
  next_round.
  destruct (attempt_unauthorized method v u payload 3 0 w x1 y1 _ Hm Hs Hw X1 Y1)
    as (w1 & E1 & Hs1 & Hw1 & Hn1 & Hh1).
  rewrite (bind_returns _ _ _ _ _ E1).
  next_round.
  destruct (attempt_unauthorized method v u payload 3 1 w1 x2 y2 _ Hm Hs1 Hw1 X2 Y2)
    as (w2 & E2 & Hs2 & Hw2 & Hn2 & Hh2).
  rewrite (bind_returns _ _ _ _ _ E2).
  next_round.
  destruct (attempt_answered method v u payload 3 2 w2 x3 rest r Hm Hs2 Hw2 X3 Hr)
    as (w3 & E3 & Hw3 & Hn3 & Hh3).
  rewrite (bind_returns _ _ _ _ _ E3).
  exists w3. split; [reflexivity|]. split; [lia|]. split; [assumption|].
  rewrite Hh3, Hh2, Hh1. reflexivity.
Qed.

Lemma request_with_retry_recovers_after_two_401_witness :
  exists w',
    SessionManager.request_with_retry "get" (Alpha (JStr "abc123")) 3 None
      (started [answers 401; answers 200; answers 401; answers 201; answers 200])
    = (Returns (Some (Response 200 [] None)), w') /\
    sessions_made w' = 3%nat /\ wire w' = [] /\
    history w' =
      [Sent GET (Alpha (JStr "abc123")) None;
       Sent POST Authentication None; Sent GET (Alpha (JStr "abc123")) None;
       Sent POST Authentication None; Sent GET (Alpha (JStr "abc123")) None].
Proof.
  apply (request_with_retry_recovers_after_two_401 "get" GET (Alpha (JStr "abc123")) None
           (started [answers 401; answers 200; answers 401; answers 201; answers 200])
           (answers 401) (answers 200) (answers 401) (answers 201) (answers 200) []
           (Response 200 [] None)).
  - left. split; reflexivity.
  - exists 0%nat, 0. split; [reflexivity|]. split; reflexivity.
  - reflexivity.
  - eexists. split; reflexivity.
  - eexists. split; reflexivity.
  - eexists. split; [reflexivity|]. left. reflexivity.
  - eexists. split; [reflexivity|]. right. reflexivity.
  - reflexivity.
  - discriminate.
Defined.

(** X7.  When the handshake that follows a transport failure is turned down, the
    caller gets the authentication error, not the transport error, after
    one pause and with the remaining rounds unused. *)
Theorem request_with_retry_failed_renewal
    (method : string) (v : verb) (u : url) (max_retries : Z) (payload : option json)
    (w : world) (x y : exchange) (rest : list exchange) :
  supported method v -> settled w -> 1 < max_retries ->
  wire w = x :: y :: rest -> breaks_down x -> rejected y ->
  exists w',
    SessionManager.request_with_retry method u max_retries payload w
    = (Raises (PlainException "Authentication failed"), w') /\
    wire w' = rest /\
    history w' = Sent POST Authentication None :: Slept 5 :: Sent v u payload :: history w.
Proof.
  intros Hm Hs Hmax Hw Hx Hy.
  unfold SessionManager.request_with_retry. cbn [SessionManager.retry_loop].
  assert ((0 <? max_retries) = true) as -> by (apply Z.ltb_lt; lia).
  destruct (attempt_breaks_then_rejected method v u payload max_retries 0 w x y rest
              Hm Hs Hw Hx Hy ltac:(lia)) as (w' & E & Hw' & Hn & Hh).
  rewrite (bind_raises _ _ _ _ _ E). exists w'. auto.
Qed.

Lemma request_with_retry_failed_renewal_witness :
  exists w',
    SessionManager.request_with_retry "GET" Simulations 3 None
      (started [breaks; answers 403; answers 200])
    = (Raises (PlainException "Authentication failed"), w') /\
    wire w' = [answers 200] /\
    history w' = Sent POST Authentication None :: Slept 5 :: Sent GET Simulations None :: [].
Proof.
  apply (request_with_retry_failed_renewal "GET" GET Simulations 3 None
           (started [breaks; answers 403; answers 200]) breaks (answers 403) [answers 200]).
  - left. split; reflexivity.
  - exists 0%nat, 0. split; [reflexivity|]. split; reflexivity.
  - lia.
  - reflexivity.
  - reflexivity.
  - eexists. split; [reflexivity|]. split; discriminate.
Defined.

(** ** Calls that leave a part of the world alone *)

Section Frames.
Variable R : world -> world -> Prop.
Hypothesis R_refl : forall w, R w w.
Hypothesis R_trans : forall w1 w2 w3, R w1 w2 -> R w2 w3 -> R w1 w3.

Lemma frame_ret {A} (Q : A -> Prop) a : Q a -> keeps R Q (mret a).
Proof. intros HQ w. split; [apply R_refl|]. simpl. intros b [= <-]. exact HQ. Qed.

Lemma frame_raise {A} (Q : A -> Prop) e : keeps R Q (raise e).
Proof. intros w. split; [apply R_refl|]. simpl. discriminate. Qed.

Lemma frame_blocks {A} (Q : A -> Prop) : keeps R Q blocks.
Proof. intros w. split; [apply R_refl|]. simpl. discriminate. Qed.

Lemma frame_lift {A} (r : result A) : keeps R (fun a => r = Ok a) (lift r).
Proof.
  destruct r as [a|e]; simpl; [apply frame_ret; reflexivity | apply frame_raise].
Qed.

Lemma frame_ask {A} (f : world -> A) : keeps R (fun _ => True) (ask f).
Proof. intros w. split; [apply R_refl|]. auto. Qed.

Lemma frame_change (f : world -> world) :
  (forall w, R w (f w)) -> keeps R (fun _ => True) (change f).
Proof. intros Hf w. split; [apply Hf|]. auto. Qed.

Lemma frame_bind {A B} (P : A -> Prop) (Q : B -> Prop) (m : M A) (f : A -> M B) :
  keeps R P m -> (forall a, P a -> keeps R Q (f a)) -> keeps R Q (m ≫= f).
Proof.
  intros Hm Hf w. destruct (Hm w) as [HR HP].
  unfold mbind, M_bind. destruct (m w) as [[a|e|] w1]; simpl in *.
  - destruct (Hf a (HP a eq_refl) w1) as [HR' HQ]. split; [eapply R_trans; eauto | exact HQ].
  - split; [exact HR | discriminate].
  - split; [exact HR | discriminate].
Qed.

Lemma frame_try {A} (Q : A -> Prop) catches (body : M A) handler :
  keeps R Q body -> (forall e, keeps R Q (handler e)) ->
  keeps R Q (try_catch catches body handler).
Proof.
  intros Hb Hh w. destruct (Hb w) as [HR HQ].
  unfold try_catch. destruct (body w) as [[a|e|] w1]; simpl in *.
  - split; assumption.
  - destruct (catches e).
    + destruct (Hh e w1) as [HR' HQ']. split; [eapply R_trans; eauto | exact HQ'].
    + split; [exact HR | discriminate].
  - split; [exact HR | discriminate].
Qed.

Lemma frame_weaken {A} (P Q : A -> Prop) m :
  keeps R P m -> (forall a, P a -> Q a) -> keeps R Q m.
Proof. intros Hm HPQ w. destruct (Hm w) as [HR HP]. split; auto. Qed.

End Frames.

Lemma same_disk_refl w : same_disk w w.
Proof. repeat split. Qed.

Lemma same_disk_trans w1 w2 w3 : same_disk w1 w2 -> same_disk w2 w3 -> same_disk w1 w3.
Proof.
  intros (A1 & B1 & C1 & D1) (A2 & B2 & C2 & D2). repeat split; congruence.
Qed.

Lemma same_network_refl w : same_network w w.
Proof. repeat split. Qed.

Lemma same_network_trans w1 w2 w3 :
  same_network w1 w2 -> same_network w2 w3 -> same_network w1 w3.
Proof.
  intros (A1 & B1 & C1 & D1 & E1 & F1) (A2 & B2 & C2 & D2 & E2 & F2).
  repeat split; congruence.
Qed.

(** The steps on the network leave the disk alone. *)
Ltac disk_rule :=
  first [ apply (frame_blocks same_disk same_disk_refl)
        | apply (frame_raise same_disk same_disk_refl)
        | apply (frame_lift same_disk same_disk_refl)
        | apply (frame_ask same_disk same_disk_refl) ].

Ltac disk_bind := eapply (frame_bind same_disk same_disk_trans).

Ltac disk_ret := apply (frame_ret same_disk same_disk_refl).

Ltac disk_done := unfold same_disk; simpl; repeat split; reflexivity.

Lemma sleep_same_disk seconds : keeps same_disk (fun _ => True) (sleep seconds).
Proof.
  intros w. split; [|auto]. unfold sleep.
  destruct (Prim2SF seconds) as [[]|[]| |[] ? ?]; simpl; try disk_done;
    (destruct (longest_sleep <? micros seconds); disk_done).
Qed.

Lemma send_same_disk v u payload : keeps same_disk (fun _ => True) (send v u payload).
Proof.
  intros w. split; [|auto]. unfold send.
  destruct (wire w) as [|x rest]; simpl; [disk_done|].
  destruct (reply_of x); disk_done.
Qed.

Lemma create_session_same_disk :
  keeps same_disk (fun _ => True) SessionManager.create_session.
Proof.
  unfold SessionManager.create_session.
  disk_bind; [disk_rule|]. intros n _.
  disk_bind; [apply frame_change; intros; disk_done|]. intros _ _.
  disk_bind; [apply send_same_disk|]. intros r _.
  destruct (_ || _); [|disk_rule].
  disk_bind; [disk_rule|]. intros t _.
  disk_bind; [apply frame_change; intros; disk_done|]. intros _ _.
  disk_ret; exact I.
Qed.

Lemma get_session_same_disk : keeps same_disk (fun _ => True) SessionManager.get_session.
Proof.
  unfold SessionManager.get_session.
  disk_bind; [disk_rule|]. intros [h|] _; [|apply create_session_same_disk].
  eapply (frame_bind same_disk same_disk_trans) with (P := fun _ => True).
  - unfold SessionManager._is_session_expiring.
    disk_bind; [disk_rule|]. intros [t|] _;
      [|disk_ret; exact I].
    disk_bind; [disk_rule|]. intros n _.
    disk_ret; exact I.
  - intros [] _; [apply create_session_same_disk|].
    disk_ret; exact I.
Qed.

Lemma post_same_disk u payload :
  keeps same_disk (fun _ => True) (SessionManager.post u payload).
Proof.
  unfold SessionManager.post.
  disk_bind; [apply get_session_same_disk|]. intros _ _. apply send_same_disk.
Qed.

Lemma get_same_disk u : keeps same_disk (fun _ => True) (SessionManager.get u).
Proof.
  unfold SessionManager.get.
  disk_bind; [apply get_session_same_disk|]. intros _ _. apply send_same_disk.
Qed.

(** A [try] whose handler returns lets no exception out. *)
Lemma try_catch_all_never_raises {A} (body : M A) (a : A) w e :
  fst (try_catch Exception body (fun _ => mret a) w) <> Raises e.
Proof.
  unfold try_catch. destruct (body w) as [[b|e'|] w1]; simpl; discriminate.
Qed.

(** ** check_alpha_qualification *)

Section EvaluatorMore.
Context `{FloatOfStr}.
Import BrainBatchAlpha.

Lemma judge_check_true b c :
  judge_check b c = Ok true ->
  b = true /\ exists d, c = JObj d /\ fails_or_pends c = false.
Proof.
  unfold judge_check. destruct c as [| | | | | |d]; simpl; try discriminate.
  destruct (dict_get "result" d) as [r|]; simpl.
  - destruct (py_eq_str r "PASS") eqn:EP.
    + destruct r; try discriminate. simpl in EP. apply String.eqb_eq in EP. subst.
      intros [= ->]. split; [reflexivity|]. eauto.
    + destruct (py_eq_str r "FAIL"); [discriminate|].
      destruct (py_eq_str r "PENDING"); [discriminate|].
      intros [= ->]. split; [reflexivity|]. eauto.
  - intros [= ->]. split; [reflexivity|]. eauto.
Qed.

Lemma judge_checks_true b cs :
  judge_checks b cs = Ok true ->
  b = true /\ Forall (fun c => exists d, c = JObj d /\ fails_or_pends c = false) cs.
Proof.
  revert b. induction cs as [|c cs IH]; intros b; simpl.
  - intros [= ->]. split; [reflexivity | constructor].
  - destruct (judge_check b c) as [b'|e] eqn:E; simpl; [|discriminate].
    intros Hrest. destruct (IH _ Hrest) as [-> Hcs].
    destruct (judge_check_true _ _ E) as [-> Hc]. split; [reflexivity|].
    constructor; assumption.
Qed.

Lemma judge_metrics_true s f t i v l :
  judge_metrics s f t i v l = true ->
  numeric_tests_pass s f t i = true /\ (v <? l)%float = false.
Proof.
  unfold judge_metrics, numeric_tests_pass.
  destruct (s <? 1.5)%float, (f <? 1)%float, (t <? 0.1)%float, (0.9 <? t)%float,
    (i <? 0.02)%float, (v <? l)%float; simpl; try discriminate. auto.
Qed.

(** X8.  A positive verdict is earned on every count: the metrics section is a
    dictionary with entries, its four numbers (0 when missing) pass their
    tests, the sub-universe value taken from the first check named
    LOW_SUB_UNIVERSE_SHARPE (0 and 0 without one) is not below its limit,
    and every check is a dictionary whose result is neither FAIL nor
    PENDING. *)
Theorem qualified_means_every_test_passed (alpha_data : json) :
  check_alpha_qualification alpha_data = Ok true ->
  exists m cs sharpe fitness turnover margin sub value limit,
    metrics_of alpha_data m /\ m <> [] /\
    number_or_zero m "sharpe" sharpe /\ number_or_zero m "fitness" fitness /\
    number_or_zero m "turnover" turnover /\ number_or_zero m "margin" margin /\
    numeric_tests_pass sharpe fitness turnover margin = true /\
    py_iter (default (JArr []) (dict_get "checks" m)) = Ok cs /\
    sub_universe_check_of cs = Ok (JObj sub) /\
    number_or_zero sub "value" value /\ number_or_zero sub "limit" limit /\
    (value <? limit)%float = false /\
    Forall (fun c => exists d, c = JObj d /\ fails_or_pends c = false) cs.
Proof.
  unfold check_alpha_qualification, check_alpha_qualification_try.
  destruct alpha_data as [| | | | | |top]; simpl; try discriminate.
  destruct (dict_get "is" top) as [is_data|] eqn:His; simpl; [|discriminate].
  destruct is_data as [|b|z|f0|s0|l0|m]; simpl;
    try solve [repeat match goal with
                      | |- context [if ?c then _ else _] => destruct c
                      end; simpl; discriminate].
  destruct m as [|kv m']; [discriminate|]. set (m := kv :: m') in *. cbn [negb].
  destruct (py_float (default (JInt 0) (dict_get "sharpe" m))) as [s|] eqn:Es;
    cbn [mbind result_bind try_except]; [|discriminate].
  destruct (py_float (default (JInt 0) (dict_get "fitness" m))) as [f|] eqn:Ef;
    cbn [mbind result_bind try_except]; [|discriminate].
  destruct (py_float (default (JInt 0) (dict_get "turnover" m))) as [t|] eqn:Et;
    cbn [mbind result_bind try_except]; [|discriminate].
  destruct (py_float (default (JInt 0) (dict_get "margin" m))) as [i|] eqn:Ei;
    cbn [mbind result_bind try_except]; [|discriminate].
  destruct (py_iter (default (JArr []) (dict_get "checks" m))) as [cs|] eqn:Ec;
    cbn [mbind result_bind try_except]; [|discriminate].
  destruct (sub_universe_check_of cs) as [sub|] eqn:Esub;
    cbn [mbind result_bind try_except]; [|discriminate].
  destruct sub as [| | | | | |sub]; cbn [py_get mbind result_bind try_except];
    try discriminate.
  destruct (py_float (default (JInt 0) (dict_get "value" sub))) as [v|] eqn:Ev;
    cbn [mbind result_bind try_except]; [|discriminate].
  destruct (py_float (default (JInt 0) (dict_get "limit" sub))) as [l|] eqn:El;
    cbn [mbind result_bind try_except]; [|discriminate].
  destruct (judge_checks (judge_metrics s f t i v l) cs) as [verdict|] eqn:Ej;
    cbn [mbind result_bind try_except]; [|discriminate].
  intros [= ->].
  destruct (judge_checks_true _ _ Ej) as [Hm Hcs].
  destruct (judge_metrics_true _ _ _ _ _ _ Hm) as [Hnum Hsub].
  exists m, cs, s, f, t, i, sub, v, l.
  split; [exists top; auto|]. split; [discriminate|].
  unfold number_or_zero. repeat (split; [assumption|]). assumption.
Qed.

Lemma sub_universe_check_of_first pre d post :
  Forall other_named_check pre ->
  dict_get "name" d = Some (JStr "LOW_SUB_UNIVERSE_SHARPE") ->
  sub_universe_check_of (pre ++ JObj d :: post) = Ok (JObj d).
Proof.
  intros Hpre Hd.
  induction Hpre as [|c pre (d' & n & -> & Hn & Hne) _ IH]; simpl.
  - rewrite Hd. reflexivity.
  - rewrite Hn. simpl.
    destruct (py_eq_str n "LOW_SUB_UNIVERSE_SHARPE") eqn:E; [|exact IH].
    destruct n; try discriminate. simpl in E. apply String.eqb_eq in E.
    subst. contradiction.
Qed.

Lemma sub_universe_check_of_unnamed pre c post :
  Forall other_named_check pre ->
  (forall d n, c = JObj d -> dict_get "name" d = Some n -> False) ->
  exists e, sub_universe_check_of (pre ++ c :: post) = Err e.
Proof.
  intros Hpre Hc.
  induction Hpre as [|c' pre (d' & n & -> & Hn & Hne) _ IH]; simpl.
  - destruct c as [| | | | | |d]; simpl; eauto.
    destruct (dict_get "name" d) as [n|] eqn:En; simpl; [|eauto].
    destruct (Hc d n eq_refl En).
  - rewrite Hn. simpl.
    destruct (py_eq_str n "LOW_SUB_UNIVERSE_SHARPE") eqn:E; [|exact IH].
    destruct n; try discriminate. simpl in E. apply String.eqb_eq in E.
    subst. contradiction.
Qed.

Lemma judge_metrics_below_limit s f t i v l :
  (v <? l)%float = true -> judge_metrics s f t i v l = false.
Proof.
  intros Hvl. unfold judge_metrics. rewrite Hvl.
  repeat match goal with
         | |- context [if ?b then _ else _] => destruct b
         end; reflexivity.
Qed.

(** X9.  The sub-universe test reads the first check named
    LOW_SUB_UNIVERSE_SHARPE: when its value is below its limit the verdict
    is negative, whatever result that check reports and whatever the other
    numbers and checks are. *)
Theorem sub_universe_below_limit_disqualifies
    (alpha_data : json) (m : list (string * json)) (pre post : list json)
    (d : list (string * json)) (value limit : float) :
  metrics_of alpha_data m ->
  dict_get "checks" m = Some (JArr (pre ++ JObj d :: post)) ->
  Forall other_named_check pre ->
  dict_get "name" d = Some (JStr "LOW_SUB_UNIVERSE_SHARPE") ->
  number_or_zero d "value" value -> number_or_zero d "limit" limit ->
  (value <? limit)%float = true ->
  check_alpha_qualification alpha_data = Ok false.
Proof.
  intros (top & -> & His) Hcs Hpre Hd Hv Hl Hvl.
  unfold check_alpha_qualification, check_alpha_qualification_try.
  simpl. rewrite His. simpl. rewrite Hcs. simpl.
  destruct m as [|kv m']; [reflexivity|]. cbn [negb].
  rewrite (sub_universe_check_of_first _ _ _ Hpre Hd).
  unfold number_or_zero in Hv, Hl. simpl. rewrite Hv, Hl.
  repeat match goal with
         | |- try_except (mbind _ ?x) _ = _ =>
             destruct x; cbn [mbind result_bind]; [|reflexivity]
         end.
  rewrite (judge_metrics_below_limit _ _ _ _ _ _ Hvl).
  match goal with
  | |- try_except ?j _ = _ => destruct j as [r|e] eqn:E; [|reflexivity]
  end.
  simpl. f_equal. eapply judge_checks_stays_false; eauto.
Qed.

(** X10.  The search for the sub-universe check reads [check['name']] of every
    item up to its first hit: an item there that is not a dictionary with a
    name makes the verdict negative, even when every number and every named
    check passes. *)
Theorem unnamed_check_before_sub_universe_disqualifies
    (alpha_data : json) (m : list (string * json)) (pre post : list json) (c : json) :
  metrics_of alpha_data m ->
  dict_get "checks" m = Some (JArr (pre ++ c :: post)) ->
  Forall other_named_check pre ->
  (forall d n, c = JObj d -> dict_get "name" d = Some n -> False) ->
  check_alpha_qualification alpha_data = Ok false.
Proof.
  intros (top & -> & His) Hcs Hpre Hc.
  unfold check_alpha_qualification, check_alpha_qualification_try.
  simpl. rewrite His. simpl. rewrite Hcs. simpl.
  destruct m as [|kv m']; [reflexivity|]. cbn [negb].
  destruct (sub_universe_check_of_unnamed pre c post Hpre Hc) as (e & He). rewrite He.
  repeat match goal with
         | |- try_except (mbind _ ?x) _ = _ =>
             destruct x; cbn [mbind result_bind]; [|reflexivity]
         end.
  reflexivity.
Qed.

End EvaluatorMore.

Lemma qualified_means_every_test_passed_witness :
  exists m cs sharpe fitness turnover margin sub value limit,
    metrics_of scenario_report m /\ m <> [] /\
    number_or_zero (H := decimal_float) m "sharpe" sharpe /\
    number_or_zero (H := decimal_float) m "fitness" fitness /\
    number_or_zero (H := decimal_float) m "turnover" turnover /\
    number_or_zero (H := decimal_float) m "margin" margin /\
    numeric_tests_pass sharpe fitness turnover margin = true /\
    py_iter (default (JArr []) (dict_get "checks" m)) = Ok cs /\
    BrainBatchAlpha.sub_universe_check_of cs = Ok (JObj sub) /\
    number_or_zero (H := decimal_float) sub "value" value /\
    number_or_zero (H := decimal_float) sub "limit" limit /\
    (value <? limit)%float = false /\
    Forall (fun c => exists d, c = JObj d /\ fails_or_pends c = false) cs.
Proof.
  apply (qualified_means_every_test_passed (H := decimal_float) scenario_report).
  reflexivity.
Defined.

Lemma sub_universe_below_limit_disqualifies_witness :
  BrainBatchAlpha.check_alpha_qualification (H := decimal_float)
    (JObj [("is", JObj [("sharpe", JFloat 1.8); ("fitness", JFloat 1.2);
                        ("turnover", JFloat 0.5); ("margin", JFloat 0.03);
                        ("checks",
                         JArr [JObj [("name", JStr "LOW_SHARPE"); ("result", JStr "PASS")];
                               JObj [("name", JStr "LOW_SUB_UNIVERSE_SHARPE");
                                     ("result", JStr "PASS");
                                     ("value", JFloat 0.4); ("limit", JFloat 0.7)]])])])
  = Ok false.
Proof.
  eapply (sub_universe_below_limit_disqualifies (H := decimal_float) _ _
            [JObj [("name", JStr "LOW_SHARPE"); ("result", JStr "PASS")]] []
            [("name", JStr "LOW_SUB_UNIVERSE_SHARPE"); ("result", JStr "PASS");
             ("value", JFloat 0.4); ("limit", JFloat 0.7)] 0.4%float 0.7%float).
  - eexists. split; reflexivity.
  - reflexivity.
  - constructor; [|constructor]. eexists _, _. split; [reflexivity|].
    split; [reflexivity | discriminate].
  - reflexivity.
  - reflexivity.
  - reflexivity.
  - reflexivity.
Defined.

Lemma unnamed_check_before_sub_universe_disqualifies_witness :
  BrainBatchAlpha.check_alpha_qualification (H := decimal_float)
    (JObj [("is", JObj [("sharpe", JFloat 1.8); ("fitness", JFloat 1.2);
                        ("turnover", JFloat 0.5); ("margin", JFloat 0.03);
                        ("checks", JArr [JObj [("result", JStr "PASS")];
                                         JObj scenario_check])])])
  = Ok false.
Proof.
  eapply (unnamed_check_before_sub_universe_disqualifies (H := decimal_float) _ _
            [] [JObj scenario_check] (JObj [("result", JStr "PASS")])).
  - eexists. split; reflexivity.
  - reflexivity.
  - constructor.
  - intros d n [= <-]. discriminate.
Defined.


(** ** _simulate_single_alpha *)

(** A negative float is not zero, and [sleep] refuses it. *)
Lemma negative_sleep_raises (z : float) (w : world) :
  (z <? 0)%float = true ->
  (z =? 0)%float = false /\
  sleep z w = (Raises (ValueError "sleep length must be non-negative"), w).
Proof.
  rewrite FloatAxioms.ltb_spec, FloatAxioms.eqb_spec. unfold sleep, SFltb, SFeqb.
  change (Prim2SF 0) with (S754_zero false).
  destruct (Prim2SF z) as [[]|[]| |[] ? ?]; simpl; try discriminate; auto.
Qed.

Lemma bind_ret {A B} (a : A) (f : A -> M B) w : (mret a ≫= f) w = f a w.
Proof. reflexivity. Qed.

Lemma bind_ask {A B} (g : world -> A) (f : A -> M B) w : (ask g ≫= f) w = f (g w) w.
Proof. reflexivity. Qed.

Lemma bind_sleep_3 {B} (f : unit -> M B) w : (sleep 3 ≫= f) w = f tt (after_sleep 3 w).
Proof. reflexivity. Qed.

Section JobRunner.
Context `{FloatOfStr}.
Import BrainBatchAlpha.

Lemma simulation_done_same_disk alpha resp :
  keeps same_disk (fun _ => True) (simulation_done alpha resp).
Proof.
  unfold simulation_done.
  disk_bind; [disk_rule|]. intros alpha_id _.
  disk_bind; [apply sleep_same_disk|]. intros _ _.
  disk_bind; [apply get_same_disk|]. intros alpha_detail _.
  disk_bind; [disk_rule|]. intros alpha_data _.
  disk_bind; [disk_rule|]. intros has_is _.
  destruct (negb has_is); [disk_ret; exact I|].
  disk_bind; [disk_rule|]. intros is_qualified _.
  disk_bind; [disk_rule|]. intros expression _.
  disk_bind; [disk_rule|]. intros metrics _.
  disk_bind; [disk_rule|]. intros timestamp _.
  disk_ret. exact I.
Qed.

Lemma poll_simulation_same_disk fuel alpha target :
  keeps same_disk (fun _ => True) (poll_simulation fuel alpha target).
Proof.
  induction fuel as [|fuel IH]; cbn [poll_simulation]; [disk_rule|].
  disk_bind; [apply get_same_disk|]. intros resp _.
  disk_bind; [disk_rule|]. intros seconds _.
  destruct (seconds =? 0)%float; [apply simulation_done_same_disk|].
  disk_bind; [apply sleep_same_disk|]. intros _ _. exact IH.
Qed.

Lemma _simulate_single_alpha_same_disk alpha alpha_index position :
  keeps same_disk (fun _ => True) (_simulate_single_alpha alpha alpha_index position).
Proof.
  unfold _simulate_single_alpha.
  apply (frame_try same_disk same_disk_trans); [|intros e; disk_ret; exact I].
  disk_bind; [disk_rule|]. intros _ _.
  disk_bind; [apply post_same_disk|]. intros sim_resp _.
  destruct (negb _); [disk_ret; exact I|].
  apply (frame_try same_disk same_disk_trans); [|intros e; disk_ret; exact I].
  disk_bind; [disk_rule|]. intros target _.
  disk_bind; [disk_rule|]. intros _ _.
  intros w. apply poll_simulation_same_disk.
Qed.

Lemma _simulate_single_alpha_never_raises alpha alpha_index position w e :
  fst (_simulate_single_alpha alpha alpha_index position w) <> Raises e.
Proof. apply try_catch_all_never_raises. Qed.


(** X12.  A submission the service does not accept with 201, or accepts without
    a Location header, ends the job with [None] right after the POST: no
    poll is sent and nothing is retried. *)
Theorem job_runner_gives_up_without_poll_address
    (a : list (string * json)) (alpha_index position : Z)
    (w w1 : world) (r : response) :
  SessionManager.post Simulations (Some (JObj a)) w = (Returns r, w1) ->
  status_code r <> 201 \/ header_get "Location" (headers r) = None ->
  _simulate_single_alpha (JObj a) alpha_index position w = (Returns None, w1).
Proof.
  intros Hpost Hr. unfold _simulate_single_alpha.
  unfold try_catch at 1. cbn [py_get lift].
  rewrite bind_ret.
  rewrite (bind_returns _ _ _ _ _ Hpost).
  destruct (status_code r =? 201) eqn:E; cbn [negb]; [|reflexivity].
  destruct Hr as [Hr | Hr]; [apply Z.eqb_eq in E; contradiction|].
  rewrite Hr. reflexivity.
Qed.

(** X13.  The result of a finished job: after the 201 with its poll address, the
    poll answer whose Retry-After is 0 gives the alpha identifier, and after
    the pause of 3 seconds the detail of that alpha gives the rest: the
    verdict is the evaluator's on that detail, the metrics are its [is]
    section, the expression is the candidate's [regular] entry. *)
Theorem job_runner_result
    (a top : list (string * json)) (alpha_index position : Z)
    (w w1 w2 w3 : world) (r1 r2 r3 : response)
    (target : string) (seconds : float) (body id metrics_found : json) (verdict : bool) :
  SessionManager.post Simulations (Some (JObj a)) w = (Returns r1, w1) ->
  status_code r1 = 201 ->
  header_get "Location" (headers r1) = Some target ->
  SessionManager.get (Location target) w1 = (Returns r2, w2) ->
  retry_after r2 = Ok seconds -> (seconds =? 0)%float = true ->
  json_body r2 = Some body -> py_getitem body "alpha" = Ok id ->
  SessionManager.get (Alpha id) (after_sleep 3 w2) = (Returns r3, w3) ->
  json_body r3 = Some (JObj top) -> dict_get "is" top = Some metrics_found ->
  check_alpha_qualification (JObj top) = Ok verdict ->
  _simulate_single_alpha (JObj a) alpha_index position w
  = (Returns (Some (SimResult (default JNull (dict_get "regular" a)) id verdict
                              metrics_found (now w3))), w3).
Proof.
  intros Hpost H201 Hloc Hpoll Hretry Hzero Hbody Hid Hdetail Hdata His Hverdict.
  unfold _simulate_single_alpha.
  unfold try_catch at 1. cbn [py_get lift].
  rewrite bind_ret.
  rewrite (bind_returns _ _ _ _ _ Hpost), H201. cbn [Z.eqb Pos.eqb negb].
  unfold try_catch at 1. rewrite Hloc. cbn [lift].
  rewrite bind_ret. unfold datetime_now. rewrite bind_ask.
  unfold with_fuel. cbn [poll_simulation].
  rewrite (bind_returns _ _ _ _ _ Hpoll), Hretry. cbn [lift].
  rewrite bind_ret, Hzero.
  unfold simulation_done, json_of. rewrite Hbody. cbn [mbind result_bind]. rewrite Hid.
  cbn [lift].
  rewrite bind_ret, bind_sleep_3.
  rewrite (bind_returns _ _ _ _ _ Hdetail), Hdata. cbn [lift].
  rewrite bind_ret.
  cbn [py_contains_str]. rewrite His, Hverdict. cbn [py_get lift default].
  rewrite bool_decide_eq_true_2 by eauto.
  rewrite His. reflexivity.
Qed.

End JobRunner.

Lemma job_runner_gives_up_without_poll_address_witness :
  exists w1,
    BrainBatchAlpha._simulate_single_alpha (H := decimal_float) (JObj [("regular", JStr "rank(close)")]) 1 1
      (started [answers 429; answers 200])
    = (Returns None, w1) /\
    history w1 = [Sent POST Simulations (Some (JObj [("regular", JStr "rank(close)")]))] /\
    wire w1 = [answers 200].
Proof.
  eexists. split.
  - apply (job_runner_gives_up_without_poll_address (H := decimal_float)
             [("regular", JStr "rank(close)")] 1 1
             (started [answers 429; answers 200]) _ (Response 429 [] None)).
    + reflexivity.
    + left. discriminate.
  - split; reflexivity.
Defined.

Lemma job_runner_result_witness :
  exists w3,
    BrainBatchAlpha._simulate_single_alpha (H := decimal_float) candidate 1 1
      (started simulation_wire)
    = (Returns (Some (SimResult (JStr "rank(close)") (JStr "abc123") true
                                (JObj scenario_metrics) 3003000)), w3).
Proof.
  set (w := started simulation_wire).
  set (w1 := snd (SessionManager.post Simulations (Some candidate) w)).
  set (w2 := snd (SessionManager.get
                    (Location "https://api.worldquantbrain.com/simulations/1") w1)).
  set (w3 := snd (SessionManager.get (Alpha (JStr "abc123")) (after_sleep 3 w2))).
  exists w3.
  apply (job_runner_result (H := decimal_float)
           [("type", JStr "REGULAR"); ("regular", JStr "rank(close)")]
           [("id", JStr "abc123"); ("is", JObj scenario_metrics)] 1 1
           w w1 w2 w3
           (Response 201 [("Location", "https://api.worldquantbrain.com/simulations/1")] None)
           (Response 200 [] (Some (JObj [("alpha", JStr "abc123")])))
           (Response 200 [] (Some scenario_report))
           "https://api.worldquantbrain.com/simulations/1" 0%float
           (JObj [("alpha", JStr "abc123")]) (JStr "abc123") (JObj scenario_metrics) true);
    reflexivity.
Defined.

(** ** submit_alpha and submit_multiple_alphas *)

#[local] Instance no_new_submit_post_lasting id :
  Lasting (no_new_submit_post id) (is_submit_post id).
Proof.
  split; try reflexivity; unfold no_new_submit_post, submit_posts; intros; simpl; try congruence.
  rewrite H. reflexivity.
Qed.

Lemma adds_at_most_keeps {A} id (Q : A -> Prop) (m : M A) :
  keeps (no_new_submit_post id) Q m -> adds_at_most id 0 m.
Proof. intros Hm w. destruct (Hm w) as [HR _]. unfold no_new_submit_post in HR. lia. Qed.

Lemma adds_at_most_bind {A B} id j k (m : M A) (f : A -> M B) :
  adds_at_most id j m -> (forall a, adds_at_most id k (f a)) ->
  adds_at_most id (j + k) (m ≫= f).
Proof.
  intros Hm Hf w. specialize (Hm w). unfold mbind, M_bind.
  destruct (m w) as [[a|e|] w1]; simpl in *; [|lia|lia].
  specialize (Hf a w1). lia.
Qed.

Lemma adds_at_most_more {A} id j k (m : M A) :
  adds_at_most id j m -> (j <= k)%nat -> adds_at_most id k m.
Proof. intros Hm Hjk w. specialize (Hm w). lia. Qed.

Lemma post_adds_one id payload :
  adds_at_most id 1 (SessionManager.post (Submit id) payload).
Proof.
  unfold SessionManager.post. apply (adds_at_most_bind id 0 1).
  - eapply adds_at_most_keeps. apply (keeps_get_session (R := no_new_submit_post id)).
  - intros _ w. unfold send.
    destruct (wire w) as [|x rest]; [|destruct (reply_of x)];
      unfold submit_posts; simpl; destruct (String.eqb id id); simpl; lia.
Qed.

Section SubmissionMore.
Context `{FloatOfStr}.
Import BrainBatchAlpha.

Lemma confirm_submission_no_post id fuel :
  keeps (no_new_submit_post id) (fun _ => True) (confirm_submission fuel (Submit id)).
Proof.
  induction fuel as [|fuel IH]; cbn [confirm_submission]; [apply keeps_blocks|].
  eapply keeps_bind; [apply keeps_get; reflexivity|]. intros res _.
  eapply keeps_bind; [apply keeps_lift|]. intros retry _.
  destruct (retry =? 0)%float.
  - destruct (status_code res =? 200); apply keeps_ret; exact I.
  - eapply keeps_bind; [apply keeps_sleep|]. intros _ _. exact IH.
Qed.

Lemma submit_attempts_adds id attempts :
  adds_at_most id attempts (submit_attempts attempts (Submit id)).
Proof.
  induction attempts as [|attempts IH]; cbn [submit_attempts].
  - intros w. simpl. lia.
  - change (S attempts) with (1 + attempts)%nat.
    apply adds_at_most_bind; [apply post_adds_one|]. intros res.
    destruct (status_code res =? 201).
    + apply adds_at_most_more with (j := 0%nat); [|lia].
      intros w. unfold with_fuel.
      destruct (confirm_submission_no_post id (S (length (wire w))) w) as [HR _].
      unfold no_new_submit_post in HR. lia.
    + destruct (_ || _).
      * intros w. simpl. lia.
      * change attempts with (0 + attempts)%nat.
        apply adds_at_most_bind; [|intros _; exact IH].
        eapply adds_at_most_keeps. apply (keeps_sleep (R := no_new_submit_post id)).
Qed.

(** X14.  However the service answers, [submit_alpha] sends at most five POSTs
    to the submit address of the alpha. *)
Theorem submit_alpha_sends_at_most_five_posts (alpha_id : string) (w : world) :
  (submit_posts alpha_id (history (snd (submit_alpha alpha_id w)))
   <= submit_posts alpha_id (history w) + 5)%nat.
Proof. apply (submit_attempts_adds alpha_id 5). Qed.

(** X15.  While a submission is being confirmed, a poll answer with a negative
    Retry-After makes [sleep] refuse the pause: [submit_alpha] raises the
    [ValueError] to its caller instead of returning a verdict. *)
Theorem submit_alpha_raises_on_negative_retry_after
    (alpha_id : string) (w w1 w2 : world) (r1 r2 : response) (seconds : float) :
  SessionManager.post (Submit alpha_id) None w = (Returns r1, w1) ->
  status_code r1 = 201 ->
  SessionManager.get (Submit alpha_id) w1 = (Returns r2, w2) ->
  retry_after r2 = Ok seconds -> (seconds <? 0)%float = true ->
  submit_alpha alpha_id w
  = (Raises (ValueError "sleep length must be non-negative"), w2).
Proof.
  intros Hpost H201 Hget Hretry Hneg.
  destruct (negative_sleep_raises seconds w2 Hneg) as [Hnz Hsleep].
  unfold submit_alpha. cbn [submit_attempts].
  rewrite (bind_returns _ _ _ _ _ Hpost), H201. cbn [Z.eqb Pos.eqb].
  unfold with_fuel. cbn [confirm_submission].
  rewrite (bind_returns _ _ _ _ _ Hget), Hretry. cbn [lift].
  rewrite bind_ret, Hnz.
  rewrite (bind_raises _ _ _ _ _ Hsleep). reflexivity.
Qed.

(** X16.  The same answer during a simulation only costs the candidate: the job
    runner swallows the [ValueError] and returns [None]. *)
Theorem job_runner_drops_candidate_on_negative_retry_after
    (a : list (string * json)) (alpha_index position : Z)
    (w w1 w2 : world) (r1 r2 : response) (target : string) (seconds : float) :
  SessionManager.post Simulations (Some (JObj a)) w = (Returns r1, w1) ->
  status_code r1 = 201 ->
  header_get "Location" (headers r1) = Some target ->
  SessionManager.get (Location target) w1 = (Returns r2, w2) ->
  retry_after r2 = Ok seconds -> (seconds <? 0)%float = true ->
  _simulate_single_alpha (JObj a) alpha_index position w = (Returns None, w2).
Proof.
  intros Hpost H201 Hloc Hpoll Hretry Hneg.
  destruct (negative_sleep_raises seconds w2 Hneg) as [Hnz Hsleep].
  unfold _simulate_single_alpha.
  unfold try_catch at 1. cbn [py_get lift].
  rewrite bind_ret.
  rewrite (bind_returns _ _ _ _ _ Hpost), H201. cbn [Z.eqb Pos.eqb negb].
  unfold try_catch at 1. rewrite Hloc. cbn [lift].
  rewrite bind_ret. unfold datetime_now. rewrite bind_ask.
  unfold with_fuel. cbn [poll_simulation].
  rewrite (bind_returns _ _ _ _ _ Hpoll), Hretry. cbn [lift].
  rewrite bind_ret, Hnz.
  rewrite (bind_raises _ _ _ _ _ Hsleep). reflexivity.
Qed.

Lemma bind_returns_inv {A B} (m : M A) (f : A -> M B) w b :
  fst ((m ≫= f) w) = Returns b ->
  exists a w1, m w = (Returns a, w1) /\ fst (f a w1) = Returns b.
Proof.
  unfold mbind, M_bind. destruct (m w) as [[a|e|] w1]; simpl; try discriminate. eauto.
Qed.

Lemma submit_each_partitions ids last_id s0 f0 w s f :
  fst (submit_each ids last_id s0 f0 w) = Returns (s, f) ->
  (s ++ f)%list ≡ₚ (s0 ++ f0 ++ ids)%list.
Proof.
  revert s0 f0 w. induction ids as [|id ids IH]; intros s0 f0 w; cbn [submit_each].
  - simpl. intros [= <- <-]. rewrite app_nil_r. reflexivity.
  - intros Hrun.
    apply bind_returns_inv in Hrun as (ok & w1 & _ & Hrun).
    apply bind_returns_inv in Hrun as (u & w2 & _ & Hrun).
    apply IH in Hrun. rewrite Hrun. destruct ok.
    + rewrite <- !app_assoc. simpl.
      rewrite (Permutation_middle f0 ids id). reflexivity.
    + rewrite <- !app_assoc. reflexivity.
Qed.

(** X17.  [submit_multiple_alphas] loses no identifier and invents none: when it
    returns, the succeeded and the failed identifiers together are the
    identifiers it was given, each as often as it was given. *)
Theorem submit_multiple_alphas_partitions
    (alpha_ids successful failed : list string) (w : world) :
  fst (submit_multiple_alphas alpha_ids w) = Returns (successful, failed) ->
  (successful ++ failed)%list ≡ₚ alpha_ids.
Proof.
  intros Hrun. unfold submit_multiple_alphas in Hrun.
  apply submit_each_partitions in Hrun. exact Hrun.
Qed.

End SubmissionMore.

Lemma submit_alpha_raises_on_negative_retry_after_witness :
  exists w2,
    BrainBatchAlpha.submit_alpha (H := decimal_float) "abc123"
      (started [answers 201; answers_with 200 [("Retry-After", "-1")] None])
    = (Raises (ValueError "sleep length must be non-negative"), w2).
Proof.
  eexists.
  eapply (submit_alpha_raises_on_negative_retry_after (H := decimal_float) "abc123"
           (started [answers 201; answers_with 200 [("Retry-After", "-1")] None])
           _ _ (Response 201 [] None) (Response 200 [("Retry-After", "-1")] None)
           (-1)%float); reflexivity.
Defined.

Lemma job_runner_drops_candidate_on_negative_retry_after_witness :
  exists w2,
    BrainBatchAlpha._simulate_single_alpha (H := decimal_float) candidate 1 1
      (started [answers_with 201 [("Location", "https://api.worldquantbrain.com/simulations/1")] None;
                answers_with 200 [("Retry-After", "-1")] None])
    = (Returns None, w2).
Proof.
  eexists.
  eapply (job_runner_drops_candidate_on_negative_retry_after (H := decimal_float)
           [("type", JStr "REGULAR"); ("regular", JStr "rank(close)")] 1 1
           (started [answers_with 201 [("Location", "https://api.worldquantbrain.com/simulations/1")] None;
                     answers_with 200 [("Retry-After", "-1")] None])
           _ _
           (Response 201 [("Location", "https://api.worldquantbrain.com/simulations/1")] None)
           (Response 200 [("Retry-After", "-1")] None)
           "https://api.worldquantbrain.com/simulations/1" (-1)%float); reflexivity.
Defined.

Lemma submit_multiple_alphas_partitions_witness :
  (["abc123"] ++ [])%list ≡ₚ ["abc123"].
Proof.
  apply (submit_multiple_alphas_partitions (H := decimal_float)
           ["abc123"] ["abc123"] [] (started (tail submission_wire))).
  reflexivity.
Defined.

(** ** _save_alpha_id and the pool *)

Lemma append_cons (c : ascii) (s1 s2 : string) :
  String c s1 +:+ s2 = String c (s1 +:+ s2).
Proof. reflexivity. Qed.

Lemma append_assoc (s1 s2 s3 : string) : (s1 +:+ s2) +:+ s3 = s1 +:+ (s2 +:+ s3).
Proof.
  induction s1 as [|c s1 IH]; [reflexivity|]. rewrite !append_cons, IH. reflexivity.
Qed.

Lemma append_nil_r (s : string) : s +:+ EmptyString = s.
Proof.
  induction s as [|c s IH]; [reflexivity|]. rewrite append_cons, IH. reflexivity.
Qed.

Section Persisting.
Context `{FloatOfStr} `{StrOf}.
Import BrainBatchAlpha.

(** On a sound disk a save appends the row, behind a header if the table
    is new, and the identifier line, and touches nothing else. *)
Lemma _save_alpha_id_sound_disk id r w :
  disk_faults w = [] ->
  exists w',
    _save_alpha_id id r w = (Returns tt, w') /\
    disk_faults w' = [] /\ same_network w w' /\
    tables w' !! csv_path = table_after (tables w !! csv_path) (file_there csv_path w) [r] /\
    texts w' !! ids_path
    = Some (default EmptyString (texts w !! ids_path) +:+ py_str id +:+ String LF EmptyString) /\
    texts w' !! csv_path = texts w !! csv_path.
Proof.
  intros Hf.
  unfold _save_alpha_id, try_catch, makedirs, to_csv, append_text, isfile, disk_op,
    mbind, M_bind, change, ask, mret, M_ret.
  simpl. rewrite Hf. simpl. rewrite Hf. simpl. rewrite Hf. simpl.
  eexists. split; [reflexivity|]. simpl.
  split; [exact Hf|]. split; [repeat split|].
  split; [rewrite lookup_insert_eq; unfold table_after, file_there;
          destruct (_ || _); reflexivity|].
  split; [rewrite lookup_insert_eq; reflexivity|].
  rewrite lookup_insert_ne by discriminate. reflexivity.
Qed.

Lemma table_after_step old there r rest :
  table_after (table_after old there [r]) true rest = table_after old there (r :: rest).
Proof.
  destruct rest as [|r' rest]; [reflexivity|].
  simpl. rewrite <- !app_assoc. reflexivity.
Qed.

Lemma id_text_after_step old (id : json) r rest :
  id = alpha_id r ->
  id_text_after (Some (default EmptyString old +:+ py_str id +:+ String LF EmptyString)) rest
  = id_text_after old (r :: rest).
Proof.
  intros ->. destruct rest as [|r' rest]; simpl.
  - rewrite append_nil_r. reflexivity.
  - rewrite !append_assoc. reflexivity.
Qed.

Lemma file_there_after_save w w' r :
  tables w' !! csv_path = table_after (tables w !! csv_path) (file_there csv_path w) [r] ->
  file_there csv_path w' = true.
Proof.
  intros Ht. unfold file_there. rewrite Ht. simpl. apply orb_true_r.
Qed.

Lemma collect_saved results0 r w1 w2 :
  passed_all_checks r = true ->
  _save_alpha_id (alpha_id r) r w1 = (Returns tt, w2) ->
  collect results0 (Some r) w1 = (Returns (results0 ++ [r])%list, w2).
Proof.
  intros Hp Hsave. unfold collect. rewrite Hp.
  unfold try_catch, mbind, M_bind. rewrite Hsave. reflexivity.
Qed.

Lemma collect_dropped results0 result w1 :
  match result with Some r => passed_all_checks r = false | None => True end ->
  collect results0 result w1 = (Returns results0, w1).
Proof.
  intros Hp. unfold collect. destruct result as [r|]; [rewrite Hp|]; reflexivity.
Qed.

(** What the pool leaves on a sound disk, for the results it adds to the
    list it was given. *)
Lemma run_pool_persists alpha_list alpha_index results0 w results :
  disk_faults w = [] ->
  fst (run_pool alpha_list alpha_index results0 w) = Returns results ->
  exists new,
    results = (results0 ++ new)%list /\
    tables (snd (run_pool alpha_list alpha_index results0 w)) !! csv_path
    = table_after (tables w !! csv_path) (file_there csv_path w) new /\
    texts (snd (run_pool alpha_list alpha_index results0 w)) !! ids_path
    = id_text_after (texts w !! ids_path) new.
Proof.
  revert alpha_index results0 w.
  induction alpha_list as [|alpha rest IH]; intros alpha_index results0 w Hf; cbn [run_pool].
  - simpl. intros [= <-]. exists []. rewrite app_nil_r. auto.
  - destruct (_simulate_single_alpha_same_disk alpha alpha_index 1 w)
      as [(Ht & Hb & _ & Hd) _].
    destruct (_simulate_single_alpha alpha alpha_index 1 w) as [[result| |] w1] eqn:E1;
      [|rewrite (bind_raises _ _ _ _ _ E1); discriminate
       |rewrite (bind_blocks _ _ _ _ E1); discriminate].
    rewrite (bind_returns _ _ _ _ _ E1).
    simpl in Ht, Hb, Hd.
    assert (Hthere : file_there csv_path w1 = file_there csv_path w)
      by (unfold file_there; rewrite Ht, Hb; reflexivity).
    rewrite <- Ht, <- Hb, <- Hthere. rewrite <- Hd in Hf. clear Ht Hb Hd Hthere.
    destruct result as [r|]; [destruct (passed_all_checks r) eqn:Hp|].
    + destruct (_save_alpha_id_sound_disk (alpha_id r) r w1 Hf)
        as (w2 & Hsave & Hf2 & _ & Htab & Htxt & _).
      rewrite (bind_returns _ _ _ _ _ (collect_saved results0 r w1 w2 Hp Hsave)).
      intros Hrun.
      destruct (IH _ _ _ Hf2 Hrun) as (new & -> & Htab' & Htxt').
      exists (r :: new). rewrite <- app_assoc. split; [reflexivity|].
      rewrite Htab', Htxt', Htab, Htxt, (file_there_after_save _ _ _ Htab).
      split; [apply table_after_step | apply id_text_after_step; reflexivity].
    + rewrite (bind_returns _ _ _ _ _ (collect_dropped results0 (Some r) w1 Hp)).
      intros Hrun. exact (IH _ _ _ Hf Hrun).
    + rewrite (bind_returns _ _ _ _ _ (collect_dropped results0 None w1 I)).
      intros Hrun. exact (IH _ _ _ Hf Hrun).
Qed.

(** X18.  On a sound disk the pool persists exactly what it returns, in the same
    order: one row in the table and one line in the identifier list for
    every returned result, and a single header in front of the rows when
    the table was not there before. *)
Theorem pool_persists_what_it_returns
    (alpha_list : list json) (w : world) (results : list sim_result) :
  disk_faults w = [] ->
  fst (simulate_alphas alpha_list w) = Returns results ->
  stored_rows (snd (simulate_alphas alpha_list w)) = (stored_rows w ++ results)%list /\
  stored_id_text (snd (simulate_alphas alpha_list w))
  = stored_id_text w +:+ id_lines results /\
  (no_file csv_path w -> results <> [] ->
   tables (snd (simulate_alphas alpha_list w)) !! csv_path
   = Some (CsvHeader :: map CsvRow results)).
Proof.
  intros Hf Hrun.
  assert (Hmain :
    tables (snd (simulate_alphas alpha_list w)) !! csv_path
    = table_after (tables w !! csv_path) (file_there csv_path w) results /\
    texts (snd (simulate_alphas alpha_list w)) !! ids_path
    = id_text_after (texts w !! ids_path) results).
  { unfold simulate_alphas in Hrun |- *. unfold try_catch in Hrun |- *.
    destruct alpha_list as [|alpha rest].
    - simpl in Hrun |- *. injection Hrun as <-. split; reflexivity.
    - destruct (run_pool (alpha :: rest) 1 [] w) as [[out| |] w'] eqn:E;
        simpl in Hrun; try discriminate.
      + injection Hrun as ->.
        pose proof (run_pool_persists (alpha :: rest) 1 [] w results Hf) as Hp.
        rewrite E in Hp. destruct (Hp eq_refl) as (new & Hnew & Htab & Htxt).
        simpl in Hnew. subst new. simpl. auto.
      + (* the pool cannot raise *)
        exfalso.
        assert (Hnever : forall l i acc w0 e, fst (run_pool l i acc w0) <> Raises e).
        { clear. induction l as [|a l IH]; intros i acc w0 e; cbn [run_pool];
            [discriminate|].
          unfold mbind at 1, M_bind at 1.
          pose proof (_simulate_single_alpha_never_raises a i 1 w0) as Hj.
          destruct (_simulate_single_alpha a i 1 w0) as [[o|e'|] w1]; simpl;
            [|destruct (Hj e' eq_refl)|discriminate].
          unfold mbind at 1, M_bind at 1, collect.
          destruct o as [r|]; [destruct (passed_all_checks r)|]; try apply IH.
          unfold mbind at 1, M_bind at 1.
          pose proof (try_catch_all_never_raises (_save_alpha_id (alpha_id r) r) tt w1) as Hs.
          destruct (try_catch Exception (_save_alpha_id (alpha_id r) r) (fun _ => mret tt) w1)
            as [[u|e'|] w2]; simpl; [apply IH|destruct (Hs e' eq_refl)|discriminate]. }
        apply (Hnever (alpha :: rest) 1 [] w e). rewrite E. reflexivity. }
  destruct Hmain as [Htab Htxt].
  unfold stored_rows, stored_id_text. rewrite Htab, Htxt.
  assert (Hrows : forall l, table_rows (map CsvRow l) = l)
    by (induction l as [|x l IHl]; simpl; congruence).
  assert (Happ : forall l1 l2, table_rows (l1 ++ l2) = (table_rows l1 ++ table_rows l2)%list).
  { induction l1 as [|[|x] l1 IHl]; intros l2; simpl; rewrite ?IHl; reflexivity. }
  split; [|split].
  - destruct results as [|r rs]; simpl; [rewrite app_nil_r; reflexivity|].
    rewrite !Happ. destruct (file_there csv_path w); simpl; rewrite (Hrows rs); reflexivity.
  - destruct results as [|r rs]; simpl; [|reflexivity].
    symmetry. apply append_nil_r.
  - intros [Hnt Hnb] Hne. unfold file_there. rewrite Hnt, Hnb. simpl.
    destruct results; [contradiction|]. reflexivity.
Qed.

(** X19.  A save that fails is silent and may be partial: it returns as if
    nothing had happened.  If the directory cannot be made nothing is
    written; if the identifier list cannot be appended to, the row stays in
    the table without its line in the list. *)
Theorem failed_save_is_silent_and_partial
    (id : json) (r : sim_result) (w : world) (rest : list bool) :
  (disk_faults w = true :: rest ->
   _save_alpha_id id r w = (Returns tt, set_disk_faults rest w)) /\
  (disk_faults w = false :: false :: true :: rest ->
   exists w',
     _save_alpha_id id r w = (Returns tt, w') /\
     tables w' !! csv_path
     = table_after (tables w !! csv_path) (file_there csv_path w) [r] /\
     texts w' = texts w /\ disk_faults w' = rest).
Proof.
  split; intros Hf.
  - unfold _save_alpha_id, try_catch, makedirs, to_csv, append_text, isfile, disk_op,
      mbind, M_bind, change, ask, mret, M_ret.
    simpl. rewrite Hf. reflexivity.
  - unfold _save_alpha_id, try_catch, makedirs, to_csv, append_text, isfile, disk_op,
      mbind, M_bind, change, ask, mret, M_ret.
    simpl. rewrite Hf. simpl.
    eexists. split; [reflexivity|]. simpl.
    split; [rewrite lookup_insert_eq; unfold table_after, file_there;
            destruct (_ || _); reflexivity|].
    split; reflexivity.
Qed.

Lemma _save_alpha_id_same_network id r :
  keeps same_network (fun u => u = tt) (_save_alpha_id id r).
Proof.
  assert (Hop : keeps same_network (fun _ => True) disk_op).
  { intros w. split; [|auto]. unfold disk_op.
    destruct (disk_faults w) as [|[] l]; repeat split. }
  unfold _save_alpha_id.
  apply (frame_try same_network same_network_trans);
    [|intros e; apply (frame_ret same_network same_network_refl); reflexivity].
  eapply (frame_bind same_network same_network_trans).
  { unfold makedirs. eapply (frame_bind same_network same_network_trans); [exact Hop|].
    intros _ _. apply frame_change. intros w. repeat split. }
  intros _ _.
  eapply (frame_bind same_network same_network_trans);
    [apply (frame_ask same_network same_network_refl)|]. intros file_exists _.
  eapply (frame_bind same_network same_network_trans).
  { unfold to_csv. eapply (frame_bind same_network same_network_trans); [exact Hop|].
    intros _ _. apply frame_change. intros w. repeat split. }
  intros _ _.
  unfold append_text. eapply (frame_bind same_network same_network_trans); [exact Hop|].
  intros _ _.
  eapply frame_weaken; [apply frame_change; intros w; repeat split|].
  intros []. reflexivity.
Qed.

(** X20.  [_save_alpha_id] always comes back with [None], whatever the disk
    does, and it never touches the network, the clock or the session. *)
Theorem save_always_returns_and_leaves_network_alone
    (id : json) (r : sim_result) (w : world) :
  fst (_save_alpha_id id r w) = Returns tt /\
  same_network w (snd (_save_alpha_id id r w)).
Proof.
  split; [|apply _save_alpha_id_same_network].
  unfold _save_alpha_id, try_catch, makedirs, to_csv, append_text, isfile, disk_op,
    mbind, M_bind, change, ask, mret, M_ret.
  destruct w as [t0 wr hs se cr n faults ds tx tb]. simpl.
  destruct faults as [|[] [|[] [|[] l]]]; reflexivity.
Qed.

End Persisting.

Lemma pool_persists_what_it_returns_witness :
  let run := BrainBatchAlpha.simulate_alphas (H := decimal_float) (H0 := str_of_scalars)
               [candidate] (started simulation_wire) in
  let row := SimResult (JStr "rank(close)") (JStr "abc123") true
                       (JObj scenario_metrics) 3003000 in
  stored_rows (snd run) = (stored_rows (started simulation_wire) ++ [row])%list /\
  stored_id_text (snd run)
  = stored_id_text (started simulation_wire) +:+ id_lines (H := str_of_scalars) [row] /\
  (no_file BrainBatchAlpha.csv_path (started simulation_wire) -> [row] <> [] ->
   tables (snd run) !! BrainBatchAlpha.csv_path = Some (CsvHeader :: map CsvRow [row])).
Proof.
  apply (pool_persists_what_it_returns (H := decimal_float) (H0 := str_of_scalars)
           [candidate] (started simulation_wire)
           [SimResult (JStr "rank(close)") (JStr "abc123") true
                      (JObj scenario_metrics) 3003000]);
    reflexivity.
Defined.

Lemma failed_save_is_silent_and_partial_witness :
  BrainBatchAlpha._save_alpha_id (H0 := str_of_scalars) (JStr "abc123")
    (SimResult (JStr "rank(close)") (JStr "abc123") true (JObj scenario_metrics) 0)
    (set_disk_faults [true] (started []))
  = (Returns tt, set_disk_faults [] (set_disk_faults [true] (started []))).
Proof.
  apply (proj1 (failed_save_is_silent_and_partial (H0 := str_of_scalars) (JStr "abc123")
                  (SimResult (JStr "rank(close)") (JStr "abc123") true
                             (JObj scenario_metrics) 0)
                  (set_disk_faults [true] (started [])) [])).
  reflexivity.
Defined.

(** ** submit_alpha_ids *)

(** *** The text of the identifier file *)

























(** *** The driver *)

Lemma keeps_in_relation {A} (R R' : world -> world -> Prop) (Q : A -> Prop) (m : M A) :
  (forall w w', R w w' -> R' w w') -> keeps R Q m -> keeps R' Q m.
Proof. intros HR Hm w. destruct (Hm w) as [H1 H2]. split; [apply HR, H1 | exact H2]. Qed.




Section DriverMore.
Context `{FloatOfStr}.
Import BrainBatchAlpha Main.





(** The driver, with the names of the vocabulary. *)
Lemma submit_alpha_ids_unfold num_to_submit :
  submit_alpha_ids num_to_submit
  = try_catch Exception
      (found ← exists_path STORAGE_ALPHA_ID_PATH;
       if negb found then mret tt
       else
         text ← read_text STORAGE_ALPHA_ID_PATH;
         match stored_ids text with
         | [] => mret tt
         | _ =>
             r ← submit_multiple_alphas (selected_ids (stored_ids text) num_to_submit);
             write_lines STORAGE_ALPHA_ID_PATH
               (map (fun id => id +:+ String LF EmptyString)
                    (kept_ids (stored_ids text) (fst r)))
         end)
      (fun _ => mret tt).
Proof. reflexivity. Qed.






(** X22.  With no identifier file, or one that holds no identifier, the driver
    returns without a word to the service and without a change to any file,
    table or directory. *)
Theorem submit_alpha_ids_nothing_to_submit (num_to_submit : Z) (w : world) :
  (forall text, texts w !! STORAGE_ALPHA_ID_PATH = Some text -> stored_ids text = []) ->
  fst (submit_alpha_ids num_to_submit w) = Returns tt /\
  same_network w (snd (submit_alpha_ids num_to_submit w)) /\
  texts (snd (submit_alpha_ids num_to_submit w)) = texts w /\
  tables (snd (submit_alpha_ids num_to_submit w)) = tables w /\
  dirs (snd (submit_alpha_ids num_to_submit w)) = dirs w.
Proof.
  intros Hnone. rewrite submit_alpha_ids_unfold.
  unfold try_catch, exists_path, read_text, disk_op, mbind, M_bind, ask, mret, M_ret, raise.
  destruct w as [t0 wr hs se cr n faults ds tx tb]. cbn [texts tables dirs disk_faults] in *.
  destruct (negb _); [repeat split|].
  destruct faults as [|[] rest]; cbn; try (repeat split; fail);
    (destruct (tx !! STORAGE_ALPHA_ID_PATH) as [text|] eqn:E; cbn;
     [rewrite (Hnone text eq_refl)|]; repeat split).
Qed.





End DriverMore.

Lemma submit_alpha_ids_nothing_to_submit_witness :
  fst (Main.submit_alpha_ids (H := decimal_float) 2 (started [])) = Returns tt /\
  same_network (started []) (snd (Main.submit_alpha_ids (H := decimal_float) 2 (started []))) /\
  texts (snd (Main.submit_alpha_ids (H := decimal_float) 2 (started []))) = texts (started []) /\
  tables (snd (Main.submit_alpha_ids (H := decimal_float) 2 (started []))) = tables (started []) /\
  dirs (snd (Main.submit_alpha_ids (H := decimal_float) 2 (started []))) = dirs (started []).
Proof.
  apply (submit_alpha_ids_nothing_to_submit (H := decimal_float) 2 (started [])).
  intros text Hx. vm_compute in Hx. discriminate Hx.
Defined.




(** ** _get_datafields_if_none, _generate_alpha_list and simulate_alphas *)

Lemma same_disk_store_kept w w' : same_disk w w' -> store_kept w w'.
Proof. intros (_ & Hb & _) Hok r. rewrite Hb. apply Hok. Qed.

Section PreparationMore.
Context `{FloatOfStr} `{StrOf} `{DatasetConfig} `{AlphaStrategy} `{StrFormat}.
Import BrainBatchAlpha.

Lemma fetch_pages_same_disk head offsets all_fields :
  keeps same_disk (fun _ => True) (fetch_pages head offsets all_fields).
Proof.
  revert all_fields.
  induction offsets as [|offset rest IH]; intros all_fields; cbn [fetch_pages];
    [disk_ret; exact I|].
  disk_bind; [disk_rule|]. intros address _.
  disk_bind; [apply get_same_disk|]. intros resp _.
  destruct (negb _); [apply IH|].
  disk_bind; [disk_rule|]. intros body _.
  disk_bind; [disk_rule|]. intros results _.
  disk_bind; [disk_rule|]. intros items _.
  apply IH.
Qed.

Lemma _get_datafields_if_none_keeps datafields dataset_name :
  keeps same_disk (datafields_answer datafields)
        (_get_datafields_if_none datafields dataset_name).
Proof.
  unfold _get_datafields_if_none.
  apply (frame_try same_disk same_disk_trans);
    [|intros e; disk_ret; right; left; reflexivity].
  destruct datafields; try (disk_ret; left; reflexivity).
  destruct dataset_name; try (disk_ret; left; reflexivity).
  all: disk_bind; [disk_rule|]; intros config _.
  all: destruct (negb (py_truthy config)); [disk_ret; left; reflexivity|].
  all: disk_bind; [disk_rule|]; intros universe _.
  all: disk_bind; [disk_rule|]; intros id _.
  all: disk_bind; [disk_rule|]; intros address _.
  all: disk_bind; [apply get_same_disk|]; intros initial_resp _.
  all: destruct (negb _); [disk_ret; left; reflexivity|].
  all: disk_bind; [disk_rule|]; intros body _.
  all: disk_bind; [disk_rule|]; intros total_count _.
  all: disk_bind; [disk_rule|]; intros stop _.
  all: disk_bind; [apply fetch_pages_same_disk|]; intros all_fields _.
  all: disk_bind; [disk_rule|]; intros matrix_fields _.
  all: destruct matrix_fields as [|? ?]; disk_ret;
    [left; reflexivity | right; right; eauto].
Qed.


(** X28.  The filter of the fetched fields is all or nothing: it gives the
    identifiers of the MATRIX fields, in their order, when every field is a
    dictionary and every MATRIX field has an identifier; one field that is
    not makes it fail as a whole. *)
Theorem matrix_ids_all_or_nothing (all_fields : list json) :
  match matrix_ids all_fields with
  | Ok ids => Forall readable_field all_fields /\ ids = omap matrix_id_of all_fields
  | Err _ => ~ Forall readable_field all_fields
  end.
Proof.
  induction all_fields as [|field rest IH]; [split; [constructor|reflexivity]|].
  cbn [matrix_ids]. destruct field as [| | | | | |d];
    try (cbn; intros Hall; apply Forall_cons in Hall as [(d & Hd & _) _];
         discriminate Hd).
  cbn [py_get mbind result_bind]. unfold matrix_id_of at 1. cbn [omap].
  destruct (py_eq_str (default JNull (dict_get "type" d)) "MATRIX") eqn:Etype.
  - cbn [py_getitem]. destruct (dict_get "id" d) as [id|] eqn:Eid.
    + cbn [mbind result_bind]. destruct (matrix_ids rest) as [ids|e].
      * destruct IH as [Hall ->]. cbn. rewrite Etype, Eid. split; [|reflexivity].
        constructor; [|exact Hall]. exists d. split; [reflexivity|].
        intros _. rewrite Eid. eauto.
      * cbn. intros Hall. apply IH. apply Forall_cons in Hall as [_ Hall]. exact Hall.
    + cbn. intros Hall. apply Forall_cons in Hall as [(d' & Hd & Hid) _].
      injection Hd as <-. destruct (Hid Etype) as [x Hx]. rewrite Eid in Hx.
      discriminate Hx.
  - destruct (matrix_ids rest) as [ids|e].
    + destruct IH as [Hall ->]. cbn. rewrite Etype. split; [|reflexivity].
      constructor; [|exact Hall]. exists d. split; [reflexivity|].
      intros Habs. rewrite Etype in Habs. discriminate Habs.
    + intros Hall. apply IH. apply Forall_cons in Hall as [_ Hall]. exact Hall.
Qed.

Lemma Forall_simulation_data items :
  Forall (fun a => exists strategy, a = simulation_data strategy)
         (map simulation_data items).
Proof. induction items as [|x l IH]; constructor; eauto. Qed.

(** X29.  The generator of candidates never fails, and every candidate it gives
    is a strategy wrapped in the one fixed header: type REGULAR and the
    settings of the class, whatever the data fields, the mode and the
    dataset. *)
Theorem generate_alpha_list_total_and_uniform (datafields strategy_mode : json) :
  exists alpha_list,
    _generate_alpha_list datafields strategy_mode = Ok alpha_list /\
    Forall (fun a => exists strategy, a = simulation_data strategy) alpha_list.
Proof.
  unfold _generate_alpha_list, try_except.
  destruct (get_simulation_data datafields strategy_mode) as [strategies|e];
    [|eexists; split; [reflexivity|constructor]].
  destruct strategies; cbn; eexists; (split; [reflexivity|]);
    first [apply Forall_simulation_data | constructor].
Qed.

Lemma simulate_alphas_keeps_store alpha_list :
  keeps store_kept (Forall qualifying) (simulate_alphas alpha_list).
Proof.
  unfold simulate_alphas.
  apply keeps_try; [|intros e; apply keeps_ret; constructor].
  destruct alpha_list as [|alpha rest]; [apply keeps_ret; constructor|].
  apply run_pool_sound. constructor.
Qed.

Lemma simulate_alphas_method_keeps_store datafields strategy_mode dataset_name :
  keeps store_kept (Forall qualifying)
        (simulate_alphas_method datafields strategy_mode dataset_name).
Proof.
  unfold simulate_alphas_method.
  apply keeps_try; [|intros e; apply keeps_ret; constructor].
  eapply keeps_bind.
  { apply (keeps_in_relation same_disk store_kept);
      [apply same_disk_store_kept | apply _get_datafields_if_none_keeps]. }
  intros fields _.
  destruct (negb (py_truthy fields)); [apply keeps_ret; constructor|].
  eapply keeps_bind; [apply keeps_lift|]. intros alpha_list _.
  apply simulate_alphas_keeps_store.
Qed.

(** X30.  [simulate_alphas] as it is called, the two preparing steps included:
    it lets no exception out, every result it returns is flagged qualified
    and carries metrics, and a table whose rows are all of that kind stays
    so. *)
Theorem simulate_alphas_method_sound
    (datafields strategy_mode dataset_name : json) (w : world) :
  store_ok w ->
  store_ok (snd (simulate_alphas_method datafields strategy_mode dataset_name w)) /\
  match fst (simulate_alphas_method datafields strategy_mode dataset_name w) with
  | Returns results => Forall qualifying results
  | Raises _ => False
  | Blocks => True
  end.
Proof.
  intros Hok.
  destruct (simulate_alphas_method_keeps_store datafields strategy_mode dataset_name w)
    as [Hstore Hresults].
  split; [exact (Hstore Hok)|].
  assert (Hnever : forall e,
             fst (simulate_alphas_method datafields strategy_mode dataset_name w)
             <> Raises e)
    by (intros e; unfold simulate_alphas_method; apply try_catch_all_never_raises).
  destruct (fst (simulate_alphas_method datafields strategy_mode dataset_name w))
    as [results|e|]; [apply Hresults; reflexivity | exact (Hnever e eq_refl) | exact I].
Qed.

End PreparationMore.

Lemma simulate_alphas_method_sound_witness :
  store_ok
    (snd (BrainBatchAlpha.simulate_alphas_method
            (H := decimal_float) (H0 := str_of_scalars) (H1 := sample_dataset_config)
            (H2 := sample_strategy) (H3 := strict_format)
            (JArr [JStr "close"]) (JInt 1) JNull (started simulation_wire))) /\
  match fst (BrainBatchAlpha.simulate_alphas_method
               (H := decimal_float) (H0 := str_of_scalars) (H1 := sample_dataset_config)
               (H2 := sample_strategy) (H3 := strict_format)
               (JArr [JStr "close"]) (JInt 1) JNull (started simulation_wire)) with
  | Returns results => Forall qualifying results
  | Raises _ => False
  | Blocks => True
  end.
Proof.
  apply (simulate_alphas_method_sound
           (H := decimal_float) (H0 := str_of_scalars) (H1 := sample_dataset_config)
           (H2 := sample_strategy) (H3 := strict_format)
           (JArr [JStr "close"]) (JInt 1) JNull (started simulation_wire)).
  intros r Hr. vm_compute in Hr. inversion Hr.
Defined.

